(** * LensTools [_topology]: the Python binding layer of the topology kernels

    Shallow embedding of [lenstools/external/_topology.c].  The file is the
    CPython/NumPy wrapper around six C kernels ([peak_count], [gradient_xy],
    [hessian], [minkowski_functionals], [azimuthal_rfft2], [azimuthal_rfft3])
    that live in other translation units; here they are parameters.

    Platform conventions (LP64): [int] is 32 bits, [npy_intp] and [long]
    are 64 bits. *)

From Stdlib Require Import String.
From Stdlib Require Import ZArith List Bool Lia.
From Stdlib Require Import SpecFloat.
From stdpp Require Import base option list gmap.

Local Open Scope Z_scope.

(** ** Scalars and arrays *)

(** A C [double]: an IEEE-754 binary64 datum.  The wrapper never computes
    on doubles, it only moves them. *)
Definition double : Type := spec_float.
Definition complex128 : Type := (double * double)%type.

Inductive dtype : Type := NPY_BOOL | NPY_LONG | NPY_DOUBLE | NPY_COMPLEX128.

Definition dtype_eq_dec (a b : dtype) : {a = b} + {a <> b}.
Proof. decide equality. Defined.

(** The C type of one element of an array of the given type number. *)
Definition elt (t : dtype) : Type :=
  match t with
  | NPY_BOOL => bool
  | NPY_LONG => Z
  | NPY_DOUBLE => double
  | NPY_COMPLEX128 => complex128
  end.

Definition zero_of (t : dtype) : elt t :=
  match t with
  | NPY_BOOL => false
  | NPY_LONG => 0
  | NPY_DOUBLE => S754_zero false
  | NPY_COMPLEX128 => (S754_zero false, S754_zero false)
  end.

(** An aligned, C-contiguous array: its shape and its row-major buffer. *)
Record ndarray (t : dtype) : Type := mk_ndarray {
  nd_dims : list Z;
  nd_data : list (elt t)
}.
Arguments mk_ndarray {t} _ _.
Arguments nd_dims {t} _.
Arguments nd_data {t} _.

Definition nd_size (dims : list Z) : Z := fold_right Z.mul 1 dims.

(** The buffer holds exactly the elements the shape announces. *)
Definition nd_wf {t} (a : ndarray t) : Prop :=
  Forall (fun d => 0 <= d) (nd_dims a) /\
  Z.of_nat (length (nd_data a)) = nd_size (nd_dims a).

(** ** C integers *)

Definition INT_MAX : Z := 2147483647.
Definition INT_MIN : Z := -2147483648.

(** [(int) x] for a 64-bit [x]: reduction modulo 2^32 into the signed range. *)
Definition to_int (x : Z) : Z := (x + 2147483648) mod 4294967296 - 2147483648.

(** ** Python objects as the wrapper sees them *)

Inductive exn : Type :=
  TypeError | ValueError | MemoryError | SystemError | IndexError | OverflowError.

(** An argument object is known to the wrapper only through three
    observations: its identity with [Py_None], its conversion by the ["d"]
    format unit, and what [PyArray_FROM_OTF] makes of it for a requested
    type number (an array of that type, or an exception).  The ["d"] unit
    converts with [PyFloat_AsDouble]; when the object has no double value
    the exception is the one that conversion raises: [TypeError] for an
    object that is no number, [OverflowError] for an integer too large
    for a double, or whatever its [__float__] method raises. *)
Record PyObject : Type := mk_PyObject {
  ob_is_None : bool;
  ob_as_double : option double;
  ob_double_error : exn;
  ob_as_array : forall t : dtype, exn + ndarray t
}.

(** ** The interpreter state *)

Definition loc : Type := nat.

(** A [PyObject *]: NULL or the address of an object. *)
Definition ptr : Type := option loc.
Definition NULL : ptr := None.

Definition is_null (p : ptr) : bool :=
  match p with
  | None => true
  | Some _ => false
  end.

Inductive pyval : Type :=
| VArray (t : dtype) (a : ndarray t)
| VTuple (items : list ptr).

Record heapobj : Type := mk_heapobj {
  ob_refcnt : Z;
  ob_val : pyval
}.

(** A record of one kernel invocation, with the arguments it was handed
    (buffers by content, [None] for a NULL mask pointer). *)
Inductive kernel_call : Type :=
| Call_peak_count (map : list double) (mask : option (list bool))
    (Nside : Z) (sigma : double) (Nthreshold : Z)
    (thresholds peaks : list double)
| Call_gradient_xy (map grad_x grad_y : list double) (Nside : Z)
| Call_hessian (map hess_xx hess_yy hess_xy : list double) (Nside : Z)
| Call_minkowski_functionals (map : list double) (mask : option (list bool))
    (Nside : Z) (sigma : double)
    (grad_x grad_y hess_xx hess_yy hess_xy : list double)
    (Nthreshold : Z) (thresholds mink0 mink1 mink2 : list double)
| Call_azimuthal_rfft2 (ft1 ft2 : list complex128) (Nside_x Nside_y : Z)
    (map_angle_degrees : double) (Nvalues : Z) (lvalues power : list double)
| Call_azimuthal_rfft3 (ft1 ft2 : list complex128) (Nside_x Nside_y Nside_z : Z)
    (kpixX kpixY kpixZ : double) (Nvalues : Z) (kvalues power : list double)
    (hits : list Z).

Record PyState : Type := mk_PyState {
  heap : gmap loc heapobj;          (* live objects *)
  next : loc;                       (* next address handed out *)
  err : option exn;                 (* the error indicator *)
  mem : list bool;                  (* outcome of the coming allocations *)
  junk : loc -> forall t : dtype, nat -> elt t;
                                    (* stale content of fresh memory *)
  calls : list kernel_call          (* kernels invoked so far *)
}.

(** ** A state monad with undefined behaviour *)

Inductive outcome (A : Type) : Type :=
| Done (a : A) (s : PyState)
| Undefined.
Arguments Done {A} _ _.
Arguments Undefined {A}.

Definition M (A : Type) : Type := PyState -> outcome A.

Definition ret {A} (a : A) : M A := fun s => Done a s.

Definition bind {A B} (m : M A) (k : A -> M B) : M B :=
  fun s => match m s with
           | Done a s' => k a s'
           | Undefined => Undefined
           end.

Definition undefined {A} : M A := fun _ => Undefined.

Notation "'let*' x ':=' m 'in' k" := (bind m (fun x => k))
  (at level 10, x pattern, m at level 100, k at level 200).
Notation "m ';;' k" := (bind m (fun _ => k))
  (at level 100, k at level 200, right associativity).

(** ** Heap primitives *)

Definition hget (l : loc) (h : gmap loc heapobj) : option heapobj := h !! l.
Definition hput (l : loc) (o : heapobj) (h : gmap loc heapobj) : gmap loc heapobj :=
  <[l := o]> h.
Definition hdel (l : loc) (h : gmap loc heapobj) : gmap loc heapobj := delete l h.

Definition set_heap (h : gmap loc heapobj) (s : PyState) : PyState :=
  mk_PyState h (next s) (err s) (mem s) (junk s) (calls s).

Definition set_err (e : exn) (s : PyState) : PyState :=
  mk_PyState (heap s) (next s) (Some e) (mem s) (junk s) (calls s).

(** Does the coming allocation succeed?  An exhausted list means that
    memory is plentiful. *)
Definition mem_ok (m : list bool) : bool :=
  match m with
  | [] => true
  | b :: _ => b
  end.

(** A new object with one reference, at the next free address. *)
Definition new_object (v : pyval) (s : PyState) : loc * PyState :=
  (next s,
   mk_PyState (hput (next s) (mk_heapobj 1 v) (heap s)) (S (next s))
     (err s) (mem s) (junk s) (calls s)).

Definition pop_mem (s : PyState) : PyState :=
  mk_PyState (heap s) (next s) (err s) (tail (mem s)) (junk s) (calls s).

(** Dropping one reference to an array, or to a tuple whose items were
    already dealt with. *)
Definition drop_ref (l : loc) (h : gmap loc heapobj) : option (gmap loc heapobj) :=
  match hget l h with
  | None => None
  | Some o =>
      if ob_refcnt o - 1 =? 0 then Some (hdel l h)
      else Some (hput l (mk_heapobj (ob_refcnt o - 1) (ob_val o)) h)
  end.

Definition drop_item (it : ptr) (oh : option (gmap loc heapobj))
  : option (gmap loc heapobj) :=
  match it, oh with
  | _, None => None
  | None, Some h => Some h
  | Some l, Some h => drop_ref l h
  end.

(** [Py_DECREF]: the count goes down by one; at zero the object is
    deallocated, a tuple first giving up the references it holds (the
    module only builds tuples of arrays, so one level is enough).
    A NULL argument or a dead object is undefined behaviour. *)
Definition Py_DECREF (p : ptr) : M unit := fun s =>
  match p with
  | None => Undefined
  | Some l =>
      match hget l (heap s) with
      | None => Undefined
      | Some o =>
          if ob_refcnt o - 1 =? 0 then
            match ob_val o with
            | VArray _ _ => Done tt (set_heap (hdel l (heap s)) s)
            | VTuple items =>
                match fold_right drop_item (Some (hdel l (heap s))) items with
                | Some h' => Done tt (set_heap h' s)
                | None => Undefined
                end
            end
          else
            Done tt (set_heap (hput l (mk_heapobj (ob_refcnt o - 1) (ob_val o))
                                 (heap s)) s)
      end
  end.

Definition Py_XDECREF (p : ptr) : M unit :=
  if is_null p then ret tt else Py_DECREF p.

(** ** The C-API calls the module makes *)

(** Format units of [PyArg_ParseTuple]. *)
Inductive fmt : Type := fmt_O | fmt_d.

Fixpoint parsed (f : list fmt) : Type :=
  match f with
  | [] => unit
  | fmt_O :: f' => (PyObject * parsed f')%type
  | fmt_d :: f' => (double * parsed f')%type
  end.

Fixpoint parse_args (f : list fmt) (args : list PyObject) : option (parsed f) :=
  match f as f0 return option (parsed f0) with
  | [] => match args with [] => Some tt | _ :: _ => None end
  | fmt_O :: f' =>
      match args with
      | [] => None
      | o :: args' =>
          match parse_args f' args' with
          | Some r => Some (o, r)
          | None => None
          end
      end
  | fmt_d :: f' =>
      match args with
      | [] => None
      | o :: args' =>
          match ob_as_double o with
          | None => None
          | Some d =>
              match parse_args f' args' with
              | Some r => Some (d, r)
              | None => None
              end
          end
      end
  end.

(** The exception of the first [d] unit, in the order of the format,
    whose object has no double value. *)
Fixpoint first_double_error (f : list fmt) (args : list PyObject) : option exn :=
  match f, args with
  | fmt_O :: f', _ :: args' => first_double_error f' args'
  | fmt_d :: f', o :: args' =>
      match ob_as_double o with
      | None => Some (ob_double_error o)
      | Some _ => first_double_error f' args'
      end
  | _, _ => None
  end.

(** What a failed parse leaves in the error indicator.  The number of
    arguments is compared with the number of units before anything is
    converted, and a mismatch is a [TypeError]; the units are then
    converted in order and the first conversion that fails leaves its own
    exception.  (A tuple of the right length none of whose [d] units
    fails is parsed, and leaves nothing.) *)
Definition parse_error (f : list fmt) (args : list PyObject) : exn :=
  if (length args =? length f)%nat then
    match first_double_error f args with
    | Some e => e
    | None => TypeError
    end
  else TypeError.

(** [PyArg_ParseTuple]: false, with an exception set, when the tuple does
    not fit the format. *)
Definition PyArg_ParseTuple (args : list PyObject) (f : list fmt)
  : M (option (parsed f)) := fun s =>
  match parse_args f args with
  | Some r => Done (Some r) s
  | None => Done None (set_err (parse_error f args) s)
  end.

(** [PyArray_FROM_OTF(obj, typenum, NPY_IN_ARRAY)]: a new reference to an
    array of the requested type, or NULL with an exception set. *)
Definition PyArray_FROM_OTF (o : PyObject) (t : dtype) : M ptr := fun s =>
  match ob_as_array o t with
  | inl e => Done NULL (set_err e s)
  | inr a => let '(l, s') := new_object (VArray t a) s in Done (Some l) s'
  end.

(** [PyArray_DIM(arr, i)]: reading past the shape is undefined. *)
Definition PyArray_DIM (p : ptr) (i : nat) : M Z := fun s =>
  match p with
  | None => Undefined
  | Some l =>
      match hget l (heap s) with
      | Some (mk_heapobj _ (VArray _ a)) =>
          match nd_dims a !! i with
          | Some d => Done d s
          | None => Undefined
          end
      | _ => Undefined
      end
  end.

(** The largest [npy_intp]. *)
Definition NPY_MAX_INTP : Z := 9223372036854775807.

(** The size in bytes of one element. *)
Definition elsize (t : dtype) : Z :=
  match t with
  | NPY_BOOL => 1
  | NPY_LONG => 8
  | NPY_DOUBLE => 8
  | NPY_COMPLEX128 => 16
  end.

(** The check NumPy makes of a requested shape before it allocates.  The
    extents are visited in order, [nbytes] starting at the element size:
    an extent of zero is passed over, a negative one is refused, and so
    is one whose product with [nbytes] overflows [npy_intp]. *)
Fixpoint shape_refused (nbytes : Z) (dims : list Z) : bool :=
  match dims with
  | [] => false
  | d :: dims' =>
      if d =? 0 then shape_refused nbytes dims'
      else if d <? 0 then true
      else if NPY_MAX_INTP <? nbytes * d then true
      else shape_refused (nbytes * d) dims'
  end.

(** A buffer of [n] cells, cell [i] holding [f i]. *)
Definition filled {A} (f : nat -> A) (n : Z) : list A := map f (seq 0 (Z.to_nat n)).

(** Common part of [PyArray_ZEROS] and [PyArray_SimpleNew]: a shape that
    is refused raises [ValueError] before any memory is requested, lack
    of memory raises [MemoryError]. *)
Definition new_array (dims : list Z) (t : dtype)
    (fill : loc -> nat -> elt t) : M ptr := fun s =>
  if shape_refused (elsize t) dims then Done NULL (set_err ValueError s)
  else if mem_ok (mem s) then
    let data := filled (fill (next s)) (nd_size dims) in
    let '(l, s') := new_object (VArray t (mk_ndarray dims data)) (pop_mem s) in
    Done (Some l) s'
  else Done NULL (set_err MemoryError (pop_mem s)).

Definition PyArray_ZEROS (dims : list Z) (t : dtype) : M ptr :=
  new_array dims t (fun _ _ => zero_of t).

(** [PyArray_SimpleNew] leaves the buffer uninitialised. *)
Definition PyArray_SimpleNew (dims : list Z) (t : dtype) : M ptr := fun s =>
  new_array dims t (fun l i => junk s l t i) s.

Definition cast_data (t t' : dtype) (d : list (elt t')) : option (list (elt t)) :=
  match dtype_eq_dec t' t with
  | left e => Some (eq_rect t' (fun x => list (elt x)) d t e)
  | right _ => None
  end.

(** [(T * )PyArray_DATA(arr)], read as a buffer of the element type [t]. *)
Definition PyArray_DATA (t : dtype) (p : ptr) : M (list (elt t)) := fun s =>
  match p with
  | None => Undefined
  | Some l =>
      match hget l (heap s) with
      | Some (mk_heapobj _ (VArray t' a)) =>
          match cast_data t t' (nd_data a) with
          | Some d => Done d s
          | None => Undefined
          end
      | _ => Undefined
      end
  end.

(** [PyTuple_New(n)]: [n] NULL items, or NULL with [MemoryError]. *)
Definition PyTuple_New (n : nat) : M ptr := fun s =>
  if mem_ok (mem s) then
    let '(l, s') := new_object (VTuple (repeat NULL n)) (pop_mem s) in
    Done (Some l) s'
  else Done NULL (set_err MemoryError (pop_mem s)).

(** [PyTuple_SetItem(p, i, o)] steals the reference to [o], also when it
    fails; it inspects [p] first, so a NULL [p] is a NULL dereference. *)
Definition PyTuple_SetItem (p : ptr) (i : nat) (o : ptr) : M Z := fun s =>
  match p with
  | None => Undefined
  | Some l =>
      match hget l (heap s) with
      | None => Undefined
      | Some (mk_heapobj rc (VTuple items)) =>
          if rc =? 1 then
            match items !! i with
            | Some old =>
                (Py_XDECREF old ;;
                 fun s1 =>
                   Done 0 (set_heap (hput l (mk_heapobj rc (VTuple (<[i := o]> items)))
                                       (heap s1)) s1)) s
            | None => (Py_XDECREF o ;; fun s1 => Done (-1) (set_err IndexError s1)) s
            end
          else (Py_XDECREF o ;; fun s1 => Done (-1) (set_err SystemError s1)) s
      | Some (mk_heapobj _ (VArray _ _)) =>
          (Py_XDECREF o ;; fun s1 => Done (-1) (set_err SystemError s1)) s
      end
  end.

(** ** Kernels writing through output pointers *)

(** What a kernel does to an output buffer: a sequence of stores
    [buf[i] = v], in program order. *)
Definition stores (A : Type) : Type := list (nat * A).

Fixpoint apply_stores {A} (w : stores A) (buf : list A) : option (list A) :=
  match w with
  | [] => Some buf
  | (i, v) :: w' =>
      if (i <? length buf)%nat then apply_stores w' (<[i := v]> buf) else None
  end.

(** The stores land in the buffer of the array at [p]; one past its end
    is undefined. *)
Definition write_data (t : dtype) (p : ptr) (w : stores (elt t)) : M unit := fun s =>
  match p with
  | None => Undefined
  | Some l =>
      match hget l (heap s) with
      | Some (mk_heapobj rc (VArray t' a)) =>
          match dtype_eq_dec t t' with
          | left e =>
              match apply_stores (eq_rect t (fun x => stores (elt x)) w t' e) (nd_data a) with
              | Some d =>
                  Done tt (set_heap (hput l (mk_heapobj rc (VArray t' (mk_ndarray (nd_dims a) d)))
                                       (heap s)) s)
              | None => Undefined
              end
          | right _ => Undefined
          end
      | _ => Undefined
      end
  end.

Definition log (c : kernel_call) : M unit := fun s =>
  Done tt (mk_PyState (heap s) (next s) (err s) (mem s) (junk s) (calls s ++ [c])).

(** The kernels declared in [peaks.h], [differentials.h], [minkowski.h]
    and [azimuth.h].  Each is given the content of the buffers its pointer
    arguments address and answers with the stores it performs on its
    output buffers; the two azimuthal kernels also return a status, zero
    for success. *)
Record Kernels : Type := mk_Kernels {
  peak_count :
    list double -> option (list bool) -> Z -> double -> Z ->
    list double -> list double -> stores double;
  gradient_xy :
    list double -> list double -> list double -> Z ->
    stores double * stores double;
  hessian :
    list double -> list double -> list double -> list double -> Z ->
    stores double * stores double * stores double;
  minkowski_functionals :
    list double -> option (list bool) -> Z -> double ->
    list double -> list double -> list double -> list double -> list double ->
    Z -> list double -> list double -> list double -> list double ->
    stores double * stores double * stores double;
  azimuthal_rfft2 :
    list complex128 -> list complex128 -> Z -> Z -> double -> Z ->
    list double -> list double -> Z * stores double;
  azimuthal_rfft3 :
    list complex128 -> list complex128 -> Z -> Z -> Z ->
    double -> double -> double -> Z -> list double -> list double -> list Z ->
    Z * stores double * stores Z
}.

(** [a - b] on [int]: signed overflow is undefined. *)
Definition int_sub (a b : Z) : M Z :=
  if (INT_MIN <=? a - b) && (a - b <=? INT_MAX) then ret (a - b) else undefined.

Fixpoint decref_all (ps : list ptr) : M unit :=
  match ps with
  | [] => ret tt
  | p :: ps' => Py_DECREF p ;; decref_all ps'
  end.

Fixpoint xdecref_all (ps : list ptr) : M unit :=
  match ps with
  | [] => ret tt
  | p :: ps' => Py_XDECREF p ;; xdecref_all ps'
  end.

(** [unsigned char *mask_profile]: the mask buffer, or NULL without a mask. *)
Definition mask_profile_of (mask_array : ptr) : M (option (list bool)) :=
  if is_null mask_array then ret None
  else let* d := PyArray_DATA NPY_BOOL mask_array in ret (Some d).

(** ** The module *)

Section Topology.

Variable K : Kernels.

(** *** Kernel invocations *)

Definition run_peak_count (map : list double) (mask_profile : option (list bool))
    (Nside : Z) (sigma : double) (Nthreshold : Z) (thresholds : list double)
    (peaks_array : ptr) : M unit :=
  let* peaks := PyArray_DATA NPY_DOUBLE peaks_array in
  log (Call_peak_count map mask_profile Nside sigma Nthreshold thresholds peaks) ;;
  write_data NPY_DOUBLE peaks_array
    (peak_count K map mask_profile Nside sigma Nthreshold thresholds peaks).

Definition run_gradient_xy (map : list double) (gradient_x_array gradient_y_array : ptr)
    (Nside : Z) : M unit :=
  let* gx := PyArray_DATA NPY_DOUBLE gradient_x_array in
  let* gy := PyArray_DATA NPY_DOUBLE gradient_y_array in
  log (Call_gradient_xy map gx gy Nside) ;;
  let '(wx, wy) := gradient_xy K map gx gy Nside in
  write_data NPY_DOUBLE gradient_x_array wx ;;
  write_data NPY_DOUBLE gradient_y_array wy.

Definition run_hessian (map : list double)
    (hessian_xx_array hessian_yy_array hessian_xy_array : ptr) (Nside : Z) : M unit :=
  let* hxx := PyArray_DATA NPY_DOUBLE hessian_xx_array in
  let* hyy := PyArray_DATA NPY_DOUBLE hessian_yy_array in
  let* hxy := PyArray_DATA NPY_DOUBLE hessian_xy_array in
  log (Call_hessian map hxx hyy hxy Nside) ;;
  let '(wxx, wyy, wxy) := hessian K map hxx hyy hxy Nside in
  write_data NPY_DOUBLE hessian_xx_array wxx ;;
  write_data NPY_DOUBLE hessian_yy_array wyy ;;
  write_data NPY_DOUBLE hessian_xy_array wxy.

Definition run_minkowski_functionals (map : list double)
    (mask_profile : option (list bool)) (Nside : Z) (sigma : double)
    (grad_x grad_y hess_xx hess_yy hess_xy : list double) (Nthreshold : Z)
    (thresholds : list double) (mink0_array mink1_array mink2_array : ptr) : M unit :=
  let* m0 := PyArray_DATA NPY_DOUBLE mink0_array in
  let* m1 := PyArray_DATA NPY_DOUBLE mink1_array in
  let* m2 := PyArray_DATA NPY_DOUBLE mink2_array in
  log (Call_minkowski_functionals map mask_profile Nside sigma grad_x grad_y
         hess_xx hess_yy hess_xy Nthreshold thresholds m0 m1 m2) ;;
  let '(w0, w1, w2) :=
    minkowski_functionals K map mask_profile Nside sigma grad_x grad_y
      hess_xx hess_yy hess_xy Nthreshold thresholds m0 m1 m2 in
  write_data NPY_DOUBLE mink0_array w0 ;;
  write_data NPY_DOUBLE mink1_array w1 ;;
  write_data NPY_DOUBLE mink2_array w2.

Definition run_azimuthal_rfft2 (ft1 ft2 : list complex128) (Nside_x Nside_y : Z)
    (map_angle_degrees : double) (Nvalues : Z) (lvalues : list double)
    (power_array : ptr) : M Z :=
  let* power := PyArray_DATA NPY_DOUBLE power_array in
  log (Call_azimuthal_rfft2 ft1 ft2 Nside_x Nside_y map_angle_degrees Nvalues
         lvalues power) ;;
  let '(status, w) :=
    azimuthal_rfft2 K ft1 ft2 Nside_x Nside_y map_angle_degrees Nvalues lvalues power in
  write_data NPY_DOUBLE power_array w ;;
  ret status.

Definition run_azimuthal_rfft3 (ft1 ft2 : list complex128) (Nside_x Nside_y Nside_z : Z)
    (kpixX kpixY kpixZ : double) (Nvalues : Z) (kvalues : list double)
    (power_array hits_array : ptr) : M Z :=
  let* power := PyArray_DATA NPY_DOUBLE power_array in
  let* hits := PyArray_DATA NPY_LONG hits_array in
  log (Call_azimuthal_rfft3 ft1 ft2 Nside_x Nside_y Nside_z kpixX kpixY kpixZ
         Nvalues kvalues power hits) ;;
  let '(status, wp, wh) :=
    azimuthal_rfft3 K ft1 ft2 Nside_x Nside_y Nside_z kpixX kpixY kpixZ
      Nvalues kvalues power hits in
  write_data NPY_DOUBLE power_array wp ;;
  write_data NPY_LONG hits_array wh ;;
  ret status.

(** *** [peakCount] *)

(** Lines 104-146: from the map size to the return. *)
Definition _topology_peakCount_tail (map_array thresholds_array mask_array : ptr)
    (sigma : double) : M ptr :=
  let* d0 := PyArray_DIM map_array 0 in
  let Nside := to_int d0 in
  let* t0 := PyArray_DIM thresholds_array 0 in
  let Nthreshold := to_int t0 in
  let dims := [Nthreshold - 1] in
  let* peaks_array := PyArray_ZEROS dims NPY_DOUBLE in
  if is_null peaks_array then
    Py_DECREF map_array ;;
    Py_DECREF thresholds_array ;;
    (if is_null mask_array then ret tt else Py_DECREF mask_array) ;;
    ret NULL
  else
    let* mask_profile := mask_profile_of mask_array in
    let* map := PyArray_DATA NPY_DOUBLE map_array in
    let* thresholds := PyArray_DATA NPY_DOUBLE thresholds_array in
    run_peak_count map mask_profile Nside sigma Nthreshold thresholds peaks_array ;;
    Py_DECREF map_array ;;
    Py_DECREF thresholds_array ;;
    (if is_null mask_array then ret tt else Py_DECREF mask_array) ;;
    ret peaks_array.

Definition _topology_peakCount (args : list PyObject) : M ptr :=
  let* a := PyArg_ParseTuple args [fmt_O; fmt_O; fmt_O; fmt_d] in
  match a with
  | None => ret NULL
  | Some (map_obj, (mask_obj, (thresholds_obj, (sigma, _)))) =>
      let* map_array := PyArray_FROM_OTF map_obj NPY_DOUBLE in
      let* thresholds_array := PyArray_FROM_OTF thresholds_obj NPY_DOUBLE in
      if is_null map_array || is_null thresholds_array then
        Py_XDECREF map_array ;;
        Py_XDECREF thresholds_array ;;
        ret NULL
      else if negb (ob_is_None mask_obj) then
        let* mask_array := PyArray_FROM_OTF mask_obj NPY_BOOL in
        if is_null mask_array then
          Py_DECREF map_array ;;
          Py_DECREF thresholds_array ;;
          ret NULL
        else _topology_peakCount_tail map_array thresholds_array mask_array sigma
      else _topology_peakCount_tail map_array thresholds_array NULL sigma
  end.

(** *** [gradient] *)

Definition _topology_gradient (args : list PyObject) : M ptr :=
  let* a := PyArg_ParseTuple args [fmt_O] in
  match a with
  | None => ret NULL
  | Some (map_obj, _) =>
      let* map_array := PyArray_FROM_OTF map_obj NPY_DOUBLE in
      if is_null map_array then ret NULL
      else
        let* d0 := PyArray_DIM map_array 0 in
        let Nside := to_int d0 in
        let dims := [Nside; Nside] in
        let* gradient_x_array := PyArray_SimpleNew dims NPY_DOUBLE in
        let* gradient_y_array := PyArray_SimpleNew dims NPY_DOUBLE in
        if is_null gradient_x_array || is_null gradient_y_array then
          Py_DECREF map_array ;;
          Py_XDECREF gradient_x_array ;;
          Py_XDECREF gradient_y_array ;;
          ret NULL
        else
          let* map := PyArray_DATA NPY_DOUBLE map_array in
          run_gradient_xy map gradient_x_array gradient_y_array Nside ;;
          let* gradient_output := PyTuple_New 2 in
          let* r0 := PyTuple_SetItem gradient_output 0 gradient_x_array in
          if negb (r0 =? 0) then
            decref_all [map_array; gradient_x_array; gradient_y_array; gradient_output] ;;
            ret NULL
          else
            let* r1 := PyTuple_SetItem gradient_output 1 gradient_y_array in
            if negb (r1 =? 0) then
              decref_all [map_array; gradient_x_array; gradient_y_array; gradient_output] ;;
              ret NULL
            else
              Py_DECREF map_array ;;
              ret gradient_output
  end.

(** *** [hessian] *)

Definition _topology_hessian (args : list PyObject) : M ptr :=
  let* a := PyArg_ParseTuple args [fmt_O] in
  match a with
  | None => ret NULL
  | Some (map_obj, _) =>
      let* map_array := PyArray_FROM_OTF map_obj NPY_DOUBLE in
      if is_null map_array then ret NULL
      else
        let* d0 := PyArray_DIM map_array 0 in
        let Nside := to_int d0 in
        let dims := [Nside; Nside] in
        let* hessian_xx_array := PyArray_SimpleNew dims NPY_DOUBLE in
        let* hessian_yy_array := PyArray_SimpleNew dims NPY_DOUBLE in
        let* hessian_xy_array := PyArray_SimpleNew dims NPY_DOUBLE in
        if is_null hessian_xx_array || is_null hessian_yy_array
           || is_null hessian_xy_array then
          Py_DECREF map_array ;;
          Py_XDECREF hessian_xx_array ;;
          Py_XDECREF hessian_yy_array ;;
          Py_XDECREF hessian_xy_array ;;
          ret NULL
        else
          let* map := PyArray_DATA NPY_DOUBLE map_array in
          run_hessian map hessian_xx_array hessian_yy_array hessian_xy_array Nside ;;
          let* hessian_output := PyTuple_New 3 in
          let cleanup :=
            decref_all [map_array; hessian_xx_array; hessian_yy_array;
                        hessian_xy_array; hessian_output] ;;
            ret NULL in
          let* r0 := PyTuple_SetItem hessian_output 0 hessian_xx_array in
          if negb (r0 =? 0) then cleanup
          else
            let* r1 := PyTuple_SetItem hessian_output 1 hessian_yy_array in
            if negb (r1 =? 0) then cleanup
            else
              let* r2 := PyTuple_SetItem hessian_output 2 hessian_xy_array in
              if negb (r2 =? 0) then cleanup
              else
                Py_DECREF map_array ;;
                ret hessian_output
  end.

(** *** [minkowski] *)

(** Lines 361-495: from the map size to the return. *)
Definition _topology_minkowski_tail
    (map_array grad_x_array grad_y_array hess_xx_array hess_yy_array
       hess_xy_array thresholds_array mask_array : ptr)
    (sigma : double) : M ptr :=
  let inputs :=
    [map_array; grad_x_array; grad_y_array; hess_xx_array; hess_yy_array;
     hess_xy_array; thresholds_array] in
  let* d0 := PyArray_DIM map_array 0 in
  let Nside := to_int d0 in
  let* t0 := PyArray_DIM thresholds_array 0 in
  let Nthreshold := to_int t0 in
  let* n1 := int_sub Nthreshold 1 in
  let dims := [n1] in
  let* mink0_array := PyArray_ZEROS dims NPY_DOUBLE in
  let* mink1_array := PyArray_ZEROS dims NPY_DOUBLE in
  let* mink2_array := PyArray_ZEROS dims NPY_DOUBLE in
  let* mink_output := PyTuple_New 3 in
  if is_null mink0_array || is_null mink1_array || is_null mink2_array
     || is_null mink_output then
    decref_all inputs ;;
    (if is_null mask_array then ret tt else Py_DECREF mask_array) ;;
    xdecref_all [mink0_array; mink1_array; mink2_array; mink_output] ;;
    ret NULL
  else
    let* mask_profile := mask_profile_of mask_array in
    let* map := PyArray_DATA NPY_DOUBLE map_array in
    let* grad_x := PyArray_DATA NPY_DOUBLE grad_x_array in
    let* grad_y := PyArray_DATA NPY_DOUBLE grad_y_array in
    let* hess_xx := PyArray_DATA NPY_DOUBLE hess_xx_array in
    let* hess_yy := PyArray_DATA NPY_DOUBLE hess_yy_array in
    let* hess_xy := PyArray_DATA NPY_DOUBLE hess_xy_array in
    let* thresholds := PyArray_DATA NPY_DOUBLE thresholds_array in
    run_minkowski_functionals map mask_profile Nside sigma grad_x grad_y
      hess_xx hess_yy hess_xy Nthreshold thresholds
      mink0_array mink1_array mink2_array ;;
    let cleanup :=
      decref_all inputs ;;
      (if is_null mask_array then ret tt else Py_DECREF mask_array) ;;
      decref_all [mink0_array; mink1_array; mink2_array; mink_output] ;;
      ret NULL in
    let* r0 := PyTuple_SetItem mink_output 0 mink0_array in
    if negb (r0 =? 0) then cleanup
    else
      let* r1 := PyTuple_SetItem mink_output 1 mink1_array in
      if negb (r1 =? 0) then cleanup
      else
        let* r2 := PyTuple_SetItem mink_output 2 mink2_array in
        if negb (r2 =? 0) then cleanup
        else
          decref_all inputs ;;
          (if is_null mask_array then ret tt else Py_DECREF mask_array) ;;
          ret mink_output.

Definition _topology_minkowski (args : list PyObject) : M ptr :=
  let* a := PyArg_ParseTuple args
              [fmt_O; fmt_O; fmt_O; fmt_O; fmt_O; fmt_O; fmt_O; fmt_O; fmt_d] in
  match a with
  | None => ret NULL
  | Some (map_obj, (mask_obj, (grad_x_obj, (grad_y_obj, (hess_xx_obj,
            (hess_yy_obj, (hess_xy_obj, (thresholds_obj, (sigma, _))))))))) =>
      let* map_array := PyArray_FROM_OTF map_obj NPY_DOUBLE in
      let* grad_x_array := PyArray_FROM_OTF grad_x_obj NPY_DOUBLE in
      let* grad_y_array := PyArray_FROM_OTF grad_y_obj NPY_DOUBLE in
      let* hess_xx_array := PyArray_FROM_OTF hess_xx_obj NPY_DOUBLE in
      let* hess_yy_array := PyArray_FROM_OTF hess_yy_obj NPY_DOUBLE in
      let* hess_xy_array := PyArray_FROM_OTF hess_xy_obj NPY_DOUBLE in
      let* thresholds_array := PyArray_FROM_OTF thresholds_obj NPY_DOUBLE in
      let inputs :=
        [map_array; grad_x_array; grad_y_array; hess_xx_array; hess_yy_array;
         hess_xy_array; thresholds_array] in
      let fail :=
        is_null map_array || is_null grad_x_array || is_null grad_y_array
        || is_null hess_xx_array || is_null hess_yy_array || is_null hess_xy_array
        || is_null thresholds_array in
      if fail then
        xdecref_all inputs ;;
        ret NULL
      else if negb (ob_is_None mask_obj) then
        let* mask_array := PyArray_FROM_OTF mask_obj NPY_BOOL in
        if is_null mask_array then
          decref_all inputs ;;
          ret NULL
        else
          _topology_minkowski_tail map_array grad_x_array grad_y_array
            hess_xx_array hess_yy_array hess_xy_array thresholds_array
            mask_array sigma
      else
        _topology_minkowski_tail map_array grad_x_array grad_y_array
          hess_xx_array hess_yy_array hess_xy_array thresholds_array
          NULL sigma
  end.

(** *** [rfft2_azimuthal] *)

Definition _topology_rfft2_azimuthal (args : list PyObject) : M ptr :=
  let* a := PyArg_ParseTuple args [fmt_O; fmt_O; fmt_d; fmt_O] in
  match a with
  | None => ret NULL
  | Some (ft_map1_obj, (ft_map2_obj, (map_angle_degrees, (lvalues_obj, _)))) =>
      let* ft_map1_array := PyArray_FROM_OTF ft_map1_obj NPY_COMPLEX128 in
      let* ft_map2_array := PyArray_FROM_OTF ft_map2_obj NPY_COMPLEX128 in
      let* lvalues_array := PyArray_FROM_OTF lvalues_obj NPY_DOUBLE in
      if is_null ft_map1_array || is_null lvalues_array || is_null ft_map2_array then
        xdecref_all [ft_map1_array; ft_map2_array; lvalues_array] ;;
        ret NULL
      else
        let* x0 := PyArray_DIM ft_map1_array 0 in
        let Nside_x := to_int x0 in
        let* y0 := PyArray_DIM ft_map1_array 1 in
        let Nside_y := to_int y0 in
        let* v0 := PyArray_DIM lvalues_array 0 in
        let Nvalues := to_int v0 in
        let dims := [Nvalues - 1] in
        let* power_array := PyArray_ZEROS dims NPY_DOUBLE in
        if is_null power_array then
          decref_all [ft_map1_array; ft_map2_array; lvalues_array] ;;
          ret NULL
        else
          let* ft1 := PyArray_DATA NPY_COMPLEX128 ft_map1_array in
          let* ft2 := PyArray_DATA NPY_COMPLEX128 ft_map2_array in
          let* lvalues := PyArray_DATA NPY_DOUBLE lvalues_array in
          let* status :=
            run_azimuthal_rfft2 ft1 ft2 Nside_x Nside_y map_angle_degrees
              Nvalues lvalues power_array in
          if negb (status =? 0) then
            decref_all [ft_map1_array; ft_map2_array; lvalues_array; power_array] ;;
            ret NULL
          else
            decref_all [ft_map1_array; ft_map2_array; lvalues_array] ;;
            ret power_array
  end.

(** *** [rfft3_azimuthal] *)

Definition _topology_rfft3_azimuthal (args : list PyObject) : M ptr :=
  let* a := PyArg_ParseTuple args [fmt_O; fmt_O; fmt_d; fmt_d; fmt_d; fmt_O] in
  match a with
  | None => ret NULL
  | Some (ft_map1_obj, (ft_map2_obj, (kpixX, (kpixY, (kpixZ, (kvalues_obj, _)))))) =>
      let* ft_map1_array := PyArray_FROM_OTF ft_map1_obj NPY_COMPLEX128 in
      let* ft_map2_array := PyArray_FROM_OTF ft_map2_obj NPY_COMPLEX128 in
      let* kvalues_array := PyArray_FROM_OTF kvalues_obj NPY_DOUBLE in
      if is_null ft_map1_array || is_null kvalues_array || is_null ft_map2_array then
        xdecref_all [ft_map1_array; ft_map2_array; kvalues_array] ;;
        ret NULL
      else
        let* x0 := PyArray_DIM ft_map1_array 0 in
        let Nside_x := to_int x0 in
        let* y0 := PyArray_DIM ft_map1_array 1 in
        let Nside_y := to_int y0 in
        let* z0 := PyArray_DIM ft_map1_array 2 in
        let Nside_z := to_int z0 in
        let* v0 := PyArray_DIM kvalues_array 0 in
        let Nvalues := to_int v0 in
        let dims := [Nvalues - 1] in
        let* power_array := PyArray_ZEROS dims NPY_DOUBLE in
        let* hits_array := PyArray_ZEROS dims NPY_LONG in
        if is_null power_array || is_null hits_array then
          decref_all [ft_map1_array; ft_map2_array; kvalues_array] ;;
          xdecref_all [power_array; hits_array] ;;
          ret NULL
        else
          let* ft1 := PyArray_DATA NPY_COMPLEX128 ft_map1_array in
          let* ft2 := PyArray_DATA NPY_COMPLEX128 ft_map2_array in
          let* kvalues := PyArray_DATA NPY_DOUBLE kvalues_array in
          let* status :=
            run_azimuthal_rfft3 ft1 ft2 Nside_x Nside_y Nside_z kpixX kpixY kpixZ
              Nvalues kvalues power_array hits_array in
          let cleanup :=
            decref_all [ft_map1_array; ft_map2_array; kvalues_array;
                        power_array; hits_array] ;;
            ret NULL in
          if negb (status =? 0) then cleanup
          else
            let* output := PyTuple_New 2 in
            let* r0 := PyTuple_SetItem output 0 hits_array in
            if negb (r0 =? 0) then cleanup
            else
              let* r1 := PyTuple_SetItem output 1 power_array in
              if negb (r1 =? 0) then cleanup
              else
                decref_all [ft_map1_array; ft_map2_array; kvalues_array] ;;
                ret output
  end.

End Topology.

(** The buffer [PyArray_ZEROS] hands out for the given shape. *)
Abbreviation zeros t dims := (filled (fun _ : nat => zero_of t) (nd_size dims)).

(** ** What the caller sees of a returned object *)

Inductive item : Type :=
| NoItem
| Item (t : dtype) (a : ndarray t).

Inductive value : Type :=
| Nothing
| Arr (t : dtype) (a : ndarray t)
| Tup (items : list item).

Definition view_item (s : PyState) (p : ptr) : item :=
  match p with
  | None => NoItem
  | Some l =>
      match hget l (heap s) with
      | Some (mk_heapobj _ (VArray t a)) => Item t a
      | _ => NoItem
      end
  end.

Definition view (s : PyState) (p : ptr) : value :=
  match p with
  | None => Nothing
  | Some l =>
      match hget l (heap s) with
      | Some (mk_heapobj _ (VArray t a)) => Arr t a
      | Some (mk_heapobj _ (VTuple items)) => Tup (map (view_item s) items)
      | None => Nothing
      end
  end.

(** A one-dimensional array of [n] cells. *)
Definition vector_of_length {t} (a : ndarray t) (n : Z) : Prop :=
  nd_dims a = [n] /\ Z.of_nat (length (nd_data a)) = n.

(** Every store of [w] addresses one of the first [n] cells. *)
Definition in_bounds {A} (w : stores A) (n : nat) : Prop :=
  Forall (fun iv => (fst iv < n)%nat) w.

(** How the optional mask argument reaches the kernel: no pointer for
    [None], the converted buffer otherwise. *)
Definition mask_arg (mask_obj : PyObject) (mk : option (list bool)) : Prop :=
  if ob_is_None mask_obj then mk = None
  else exists a, ob_as_array mask_obj NPY_BOOL = inr a /\ mk = Some (nd_data a).

(** ** Properties of a call *)

(** The thresholds ([lvalues], [kvalues]) argument is an array of [N]
    entries along its first axis. *)
Definition array_length (o : PyObject) (N : Z) : Prop :=
  exists a, ob_as_array o NPY_DOUBLE = inr a /\ nd_dims a !! 0%nat = Some N.

Definition item_of_length (n : Z) (it : item) : Prop :=
  match it with
  | NoItem => False
  | Item _ a => vector_of_length a n
  end.

(** The returned object is a vector of [n] cells, or a tuple of such. *)
Definition vectors_of_length (v : value) (n : Z) : Prop :=
  match v with
  | Nothing => False
  | Arr _ a => vector_of_length a n
  | Tup items => Forall (item_of_length n) items
  end.

(** Whenever the call returns an object, every vector in it has [n] cells. *)
Definition output_length (r : outcome ptr) (n : Z) : Prop :=
  forall p s', r = Done p s' -> p <> NULL -> vectors_of_length (view s' p) n.

(** The call returns an object. *)
Definition returns (r : outcome ptr) : Prop :=
  exists p s', r = Done p s' /\ p <> NULL.

(** The call returns NULL with an exception set: the caller gets no data. *)
Definition raises (r : outcome ptr) : Prop :=
  exists s', r = Done NULL s' /\ err s' <> None.

(** What the caller holds after the call: the returned object, nothing
    after a NULL return or a crash. *)
Definition result_of (r : outcome ptr) : value :=
  match r with
  | Done p s' => view s' p
  | Undefined => Nothing
  end.

(** The first cell of a result of doubles: of the array, or of the first
    array of the tuple. *)
Definition first_cell (v : value) : option double :=
  let cell (t : dtype) : ndarray t -> option double :=
    match t with
    | NPY_DOUBLE => fun a => nd_data a !! 0%nat
    | _ => fun _ => None
    end in
  match v with
  | Arr t a => cell t a
  | Tup (Item t a :: _) => cell t a
  | _ => None
  end.

(** The side length a kernel invocation was given (the four map kernels). *)
Definition kernel_side (c : kernel_call) : option Z :=
  match c with
  | Call_peak_count _ _ Nside _ _ _ _ => Some Nside
  | Call_gradient_xy _ _ _ Nside => Some Nside
  | Call_hessian _ _ _ _ Nside => Some Nside
  | Call_minkowski_functionals _ _ Nside _ _ _ _ _ _ _ _ _ _ _ => Some Nside
  | _ => None
  end.


(** The mask [m] hides nothing from [peak_count] on the arguments of the
    call: handed [m], the kernel answers the invocation the wrapper makes
    as it answers it with a NULL mask pointer.  This is what it is, for
    the kernel, that every sample is valid under [m]. *)
Definition open_for_peakCount (K : Kernels)
    (map_obj thresholds_obj sigma_obj : PyObject) (m : list bool) : Prop :=
  forall sigma ma ta d0 N,
    ob_as_double sigma_obj = Some sigma ->
    ob_as_array map_obj NPY_DOUBLE = inr ma ->
    ob_as_array thresholds_obj NPY_DOUBLE = inr ta ->
    nd_dims ma !! 0%nat = Some d0 ->
    nd_dims ta !! 0%nat = Some N ->
    let peaks := zeros NPY_DOUBLE [to_int N - 1] in
    peak_count K (nd_data ma) (Some m) (to_int d0) sigma (to_int N) (nd_data ta) peaks
    = peak_count K (nd_data ma) None (to_int d0) sigma (to_int N) (nd_data ta) peaks.

Definition open_for_minkowski (K : Kernels)
    (map_obj grad_x_obj grad_y_obj hess_xx_obj hess_yy_obj hess_xy_obj
       thresholds_obj sigma_obj : PyObject) (m : list bool) : Prop :=
  forall sigma ma gxa gya hxxa hyya hxya ta d0 N,
    ob_as_double sigma_obj = Some sigma ->
    ob_as_array map_obj NPY_DOUBLE = inr ma ->
    ob_as_array grad_x_obj NPY_DOUBLE = inr gxa ->
    ob_as_array grad_y_obj NPY_DOUBLE = inr gya ->
    ob_as_array hess_xx_obj NPY_DOUBLE = inr hxxa ->
    ob_as_array hess_yy_obj NPY_DOUBLE = inr hyya ->
    ob_as_array hess_xy_obj NPY_DOUBLE = inr hxya ->
    ob_as_array thresholds_obj NPY_DOUBLE = inr ta ->
    nd_dims ma !! 0%nat = Some d0 ->
    nd_dims ta !! 0%nat = Some N ->
    let mink := zeros NPY_DOUBLE [to_int N - 1] in
    minkowski_functionals K (nd_data ma) (Some m) (to_int d0) sigma
      (nd_data gxa) (nd_data gya) (nd_data hxxa) (nd_data hyya) (nd_data hxya)
      (to_int N) (nd_data ta) mink mink mink
    = minkowski_functionals K (nd_data ma) None (to_int d0) sigma
        (nd_data gxa) (nd_data gya) (nd_data hxxa) (nd_data hyya) (nd_data hxya)
        (to_int N) (nd_data ta) mink mink mink.

(** The call invoked exactly one kernel, [c]. *)
Definition invoked (s s' : PyState) (c : kernel_call) : Prop :=
  calls s' = calls s ++ [c].

(** Whenever the call returns an object, the kernel has run once, on a
    grid of side [side]. *)
Definition processed_with_side (r : outcome ptr) (s : PyState) (side : Z) : Prop :=
  forall p s', r = Done p s' -> p <> NULL ->
  exists c, invoked s s' c /\ kernel_side c = Some side.



(** Each of the first [n] cells is addressed by some store of [w]. *)
Definition assigns_every_cell {A} (w : stores A) (n : nat) : Prop :=
  forall i : nat, (i < n)%nat -> exists v, In (i, v) w.

(** The gradient (Hessian) kernel fills its outputs: for a side that is
    not negative, handed buffers of [Nside * Nside] cells, as the wrapper
    allocates them, it performs stores that do not depend on what the
    buffers hold, and it assigns every cell. *)
Definition gradient_overwrites (K : Kernels) : Prop :=
  forall map n gx gy gx' gy',
    0 <= n ->
    length gx = Z.to_nat (n * n) -> length gy = Z.to_nat (n * n) ->
    length gx' = Z.to_nat (n * n) -> length gy' = Z.to_nat (n * n) ->
    gradient_xy K map gx gy n = gradient_xy K map gx' gy' n /\
    assigns_every_cell (fst (gradient_xy K map gx gy n)) (Z.to_nat (n * n)) /\
    assigns_every_cell (snd (gradient_xy K map gx gy n)) (Z.to_nat (n * n)).

Definition hessian_overwrites (K : Kernels) : Prop :=
  forall map n hxx hyy hxy hxx' hyy' hxy',
    0 <= n ->
    length hxx = Z.to_nat (n * n) -> length hyy = Z.to_nat (n * n) ->
    length hxy = Z.to_nat (n * n) ->
    length hxx' = Z.to_nat (n * n) -> length hyy' = Z.to_nat (n * n) ->
    length hxy' = Z.to_nat (n * n) ->
    hessian K map hxx hyy hxy n = hessian K map hxx' hyy' hxy' n /\
    assigns_every_cell (fst (fst (hessian K map hxx hyy hxy n))) (Z.to_nat (n * n)) /\
    assigns_every_cell (snd (fst (hessian K map hxx hyy hxy n))) (Z.to_nat (n * n)) /\
    assigns_every_cell (snd (hessian K map hxx hyy hxy n)) (Z.to_nat (n * n)).

(** ** Sample arguments *)

Definition d_zero : double := S754_zero false.
Definition d_one : double := S754_finite false 4503599627370496 (-52).
Definition d_two : double := S754_finite false 4503599627370496 (-51).
Definition d_five : double := S754_finite false 5629499534213120 (-50).
Definition c_zero : complex128 := (d_zero, d_zero).

(** An array object of type [t]: it converts to itself for [t] and is
    refused for any other type. *)
Definition array_object (t : dtype) (a : ndarray t) : PyObject :=
  {| ob_is_None := false;
     ob_as_double := None;
     ob_double_error := TypeError;
     ob_as_array := fun t' =>
       match dtype_eq_dec t t' with
       | left e => inr (eq_rect t ndarray a t' e)
       | right _ => inl TypeError
       end |}.

(** A Python float. *)
Definition float_object (d : double) : PyObject :=
  {| ob_is_None := false;
     ob_as_double := Some d;
     ob_double_error := TypeError;
     ob_as_array := fun _ => inl TypeError |}.

(** [None], used below only where no array conversion of it is requested. *)
Definition None_object : PyObject :=
  {| ob_is_None := true;
     ob_as_double := None;
     ob_double_error := TypeError;
     ob_as_array := fun _ => inl TypeError |}.

(** A fresh interpreter: empty heap, no pending error, plentiful memory. *)
Definition fresh_state : PyState :=
  {| heap := ∅; next := 0%nat; err := None; mem := [];
     junk := fun _ t _ => zero_of t; calls := [] |}.

(** The same with the outcomes of the coming allocations decided. *)
Definition state_with_memory (m : list bool) : PyState :=
  {| heap := ∅; next := 0%nat; err := None; mem := m;
     junk := fun _ t _ => zero_of t; calls := [] |}.

Definition assign_all (buf : list double) : stores double :=
  map (fun i => (i, d_zero)) (seq 0 (length buf)).

(** Kernels as the real ones behave on a constant field: no peak and no
    excursion-set contribution is accumulated, every gradient and Hessian
    cell is assigned zero, and the azimuthal kernels report success. *)
Definition flat_kernels : Kernels :=
  {| peak_count := fun _ _ _ _ _ _ _ => [];
     gradient_xy := fun _ gx gy _ => (assign_all gx, assign_all gy);
     hessian := fun _ hxx hyy hxy _ => (assign_all hxx, assign_all hyy, assign_all hxy);
     minkowski_functionals := fun _ _ _ _ _ _ _ _ _ _ _ _ _ _ => ([], [], []);
     azimuthal_rfft2 := fun _ _ _ _ _ _ _ _ => (0, []);
     azimuthal_rfft3 := fun _ _ _ _ _ _ _ _ _ _ _ _ => (0, [], []) |}.

Definition flat_2x2 : ndarray NPY_DOUBLE :=
  @mk_ndarray NPY_DOUBLE [2; 2] [d_zero; d_zero; d_zero; d_zero].

Definition flat_2x3 : ndarray NPY_DOUBLE :=
  @mk_ndarray NPY_DOUBLE [2; 3] [d_zero; d_zero; d_zero; d_zero; d_zero; d_zero].

Definition mask_3x3 : ndarray NPY_BOOL :=
  @mk_ndarray NPY_BOOL [3; 3] [false; false; false; false; false; false; false; false; false].

Definition edges_1_2 : ndarray NPY_DOUBLE := @mk_ndarray NPY_DOUBLE [2] [d_one; d_two].
Definition edges_2_1 : ndarray NPY_DOUBLE := @mk_ndarray NPY_DOUBLE [2] [d_two; d_one].
Definition single_edge : ndarray NPY_DOUBLE := @mk_ndarray NPY_DOUBLE [1] [d_five].
Definition no_edge : ndarray NPY_DOUBLE := @mk_ndarray NPY_DOUBLE [0] [].

Definition ft_2x2 : ndarray NPY_COMPLEX128 :=
  @mk_ndarray NPY_COMPLEX128 [2; 2] [c_zero; c_zero; c_zero; c_zero].

Definition ft_2x2x2 : ndarray NPY_COMPLEX128 :=
  @mk_ndarray NPY_COMPLEX128 [2; 2; 2] [c_zero; c_zero; c_zero; c_zero; c_zero; c_zero; c_zero; c_zero].

(** Arrays of 2^32 + 3 edges and of 2^32 + 2 rows: more than a C [int]
    can count. *)
Definition huge_edges : ndarray NPY_DOUBLE :=
  @mk_ndarray NPY_DOUBLE [4294967299] (zeros NPY_DOUBLE [4294967299]).

Definition huge_column : ndarray NPY_DOUBLE :=
  @mk_ndarray NPY_DOUBLE [4294967298; 1] (zeros NPY_DOUBLE [4294967298; 1]).

(** ** When a call goes through *)

(** The conditions under which [peakCount] returns its vector: the
    arguments convert, the map and the thresholds have a first axis, the
    narrowed count of edges is at least one, the output can be allocated
    and the kernel stores inside it.  No shape is compared with another
    and the edges are not inspected. *)
Definition peakCount_ready (K : Kernels)
    (map_obj mask_obj thresholds_obj sigma_obj : PyObject) (s : PyState) : Prop :=
  exists sigma ma ta mk d0 N,
    ob_as_double sigma_obj = Some sigma /\
    ob_as_array map_obj NPY_DOUBLE = inr ma /\
    ob_as_array thresholds_obj NPY_DOUBLE = inr ta /\
    mask_arg mask_obj mk /\
    nd_dims ma !! 0%nat = Some d0 /\
    nd_dims ta !! 0%nat = Some N /\
    0 <= to_int N - 1 /\
    mem_ok (mem s) = true /\
    let peaks := zeros NPY_DOUBLE [to_int N - 1] in
    in_bounds (peak_count K (nd_data ma) mk (to_int d0) sigma (to_int N)
                 (nd_data ta) peaks) (length peaks).

Definition minkowski_ready (K : Kernels)
    (map_obj mask_obj grad_x_obj grad_y_obj hess_xx_obj hess_yy_obj hess_xy_obj
       thresholds_obj sigma_obj : PyObject) (s : PyState) : Prop :=
  exists sigma ma gxa gya hxxa hyya hxya ta mk d0 N,
    ob_as_double sigma_obj = Some sigma /\
    ob_as_array map_obj NPY_DOUBLE = inr ma /\
    ob_as_array grad_x_obj NPY_DOUBLE = inr gxa /\
    ob_as_array grad_y_obj NPY_DOUBLE = inr gya /\
    ob_as_array hess_xx_obj NPY_DOUBLE = inr hxxa /\
    ob_as_array hess_yy_obj NPY_DOUBLE = inr hyya /\
    ob_as_array hess_xy_obj NPY_DOUBLE = inr hxya /\
    ob_as_array thresholds_obj NPY_DOUBLE = inr ta /\
    mask_arg mask_obj mk /\
    nd_dims ma !! 0%nat = Some d0 /\
    nd_dims ta !! 0%nat = Some N /\
    0 <= to_int N - 1 /\
    mem_ok (mem s) = true /\
    mem_ok (tail (mem s)) = true /\
    mem_ok (tail (tail (mem s))) = true /\
    mem_ok (tail (tail (tail (mem s)))) = true /\
    let mink := zeros NPY_DOUBLE [to_int N - 1] in
    let w := minkowski_functionals K (nd_data ma) mk (to_int d0) sigma
               (nd_data gxa) (nd_data gya) (nd_data hxxa) (nd_data hyya)
               (nd_data hxya) (to_int N) (nd_data ta) mink mink mink in
    in_bounds (fst (fst w)) (length mink) /\
    in_bounds (snd (fst w)) (length mink) /\
    in_bounds (snd w) (length mink).

Definition rfft2_ready (K : Kernels)
    (ft_map1_obj ft_map2_obj angle_obj lvalues_obj : PyObject) (s : PyState) : Prop :=
  exists angle a1 a2 la x0 y0 N,
    ob_as_double angle_obj = Some angle /\
    ob_as_array ft_map1_obj NPY_COMPLEX128 = inr a1 /\
    ob_as_array ft_map2_obj NPY_COMPLEX128 = inr a2 /\
    ob_as_array lvalues_obj NPY_DOUBLE = inr la /\
    nd_dims a1 !! 0%nat = Some x0 /\
    nd_dims a1 !! 1%nat = Some y0 /\
    nd_dims la !! 0%nat = Some N /\
    0 <= to_int N - 1 /\
    mem_ok (mem s) = true /\
    let power := zeros NPY_DOUBLE [to_int N - 1] in
    let r := azimuthal_rfft2 K (nd_data a1) (nd_data a2) (to_int x0) (to_int y0)
               angle (to_int N) (nd_data la) power in
    fst r = 0 /\ in_bounds (snd r) (length power).

Definition rfft3_ready (K : Kernels)
    (ft_map1_obj ft_map2_obj kx_obj ky_obj kz_obj kvalues_obj : PyObject)
    (s : PyState) : Prop :=
  exists kpixX kpixY kpixZ a1 a2 ka x0 y0 z0 N,
    ob_as_double kx_obj = Some kpixX /\
    ob_as_double ky_obj = Some kpixY /\
    ob_as_double kz_obj = Some kpixZ /\
    ob_as_array ft_map1_obj NPY_COMPLEX128 = inr a1 /\
    ob_as_array ft_map2_obj NPY_COMPLEX128 = inr a2 /\
    ob_as_array kvalues_obj NPY_DOUBLE = inr ka /\
    nd_dims a1 !! 0%nat = Some x0 /\
    nd_dims a1 !! 1%nat = Some y0 /\
    nd_dims a1 !! 2%nat = Some z0 /\
    nd_dims ka !! 0%nat = Some N /\
    0 <= to_int N - 1 /\
    mem_ok (mem s) = true /\
    mem_ok (tail (mem s)) = true /\
    mem_ok (tail (tail (mem s))) = true /\
    let power := zeros NPY_DOUBLE [to_int N - 1] in
    let hits := zeros NPY_LONG [to_int N - 1] in
    let r := azimuthal_rfft3 K (nd_data a1) (nd_data a2) (to_int x0) (to_int y0)
               (to_int z0) kpixX kpixY kpixZ (to_int N) (nd_data ka) power hits in
    fst (fst r) = 0 /\
    in_bounds (snd (fst r)) (length power) /\
    in_bounds (snd r) (length hits).

(** For [gradient] and [hessian] the outputs are squares of doubles of
    side [n]: their 8 n^2 bytes must not exceed [NPY_MAX_INTP], that is,
    [n] must be less than 2^30. *)
Definition gradient_ready (K : Kernels) (map_obj : PyObject) (s : PyState) : Prop :=
  exists ma d0,
    ob_as_array map_obj NPY_DOUBLE = inr ma /\
    nd_dims ma !! 0%nat = Some d0 /\
    0 <= to_int d0 < 1073741824 /\
    mem_ok (mem s) = true /\
    mem_ok (tail (mem s)) = true /\
    mem_ok (tail (tail (mem s))) = true /\
    let n := to_int d0 in
    let jx := filled (junk s (S (next s)) NPY_DOUBLE) (nd_size [n; n]) in
    let jy := filled (junk s (S (S (next s))) NPY_DOUBLE) (nd_size [n; n]) in
    let w := gradient_xy K (nd_data ma) jx jy n in
    in_bounds (fst w) (length jx) /\ in_bounds (snd w) (length jy).

Definition hessian_ready (K : Kernels) (map_obj : PyObject) (s : PyState) : Prop :=
  exists ma d0,
    ob_as_array map_obj NPY_DOUBLE = inr ma /\
    nd_dims ma !! 0%nat = Some d0 /\
    0 <= to_int d0 < 1073741824 /\
    mem_ok (mem s) = true /\
    mem_ok (tail (mem s)) = true /\
    mem_ok (tail (tail (mem s))) = true /\
    mem_ok (tail (tail (tail (mem s)))) = true /\
    let n := to_int d0 in
    let jxx := filled (junk s (S (next s)) NPY_DOUBLE) (nd_size [n; n]) in
    let jyy := filled (junk s (S (S (next s))) NPY_DOUBLE) (nd_size [n; n]) in
    let jxy := filled (junk s (S (S (S (next s)))) NPY_DOUBLE) (nd_size [n; n]) in
    let w := hessian K (nd_data ma) jxx jyy jxy n in
    in_bounds (fst (fst w)) (length jxx) /\
    in_bounds (snd (fst w)) (length jyy) /\
    in_bounds (snd w) (length jxy).

(** The arguments of [peakCount] convert, the thresholds to an array of
    [N] entries along its first axis. *)
Definition peakCount_converts
    (map_obj mask_obj thresholds_obj sigma_obj : PyObject) (N : Z) : Prop :=
  exists sigma ma ta mk d0,
    ob_as_double sigma_obj = Some sigma /\
    ob_as_array map_obj NPY_DOUBLE = inr ma /\
    ob_as_array thresholds_obj NPY_DOUBLE = inr ta /\
    mask_arg mask_obj mk /\
    nd_dims ma !! 0%nat = Some d0 /\
    nd_dims ta !! 0%nat = Some N.

Definition minkowski_converts
    (map_obj mask_obj grad_x_obj grad_y_obj hess_xx_obj hess_yy_obj hess_xy_obj
       thresholds_obj sigma_obj : PyObject) (N : Z) : Prop :=
  exists sigma ma gxa gya hxxa hyya hxya ta mk d0,
    ob_as_double sigma_obj = Some sigma /\
    ob_as_array map_obj NPY_DOUBLE = inr ma /\
    ob_as_array grad_x_obj NPY_DOUBLE = inr gxa /\
    ob_as_array grad_y_obj NPY_DOUBLE = inr gya /\
    ob_as_array hess_xx_obj NPY_DOUBLE = inr hxxa /\
    ob_as_array hess_yy_obj NPY_DOUBLE = inr hyya /\
    ob_as_array hess_xy_obj NPY_DOUBLE = inr hxya /\
    ob_as_array thresholds_obj NPY_DOUBLE = inr ta /\
    mask_arg mask_obj mk /\
    nd_dims ma !! 0%nat = Some d0 /\
    nd_dims ta !! 0%nat = Some N.

(** The call returns NULL with an exception set, and no kernel has run. *)
Definition rejected_before_kernel (r : outcome ptr) (s : PyState) : Prop :=
  exists s', r = Done NULL s' /\ err s' <> None /\ calls s' = calls s.


(** Everything the call allocated has been released when it ends. *)
Definition all_released (s s' : PyState) : Prop :=
  forall l : loc, (next s <= l < next s')%nat -> hget l (heap s') = None.

(** Azimuthal kernels that report a failure, and store nothing. *)
Definition failing_kernels : Kernels :=
  {| peak_count := peak_count flat_kernels;
     gradient_xy := gradient_xy flat_kernels;
     hessian := hessian flat_kernels;
     minkowski_functionals := minkowski_functionals flat_kernels;
     azimuthal_rfft2 := fun _ _ _ _ _ _ _ _ => (1, []);
     azimuthal_rfft3 := fun _ _ _ _ _ _ _ _ _ _ _ _ => (1, [], []) |}.

(** An interpreter that has been running: objects on the heap, an error
    pending, and fresh memory full of stale ones. *)
Definition used_state : PyState :=
  {| heap := {[ 3%nat := mk_heapobj 2 (VArray NPY_DOUBLE flat_2x3) ]};
     next := 7%nat;
     err := Some IndexError;
     mem := [];
     junk := fun _ t _ =>
       match t with
       | NPY_DOUBLE => d_one
       | NPY_COMPLEX128 => (d_one, d_one)
       | NPY_LONG => 1
       | NPY_BOOL => true
       end;
     calls := [Call_gradient_xy [] [] [] 0] |}.

(** ** The method table *)

Definition peakCount_docstring : string := "Calculate the peak counts in a 2D map".
Definition gradient_docstring : string := "Compute the gradient of a 2D image".
Definition hessian_docstring : string := "Compute the hessian of a 2D image".
Definition minkowski_docstring : string :=
  "Measure the three Minkowski functionals of a 2D image".
Definition rfft2_azimuthal_docstring : string :=
  "Measure azimuthal average of Fourier transforms of 2D image".
Definition rfft3_azimuthal_docstring : string :=
  "Measure azimuthal average of Fourier transforms of 3D scalar field".

Definition METH_VARARGS : Z := 1.

(** An entry of the table: the name Python sees, the C function (its
    unused [self] argument left out), the calling convention and the
    docstring. *)
Record PyMethodDef : Type := mk_PyMethodDef {
  ml_name : string;
  ml_meth : list PyObject -> M ptr;
  ml_flags : Z;
  ml_doc : string
}.

(** The entries of [module_methods] that precede the sentinel. *)
Definition module_methods (K : Kernels) : list PyMethodDef :=
  [ mk_PyMethodDef "peakCount" (_topology_peakCount K) METH_VARARGS peakCount_docstring;
    mk_PyMethodDef "gradient" (_topology_gradient K) METH_VARARGS gradient_docstring;
    mk_PyMethodDef "hessian" (_topology_hessian K) METH_VARARGS hessian_docstring;
    mk_PyMethodDef "minkowski" (_topology_minkowski K) METH_VARARGS minkowski_docstring;
    mk_PyMethodDef "rfft2_azimuthal" (_topology_rfft2_azimuthal K) METH_VARARGS
      rfft2_azimuthal_docstring;
    mk_PyMethodDef "rfft3_azimuthal" (_topology_rfft3_azimuthal K) METH_VARARGS
      rfft3_azimuthal_docstring ].

(** The method a name is bound to once the table has been registered:
    the entries are added in order, a later one replacing an earlier one
    of the same name. *)
Definition lookup_method (K : Kernels) (name : string) : option PyMethodDef :=
  fold_left
    (fun found m => if String.eqb (ml_name m) name then Some m else found)
    (module_methods K) None.

(** ** What a call leaves on the heap *)

(** Objects that were there before the call are as they were. *)
Definition untouched_before (s s' : PyState) : Prop :=
  forall l : loc, (l < next s)%nat -> hget l (heap s') = hget l (heap s).

(** The addresses of the items a tuple holds. *)
Definition item_locs (items : list ptr) : list loc :=
  flat_map (fun it : ptr => match it with Some l => [l] | None => [] end) items.

(** The returned object and, for a tuple, its items. *)
Definition result_locs (s' : PyState) (p : ptr) : list loc :=
  match p with
  | None => []
  | Some l =>
      l :: match hget l (heap s') with
           | Some (mk_heapobj _ (VTuple items)) => item_locs items
           | _ => []
           end
  end.

(** Of the objects the call created, those of the result are alive with
    one reference each (the caller's for the returned object, the tuple's
    for an item); every other one is gone. *)
Definition handed_over (s s' : PyState) (p : ptr) : Prop :=
  List.NoDup (result_locs s' p) /\
  (forall l : loc, In l (result_locs s' p) ->
     (next s <= l < next s')%nat /\
     exists v, hget l (heap s') = Some (mk_heapobj 1 v)) /\
  (forall l : loc, (next s <= l < next s')%nat ->
     ~ In l (result_locs s' p) -> hget l (heap s') = None).

(** The status an azimuthal kernel answered an invocation with. *)
Definition kernel_status (K : Kernels) (c : kernel_call) : option Z :=
  match c with
  | Call_azimuthal_rfft2 ft1 ft2 nx ny angle n lvalues power =>
      Some (fst (azimuthal_rfft2 K ft1 ft2 nx ny angle n lvalues power))
  | Call_azimuthal_rfft3 ft1 ft2 nx ny nz kx ky kz n kvalues power hits =>
      Some (fst (fst (azimuthal_rfft3 K ft1 ft2 nx ny nz kx ky kz n kvalues power hits)))
  | _ => None
  end.

(** The call returns NULL for a reason the caller can see: an exception
    is set and no kernel has run, or the one kernel that ran answered
    with a non-zero status and the error indicator is as it was. *)
Definition failed_visibly (K : Kernels) (s s' : PyState) : Prop :=
  (err s' <> None /\ calls s' = calls s) \/
  (err s' = err s /\
   exists c status,
     invoked s s' c /\ kernel_status K c = Some status /\ status <> 0).

(** ** Arguments and formats *)

(** An argument tuple fits a format when it has one object for each unit
    and the objects at the [d] units convert to a C double. *)
Definition fits (f : list fmt) (args : list PyObject) : Prop :=
  length args = length f /\
  forall (i : nat) o, f !! i = Some fmt_d -> args !! i = Some o ->
    ob_as_double o <> None.

(** ** Outputs that are not cleared *)

(** A cell that no store of [w] addresses holds in [out] what the memory
    handed out at [l], uninitialised, held. *)
Definition untouched_stale (s : PyState) (l : loc) (w : stores double)
    (out : list double) : Prop :=
  forall i : nat, (i < length out)%nat ->
    Forall (fun jv => fst jv <> i) w ->
    out !! i = Some (junk s l NPY_DOUBLE i).

(** ** Failing conversions *)

(** The exception left by a sequence of conversions, each attempted
    whatever became of the earlier ones: that of the last one to fail. *)
Definition conversion_error (objs : list (PyObject * dtype)) : option exn :=
  fold_left
    (fun found ot =>
       match ob_as_array (fst ot) (snd ot) with
       | inl e => Some e
       | inr _ => found
       end)
    objs None.

(** The call returns NULL with the exception [e] set and no kernel run;
    every object it created is released and the earlier ones are as they
    were. *)
Definition fails_with (r : outcome ptr) (s : PyState) (e : exn) : Prop :=
  exists s',
    r = Done NULL s' /\ err s' = Some e /\ calls s' = calls s /\
    all_released s s' /\ untouched_before s s'.

(** The arguments of the azimuthal methods convert, the bin edges to an
    array of [N] entries along its first axis. *)
Definition rfft2_converts (ft_map1_obj ft_map2_obj angle_obj lvalues_obj : PyObject)
    (N : Z) : Prop :=
  exists angle a1 a2 la x0 y0,
    ob_as_double angle_obj = Some angle /\
    ob_as_array ft_map1_obj NPY_COMPLEX128 = inr a1 /\
    ob_as_array ft_map2_obj NPY_COMPLEX128 = inr a2 /\
    ob_as_array lvalues_obj NPY_DOUBLE = inr la /\
    nd_dims a1 !! 0%nat = Some x0 /\
    nd_dims a1 !! 1%nat = Some y0 /\
    nd_dims la !! 0%nat = Some N.

Definition rfft3_converts
    (ft_map1_obj ft_map2_obj kx_obj ky_obj kz_obj kvalues_obj : PyObject)
    (N : Z) : Prop :=
  exists kpixX kpixY kpixZ a1 a2 ka x0 y0 z0,
    ob_as_double kx_obj = Some kpixX /\
    ob_as_double ky_obj = Some kpixY /\
    ob_as_double kz_obj = Some kpixZ /\
    ob_as_array ft_map1_obj NPY_COMPLEX128 = inr a1 /\
    ob_as_array ft_map2_obj NPY_COMPLEX128 = inr a2 /\
    ob_as_array kvalues_obj NPY_DOUBLE = inr ka /\
    nd_dims a1 !! 0%nat = Some x0 /\
    nd_dims a1 !! 1%nat = Some y0 /\
    nd_dims a1 !! 2%nat = Some z0 /\
    nd_dims ka !! 0%nat = Some N.



(** ** More sample arguments *)

(** Kernels that assign no cell. *)
Definition idle_kernels : Kernels :=
  {| peak_count := peak_count flat_kernels;
     gradient_xy := fun _ _ _ _ => ([], []);
     hessian := fun _ _ _ _ _ => ([], [], []);
     minkowski_functionals := minkowski_functionals flat_kernels;
     azimuthal_rfft2 := azimuthal_rfft2 flat_kernels;
     azimuthal_rfft3 := azimuthal_rfft3 flat_kernels |}.

(** An array of 2^31 edges: the count narrows to INT_MIN. *)
Definition edges_2_31 : ndarray NPY_DOUBLE :=
  @mk_ndarray NPY_DOUBLE [2147483648] (zeros NPY_DOUBLE [2147483648]).

(** A field of 2^30 rows and no column: it holds no sample. *)
Definition empty_2_30 : ndarray NPY_DOUBLE := @mk_ndarray NPY_DOUBLE [1073741824; 0] [].

(** A transform with a single axis, and a number taken as an array of no
    axis. *)
Definition ft_line : ndarray NPY_COMPLEX128 :=
  @mk_ndarray NPY_COMPLEX128 [2] [c_zero; c_zero].

Definition scalar_field : ndarray NPY_DOUBLE := @mk_ndarray NPY_DOUBLE [] [d_five].

(** An object whose conversion to an array raises [ValueError], as a
    ragged nested sequence does. *)
Definition ragged_object : PyObject :=
  {| ob_is_None := false;
     ob_as_double := None;
     ob_double_error := TypeError;
     ob_as_array := fun _ => inl ValueError |}.

(** A Python integer too large for a C double, such as [10 ** 400]. *)
Definition huge_int_object : PyObject :=
  {| ob_is_None := false;
     ob_as_double := None;
     ob_double_error := OverflowError;
     ob_as_array := fun _ => inl OverflowError |}.

(** A field that is not constant. *)
Definition ramp_2x2 : ndarray NPY_DOUBLE :=
  @mk_ndarray NPY_DOUBLE [2; 2] [d_zero; d_one; d_two; d_five].

(** Stores that assign to each of the [n * n] cells, in turn, the sample
    of the field at that cell. *)
Definition copy_field (field : list double) (n : Z) : stores double :=
  List.map (fun i => (i, nth i field d_zero)) (seq 0 (Z.to_nat (n * n))).

(** Differential kernels whose stores are computed from the field and the
    side alone, as those of a C kernel that writes through its output
    pointers and never reads them. *)
Definition copying_kernels : Kernels :=
  {| peak_count := peak_count flat_kernels;
     gradient_xy := fun field _ _ n => (copy_field field n, copy_field field n);
     hessian := fun field _ _ _ n =>
       (copy_field field n, copy_field field n, copy_field field n);
     minkowski_functionals := minkowski_functionals flat_kernels;
     azimuthal_rfft2 := azimuthal_rfft2 flat_kernels;
     azimuthal_rfft3 := azimuthal_rfft3 flat_kernels |}.

(** A mask that lets every sample through, and one that hides a sample,
    for kernels that take a non-zero byte to mean a valid sample. *)
Definition open_mask_2x2 : ndarray NPY_BOOL :=
  @mk_ndarray NPY_BOOL [2; 2] [true; true; true; true].

Definition holed_mask_2x2 : ndarray NPY_BOOL :=
  @mk_ndarray NPY_BOOL [2; 2] [true; false; true; true].

Definition every_sample_valid (mask : option (list bool)) : bool :=
  match mask with
  | None => true
  | Some m => forallb (fun b : bool => b) m
  end.

(** Kernels that look at the mask: the first bin (of each statistic) is
    set to one when every sample is valid, and left alone otherwise. *)
Definition masking_kernels : Kernels :=
  {| peak_count := fun _ mask _ _ _ _ _ =>
       if every_sample_valid mask then [(0%nat, d_one)] else [];
     gradient_xy := gradient_xy flat_kernels;
     hessian := hessian flat_kernels;
     minkowski_functionals := fun _ mask _ _ _ _ _ _ _ _ _ _ _ _ =>
       if every_sample_valid mask
       then ([(0%nat, d_one)], [(0%nat, d_one)], [(0%nat, d_one)])
       else ([], [], []);
     azimuthal_rfft2 := azimuthal_rfft2 flat_kernels;
     azimuthal_rfft3 := azimuthal_rfft3 flat_kernels |}.

(** ** A kernel that would succeed *)

(** [gradient] ([hessian], [rfft3_azimuthal]) has what it needs but
    memory: the arguments convert, the extents are there, the shape of
    the outputs is accepted and the kernel, run on the buffers the wrapper
    hands it, stores inside them (and, for the azimuthal kernel, reports
    success). *)
Definition gradient_computes (K : Kernels) (map_obj : PyObject) (s : PyState) : Prop :=
  exists ma d0,
    ob_as_array map_obj NPY_DOUBLE = inr ma /\
    nd_dims ma !! 0%nat = Some d0 /\
    0 <= to_int d0 < 1073741824 /\
    let n := to_int d0 in
    let jx := filled (junk s (S (next s)) NPY_DOUBLE) (nd_size [n; n]) in
    let jy := filled (junk s (S (S (next s))) NPY_DOUBLE) (nd_size [n; n]) in
    let w := gradient_xy K (nd_data ma) jx jy n in
    in_bounds (fst w) (length jx) /\ in_bounds (snd w) (length jy).

Definition hessian_computes (K : Kernels) (map_obj : PyObject) (s : PyState) : Prop :=
  exists ma d0,
    ob_as_array map_obj NPY_DOUBLE = inr ma /\
    nd_dims ma !! 0%nat = Some d0 /\
    0 <= to_int d0 < 1073741824 /\
    let n := to_int d0 in
    let jxx := filled (junk s (S (next s)) NPY_DOUBLE) (nd_size [n; n]) in
    let jyy := filled (junk s (S (S (next s))) NPY_DOUBLE) (nd_size [n; n]) in
    let jxy := filled (junk s (S (S (S (next s)))) NPY_DOUBLE) (nd_size [n; n]) in
    let w := hessian K (nd_data ma) jxx jyy jxy n in
    in_bounds (fst (fst w)) (length jxx) /\
    in_bounds (snd (fst w)) (length jyy) /\
    in_bounds (snd w) (length jxy).

Definition rfft3_computes (K : Kernels)
    (ft_map1_obj ft_map2_obj kx_obj ky_obj kz_obj kvalues_obj : PyObject) : Prop :=
  exists kpixX kpixY kpixZ a1 a2 ka x0 y0 z0 N,
    ob_as_double kx_obj = Some kpixX /\
    ob_as_double ky_obj = Some kpixY /\
    ob_as_double kz_obj = Some kpixZ /\
    ob_as_array ft_map1_obj NPY_COMPLEX128 = inr a1 /\
    ob_as_array ft_map2_obj NPY_COMPLEX128 = inr a2 /\
    ob_as_array kvalues_obj NPY_DOUBLE = inr ka /\
    nd_dims a1 !! 0%nat = Some x0 /\
    nd_dims a1 !! 1%nat = Some y0 /\
    nd_dims a1 !! 2%nat = Some z0 /\
    nd_dims ka !! 0%nat = Some N /\
    0 <= to_int N - 1 /\
    let power := zeros NPY_DOUBLE [to_int N - 1] in
    let hits := zeros NPY_LONG [to_int N - 1] in
    let r := azimuthal_rfft3 K (nd_data a1) (nd_data a2) (to_int x0) (to_int y0)
               (to_int z0) kpixX kpixY kpixZ (to_int N) (nd_data ka) power hits in
    fst (fst r) = 0 /\
    in_bounds (snd (fst r)) (length power) /\
    in_bounds (snd r) (length hits).

(** ** Basic facts *)

Lemma to_int_id x : INT_MIN <= x <= INT_MAX -> to_int x = x.
Proof.
  unfold to_int, INT_MIN, INT_MAX. intros H.
  rewrite Z.mod_small by lia. lia.
Qed.

Lemma to_int_range x : INT_MIN <= to_int x <= INT_MAX.
Proof.
  unfold to_int, INT_MIN, INT_MAX.
  pose proof (Z.mod_pos_bound (x + 2147483648) 4294967296). lia.
Qed.

Lemma nd_size_1 n : nd_size [n] = n.
Proof. unfold nd_size. simpl. lia. Qed.

Lemma nd_size_2 n m : nd_size [n; m] = n * m.
Proof. unfold nd_size. simpl. lia. Qed.

Lemma filled_length {A} (f : nat -> A) n : length (filled f n) = Z.to_nat n.
Proof. unfold filled. now rewrite length_map, length_seq. Qed.

Lemma filled_lookup {A} (f : nat -> A) n (i : nat) :
  (i < Z.to_nat n)%nat -> filled f n !! i = Some (f i).
Proof.
  intros H. unfold filled. rewrite list_lookup_fmap.
  rewrite lookup_seq_lt by exact H. reflexivity.
Qed.

Lemma apply_stores_length {A} (w : stores A) buf out :
  apply_stores w buf = Some out -> length out = length buf.
Proof.
  revert buf. induction w as [|[i v] w IH]; simpl; intros buf H.
  - congruence.
  - destruct (i <? length buf)%nat; [|discriminate].
    rewrite (IH _ H). apply length_insert.
Qed.

Lemma apply_stores_in_bounds {A} (w : stores A) buf :
  in_bounds w (length buf) -> exists out, apply_stores w buf = Some out.
Proof.
  revert buf. induction w as [|[i v] w IH]; simpl; intros buf H.
  - eauto.
  - inversion H as [|? ? Hi Hw]; subst. simpl in Hi.
    destruct (Nat.ltb_spec i (length buf)); [|lia].
    apply IH. now rewrite length_insert.
Qed.

(** A cell no store addresses keeps its content. *)
Lemma apply_stores_untouched {A} (w : stores A) buf out (i : nat) :
  apply_stores w buf = Some out ->
  Forall (fun jv => fst jv <> i) w ->
  out !! i = buf !! i.
Proof.
  revert buf. induction w as [|[j v] w IH]; simpl; intros buf H Hw.
  - congruence.
  - destruct (j <? length buf)%nat; [|discriminate].
    inversion Hw as [|? ? Hj Hw']; subst. simpl in Hj.
    rewrite (IH _ H Hw'). now apply list_lookup_insert_ne.
Qed.

Lemma hget_hput_eq l o h : hget l (hput l o h) = Some o.
Proof. apply lookup_insert_eq. Qed.

Lemma hget_hput_ne l l' o h : l <> l' -> hget l (hput l' o h) = hget l h.
Proof. intros H. apply lookup_insert_ne. congruence. Qed.

Lemma hget_hdel_eq l h : hget l (hdel l h) = None.
Proof. apply lookup_delete_eq. Qed.

Lemma hget_hdel_ne l l' h : l <> l' -> hget l (hdel l' h) = hget l h.
Proof. intros H. apply lookup_delete_ne. congruence. Qed.

Lemma apply_stores_Some_in_bounds {A} (w : stores A) buf out :
  apply_stores w buf = Some out -> in_bounds w (length buf).
Proof.
  revert buf. induction w as [|[i v] w IH]; simpl; intros buf H.
  - constructor 1.
  - destruct (Nat.ltb_spec i (length buf)); [|discriminate].
    constructor 2; [exact H0|].
    specialize (IH _ H). now rewrite length_insert in IH.
Qed.

Lemma apply_assign_all_from (pre post : list double) :
  apply_stores (map (fun i => (i, d_zero)) (seq (length pre) (length post)))
    (pre ++ post)
  = Some (pre ++ repeat d_zero (length post)).
Proof.
  revert pre. induction post as [|x post IH]; intros pre.
  - reflexivity.
  - cbn [length seq map apply_stores].
    rewrite length_app. cbn [length].
    destruct (Nat.ltb_spec (length pre) (length pre + S (length post))); [|lia].
    replace (<[length pre := d_zero]> (pre ++ x :: post))
      with ((pre ++ [d_zero]) ++ post).
    + replace (S (length pre)) with (length (pre ++ [d_zero]))
        by (rewrite length_app; cbn [length]; lia).
      rewrite IH. now rewrite <- app_assoc.
    + rewrite <- app_assoc. cbn [app].
      rewrite insert_app_r_alt by lia.
      now rewrite Nat.sub_diag.
Qed.

Lemma apply_assign_all (buf : list double) :
  apply_stores (assign_all buf) buf = Some (repeat d_zero (length buf)).
Proof. exact (apply_assign_all_from [] buf). Qed.

Lemma assign_all_every_cell (buf : list double) :
  assigns_every_cell (assign_all buf) (length buf).
Proof.
  intros i Hi. exists d_zero. unfold assign_all.
  apply in_map_iff. exists i. split; [reflexivity|].
  apply in_seq. lia.
Qed.

Lemma flat_gradient_overwrites : gradient_overwrites flat_kernels.
Proof.
  intros map n gx gy gx' gy' _ Hx Hy Hx' Hy'. cbn [gradient_xy flat_kernels fst snd].
  split; [unfold assign_all; now rewrite Hx, Hy, Hx', Hy'|].
  split; [rewrite <- Hx | rewrite <- Hy]; apply assign_all_every_cell.
Qed.

Lemma flat_hessian_overwrites : hessian_overwrites flat_kernels.
Proof.
  intros map n hxx hyy hxy hxx' hyy' hxy' _ Hxx Hyy Hxy Hxx' Hyy' Hxy'.
  cbn [hessian flat_kernels fst snd].
  split; [unfold assign_all; now rewrite Hxx, Hyy, Hxy, Hxx', Hyy', Hxy'|].
  split; [rewrite <- Hxx; apply assign_all_every_cell|].
  split; [rewrite <- Hyy | rewrite <- Hxy]; apply assign_all_every_cell.
Qed.

Lemma copy_field_every_cell field n :
  assigns_every_cell (copy_field field n) (Z.to_nat (n * n)).
Proof.
  intros i Hi. exists (nth i field d_zero). unfold copy_field.
  apply in_map_iff. exists i. split; [reflexivity|].
  apply in_seq. lia.
Qed.


Lemma copying_hessian_overwrites : hessian_overwrites copying_kernels.
Proof.
  intros map n hxx hyy hxy hxx' hyy' hxy' _ _ _ _ _ _ _.
  cbn [hessian copying_kernels fst snd].
  split; [reflexivity|]. repeat split; apply copy_field_every_cell.
Qed.



(** *** The shape check *)

Lemma count_accepted x :
  0 <= to_int x - 1 -> shape_refused 8 [to_int x - 1] = false.
Proof.
  intros H. pose proof (to_int_range x) as R.
  unfold INT_MIN, INT_MAX in R. unfold shape_refused, NPY_MAX_INTP.
  destruct (Z.eqb_spec (to_int x - 1) 0); [reflexivity|].
  destruct (Z.ltb_spec (to_int x - 1) 0); [lia|].
  destruct (Z.ltb_spec 9223372036854775807 (8 * (to_int x - 1))); [lia | reflexivity].
Qed.

Lemma negative_refused nbytes n dims : n < 0 -> shape_refused nbytes (n :: dims) = true.
Proof.
  intros H. unfold shape_refused.
  destruct (Z.eqb_spec n 0); [lia|].
  destruct (Z.ltb_spec n 0); [reflexivity | lia].
Qed.

Lemma accepted_length nbytes n : shape_refused nbytes [n] = false -> 0 <= n.
Proof.
  unfold shape_refused.
  destruct (Z.eqb_spec n 0); [lia|].
  destruct (Z.ltb_spec n 0); [discriminate | lia].
Qed.

(** A square of doubles is accepted exactly when its side is less than
    2^30: its 8 n^2 bytes then fit in [npy_intp]. *)
Lemma square_accepted n :
  shape_refused 8 [n; n] = false <-> 0 <= n < 1073741824.
Proof.
  unfold shape_refused, NPY_MAX_INTP.
  destruct (Z.eqb_spec n 0) as [->|Hn]; [split; [lia | reflexivity]|].
  destruct (Z.ltb_spec n 0); [split; [discriminate | lia]|].
  destruct (Z.ltb_spec 9223372036854775807 (8 * n)); [split; [discriminate | lia]|].
  destruct (Z.ltb_spec 9223372036854775807 (8 * n * n)) as [Hbig|Hfit].
  - split; [discriminate | nia].
  - split; [nia | reflexivity].
Qed.

Lemma square_refused n : 1073741824 <= n -> shape_refused 8 [n; n] = true.
Proof.
  intros H. destruct (shape_refused 8 [n; n]) eqn:E; [reflexivity|].
  apply square_accepted in E. lia.
Qed.

(** ** Symbolic execution *)

#[local] Opaque hget hput hdel.

#[local] Arguments Z.sub : simpl never.
#[local] Arguments Z.add : simpl never.
#[local] Arguments Z.mul : simpl never.
#[local] Arguments Z.eqb : simpl never.
#[local] Arguments Z.ltb : simpl never.
#[local] Arguments Z.leb : simpl never.
#[local] Arguments Z.to_nat : simpl never.
#[local] Arguments Z.of_nat : simpl never.
#[local] Arguments to_int : simpl never.
#[local] Arguments nd_size : simpl never.
#[local] Arguments filled : simpl never.
#[local] Arguments apply_stores : simpl never.
#[local] Arguments shape_refused : simpl never.

#[local] Arguments bind {A B} m k s /.
#[local] Arguments ret {A} a s /.
#[local] Arguments undefined {A} s /.
#[local] Arguments Py_DECREF : simpl never.
#[local] Arguments Py_XDECREF p s /.
#[local] Arguments PyArg_ParseTuple args f s /.
#[local] Arguments PyArray_FROM_OTF : simpl never.
#[local] Arguments PyArray_DIM p i s /.
#[local] Arguments new_array dims t fill s /.
#[local] Arguments PyArray_ZEROS dims t s /.
#[local] Arguments PyArray_SimpleNew dims t s /.
#[local] Arguments PyArray_DATA t p s /.
#[local] Arguments PyTuple_New n s /.
#[local] Arguments PyTuple_SetItem p i o s /.
#[local] Arguments write_data t p w s /.
#[local] Arguments log c s /.
#[local] Arguments int_sub a b s /.
#[local] Arguments mask_profile_of mask_array s /.
#[local] Arguments decref_all : simpl never.
#[local] Arguments xdecref_all : simpl never.
#[local] Arguments new_object v s /.
#[local] Arguments pop_mem s /.
#[local] Arguments set_heap h s /.
#[local] Arguments set_err e s /.
#[local] Arguments run_peak_count K map mask_profile Nside sigma Nthreshold
  thresholds peaks_array s /.
#[local] Arguments run_gradient_xy K map gradient_x_array gradient_y_array Nside s /.
#[local] Arguments run_hessian K map hessian_xx_array hessian_yy_array
  hessian_xy_array Nside s /.
#[local] Arguments run_minkowski_functionals K map mask_profile Nside sigma
  grad_x grad_y hess_xx hess_yy hess_xy Nthreshold thresholds
  mink0_array mink1_array mink2_array s /.
#[local] Arguments run_azimuthal_rfft2 K ft1 ft2 Nside_x Nside_y map_angle_degrees
  Nvalues lvalues power_array s /.
#[local] Arguments run_azimuthal_rfft3 K ft1 ft2 Nside_x Nside_y Nside_z
  kpixX kpixY kpixZ Nvalues kvalues power_array hits_array s /.
#[local] Arguments _topology_peakCount K args s /.
#[local] Arguments _topology_peakCount_tail K map_array thresholds_array
  mask_array sigma s /.
#[local] Arguments _topology_gradient K args s /.
#[local] Arguments _topology_hessian K args s /.
#[local] Arguments _topology_minkowski K args s /.
#[local] Arguments _topology_minkowski_tail K map_array grad_x_array grad_y_array
  hess_xx_array hess_yy_array hess_xy_array thresholds_array mask_array sigma s /.
#[local] Arguments _topology_rfft2_azimuthal K args s /.
#[local] Arguments _topology_rfft3_azimuthal K args s /.

(** Addresses handed out during a call are [S (... (S n))] for the
    address [n] that was next when the call began; two of them differ when
    their offsets do. *)
Lemma offset_ne (a b : nat) (n : loc) : Nat.eqb a b = false -> (a + n)%nat <> (b + n)%nat.
Proof. intros H E. apply Nat.eqb_neq in H. lia. Qed.

Ltac offset_of t :=
  lazymatch t with
  | S ?t' => let k := offset_of t' in constr:(S k)
  | _ => constr:(O)
  end.

Ltac base_of t :=
  lazymatch t with
  | S ?t' => base_of t'
  | _ => t
  end.

Ltac loc_ne :=
  lazymatch goal with
  | |- ?a <> ?b =>
      let ka := offset_of a in
      let kb := offset_of b in
      let n := base_of a in
      exact (offset_ne ka kb n eq_refl)
  end.

Ltac heap_simpl :=
  repeat first
    [ rewrite hget_hput_eq
    | rewrite hget_hdel_eq
    | rewrite hget_hput_ne by loc_ne
    | rewrite hget_hdel_ne by loc_ne ].

Ltac arith_simpl :=
  change (1 - 1) with 0;
  change (0 =? 0) with true;
  change (1 =? 1) with true;
  change (-1 =? 0) with false.

Lemma PyArray_FROM_OTF_eq o t s :
  PyArray_FROM_OTF o t s =
  match ob_as_array o t with
  | inl e => Done NULL (set_err e s)
  | inr a => Done (Some (next s)) (snd (new_object (VArray t a) s))
  end.
Proof. unfold PyArray_FROM_OTF. now destruct (ob_as_array o t). Qed.

(** A conversion: once an earlier one has failed the call is bound to
    return NULL, and what this one yields no longer matters. *)
Ltac otf_step :=
  match goal with
  | |- context [PyArray_FROM_OTF ?o ?t ?s] =>
      first
        [ match goal with _ : ob_as_array _ _ = inl _ |- _ => idtac end;
          destruct (PyArray_FROM_OTF o t s) as [? ?|]
        | rewrite (PyArray_FROM_OTF_eq o t s) ]
  end.

Lemma Py_DECREF_eq l s :
  Py_DECREF (Some l) s =
  match hget l (heap s) with
  | None => Undefined
  | Some o =>
      if ob_refcnt o - 1 =? 0 then
        match ob_val o with
        | VArray _ _ => Done tt (set_heap (hdel l (heap s)) s)
        | VTuple items =>
            match fold_right drop_item (Some (hdel l (heap s))) items with
            | Some h' => Done tt (set_heap h' s)
            | None => Undefined
            end
        end
      else
        Done tt (set_heap (hput l (mk_heapobj (ob_refcnt o - 1) (ob_val o))
                             (heap s)) s)
  end.
Proof. reflexivity. Qed.

Lemma Py_DECREF_NULL s : Py_DECREF NULL s = Undefined.
Proof. reflexivity. Qed.

Lemma decref_all_cons p ps s :
  decref_all (p :: ps) s = (Py_DECREF p ;; decref_all ps) s.
Proof. reflexivity. Qed.

Lemma decref_all_nil s : decref_all [] s = Done tt s.
Proof. reflexivity. Qed.

Lemma xdecref_all_cons p ps s :
  xdecref_all (p :: ps) s = (Py_XDECREF p ;; xdecref_all ps) s.
Proof. reflexivity. Qed.

Lemma xdecref_all_nil s : xdecref_all [] s = Done tt s.
Proof. reflexivity. Qed.

(** Close the branches whose result contradicts the hypothesis on it. *)
Ltac ended :=
  let H := fresh "Hend" in
  intros H; try discriminate H; inversion H; subst; clear H; try congruence.

Ltac is_cleanup x :=
  lazymatch x with
  | Py_DECREF _ _ => idtac
  | decref_all _ _ => idtac
  | xdecref_all _ _ => idtac
  end.

(** Split on the datum the computation is waiting for. *)
Ltac split_step :=
  match goal with
  | |- context [match ?x with _ => _ end] =>
      lazymatch x with
      | context [match _ with _ => _ end] => fail
      | _ => tryif is_cleanup x then fail
             else (let E := fresh "E" in destruct x eqn:E)
      end
  end.

(** Reference-count cleanup.  When whatever it does the call ends by
    returning NULL against the hypothesis, its effect is left abstract;
    otherwise it is carried out on the heap. *)
Ltac cleanup_abstract :=
  match goal with
  | |- context [match ?x with _ => _ end] =>
      is_cleanup x; destruct x as [[] ?|]
  end.

Ltac doomed := solve [ repeat first [ progress cbn | cleanup_abstract ]; ended ].

Ltac cleanup_concrete :=
  match goal with
  | |- context [decref_all (?p :: ?ps) ?s] => rewrite (decref_all_cons p ps s)
  | |- context [decref_all [] ?s] => rewrite (decref_all_nil s)
  | |- context [xdecref_all (?p :: ?ps) ?s] => rewrite (xdecref_all_cons p ps s)
  | |- context [xdecref_all [] ?s] => rewrite (xdecref_all_nil s)
  | |- context [Py_DECREF (Some ?l) ?s] => rewrite (Py_DECREF_eq l s)
  | |- context [Py_DECREF None ?s] => rewrite (Py_DECREF_NULL s)
  | |- context [Py_DECREF NULL ?s] => rewrite (Py_DECREF_NULL s)
  end.

Ltac cleanup_step := first [ doomed | cleanup_concrete ].

Ltac run_step :=
  first [ progress cbn | progress heap_simpl | progress arith_simpl
        | otf_step | split_step | cleanup_step ].

Ltac run := repeat run_step.

(** The same, reading the datum off a hypothesis when there is one. *)
Ltac known_step :=
  match goal with
  | H : _ = ?v |- context [match ?x with _ => _ end] =>
      replace x with v by (symmetry; exact H)
  end.

Ltac run_known :=
  repeat first
    [ progress cbn | progress heap_simpl | progress arith_simpl
    | otf_step | known_step | split_step | cleanup_concrete ].

Ltac dims_ok :=
  repeat match goal with
    | H : shape_refused _ [_] = false |- _ => apply accepted_length in H
    | H : shape_refused 8 [_; _] = false |- _ => apply square_accepted in H
    | H : negb (ob_is_None _) = true |- _ => apply negb_true_iff in H
    | H : negb (ob_is_None _) = false |- _ => apply negb_false_iff in H
    end.

Ltac mask_ok :=
  match goal with
  | H : ob_is_None ?o = _ |- mask_arg ?o _ =>
      unfold mask_arg; rewrite H; first [reflexivity | eexists; split; [eassumption | reflexivity]]
  end.

Ltac view_ok := unfold view, view_item; cbn; heap_simpl; cbn; heap_simpl; reflexivity.

Ltac post :=
  dims_ok;
  repeat (first [eexists | split]);
  first [ reflexivity | eassumption | mask_ok | view_ok | lia | idtac ].

(** ** [peakCount]: what a returned object is *)

Lemma peakCount_returned K map_obj mask_obj thresholds_obj sigma_obj s p s' :
  _topology_peakCount K [map_obj; mask_obj; thresholds_obj; sigma_obj] s = Done p s' ->
  p <> NULL ->
  exists sigma ma ta mk d0 N out,
    ob_as_double sigma_obj = Some sigma /\
    ob_as_array map_obj NPY_DOUBLE = inr ma /\
    ob_as_array thresholds_obj NPY_DOUBLE = inr ta /\
    mask_arg mask_obj mk /\
    nd_dims ma !! 0%nat = Some d0 /\
    nd_dims ta !! 0%nat = Some N /\
    0 <= to_int N - 1 /\
    mem_ok (mem s) = true /\
    let peaks := zeros NPY_DOUBLE [to_int N - 1] in
    let w := peak_count K (nd_data ma) mk (to_int d0) sigma (to_int N)
               (nd_data ta) peaks in
    apply_stores w peaks = Some out /\
    view s' p = Arr NPY_DOUBLE (@mk_ndarray NPY_DOUBLE [to_int N - 1] out) /\
    calls s' = calls s ++ [Call_peak_count (nd_data ma) mk (to_int d0) sigma
                             (to_int N) (nd_data ta) peaks] /\
    err s' = err s.
Proof.
  intros Hrun Hp. revert Hrun. destruct s as [h n e m j c].
  run; ended.
  all: post.
Qed.

Lemma nonneg_dim_1 x : 0 <= to_int x - 1 -> shape_refused 8 [to_int x - 1] = false.
Proof. apply count_accepted. Qed.

Lemma nonneg_dim_2 n : 0 <= n < 1073741824 -> shape_refused 8 [n; n] = false.
Proof. apply square_accepted. Qed.

Lemma mask_arg_cases mask_obj mk :
  mask_arg mask_obj mk ->
  (negb (ob_is_None mask_obj) = false /\ mk = None) \/
  (negb (ob_is_None mask_obj) = true /\
   exists a, ob_as_array mask_obj NPY_BOOL = inr a /\ mk = Some (nd_data a)).
Proof.
  unfold mask_arg. destruct (ob_is_None mask_obj); simpl; intros H.
  - now left.
  - now right.
Qed.

(** ** [peakCount]: when it returns an object *)

Lemma peakCount_succeeds K map_obj mask_obj thresholds_obj sigma_obj s
    sigma ma ta mk d0 N :
  ob_as_double sigma_obj = Some sigma ->
  ob_as_array map_obj NPY_DOUBLE = inr ma ->
  ob_as_array thresholds_obj NPY_DOUBLE = inr ta ->
  mask_arg mask_obj mk ->
  nd_dims ma !! 0%nat = Some d0 ->
  nd_dims ta !! 0%nat = Some N ->
  0 <= to_int N - 1 ->
  mem_ok (mem s) = true ->
  (let peaks := zeros NPY_DOUBLE [to_int N - 1] in
   in_bounds (peak_count K (nd_data ma) mk (to_int d0) sigma (to_int N)
                (nd_data ta) peaks) (length peaks)) ->
  exists p s',
    _topology_peakCount K [map_obj; mask_obj; thresholds_obj; sigma_obj] s = Done p s' /\
    p <> NULL.
Proof.
  intros Hs Hma Hta Hmk Hd0 HN Hpos Hmem Hb.
  apply nonneg_dim_1 in Hpos.
  cbn in Hb. apply apply_stores_in_bounds in Hb. destruct Hb as [out Hout].
  destruct s as [h n e m j c]. cbn in Hmem.
  destruct (mask_arg_cases _ _ Hmk) as [[Hn ->]|[Hn (a & Ha & ->)]].
  all: run_known.
  all: eexists _, _; split; [reflexivity | discriminate].
Qed.

(** ** [rfft2_azimuthal] *)

Ltac status_ok :=
  repeat match goal with
    | H : negb (_ =? 0) = false |- _ =>
        apply negb_false_iff in H; apply Z.eqb_eq in H; subst
    | H : negb (_ =? 0) = true |- _ =>
        apply negb_true_iff in H; apply Z.eqb_neq in H
    end.

Lemma rfft2_returned K ft_map1_obj ft_map2_obj angle_obj lvalues_obj s p s' :
  _topology_rfft2_azimuthal K [ft_map1_obj; ft_map2_obj; angle_obj; lvalues_obj] s
    = Done p s' ->
  p <> NULL ->
  exists angle a1 a2 la x0 y0 N w out,
    ob_as_double angle_obj = Some angle /\
    ob_as_array ft_map1_obj NPY_COMPLEX128 = inr a1 /\
    ob_as_array ft_map2_obj NPY_COMPLEX128 = inr a2 /\
    ob_as_array lvalues_obj NPY_DOUBLE = inr la /\
    nd_dims a1 !! 0%nat = Some x0 /\
    nd_dims a1 !! 1%nat = Some y0 /\
    nd_dims la !! 0%nat = Some N /\
    0 <= to_int N - 1 /\
    mem_ok (mem s) = true /\
    let power := zeros NPY_DOUBLE [to_int N - 1] in
    azimuthal_rfft2 K (nd_data a1) (nd_data a2) (to_int x0) (to_int y0) angle
      (to_int N) (nd_data la) power = (0, w) /\
    apply_stores w power = Some out /\
    view s' p = Arr NPY_DOUBLE (@mk_ndarray NPY_DOUBLE [to_int N - 1] out) /\
    calls s' = calls s ++ [Call_azimuthal_rfft2 (nd_data a1) (nd_data a2)
                             (to_int x0) (to_int y0) angle (to_int N)
                             (nd_data la) power].
Proof.
  intros Hrun Hp. revert Hrun. destruct s as [h n e m j c].
  run; ended.
  all: status_ok; post.
Qed.

Lemma rfft2_succeeds K ft_map1_obj ft_map2_obj angle_obj lvalues_obj s
    angle a1 a2 la x0 y0 N w :
  ob_as_double angle_obj = Some angle ->
  ob_as_array ft_map1_obj NPY_COMPLEX128 = inr a1 ->
  ob_as_array ft_map2_obj NPY_COMPLEX128 = inr a2 ->
  ob_as_array lvalues_obj NPY_DOUBLE = inr la ->
  nd_dims a1 !! 0%nat = Some x0 ->
  nd_dims a1 !! 1%nat = Some y0 ->
  nd_dims la !! 0%nat = Some N ->
  0 <= to_int N - 1 ->
  mem_ok (mem s) = true ->
  (let power := zeros NPY_DOUBLE [to_int N - 1] in
   azimuthal_rfft2 K (nd_data a1) (nd_data a2) (to_int x0) (to_int y0) angle
     (to_int N) (nd_data la) power = (0, w) /\
   in_bounds w (length power)) ->
  exists p s',
    _topology_rfft2_azimuthal K [ft_map1_obj; ft_map2_obj; angle_obj; lvalues_obj] s
      = Done p s' /\
    p <> NULL.
Proof.
  intros Hs H1 H2 Hl Hx Hy HN Hpos Hmem [Hk Hb].
  apply nonneg_dim_1 in Hpos.
  apply apply_stores_in_bounds in Hb. destruct Hb as [out Hout].
  destruct s as [h n e m j c]. cbn in Hmem.
  run_known.
  eexists _, _; split; [reflexivity | discriminate].
Qed.

(** ** [rfft3_azimuthal] *)

Lemma rfft3_returned K ft_map1_obj ft_map2_obj kx_obj ky_obj kz_obj kvalues_obj
    s p s' :
  _topology_rfft3_azimuthal K
    [ft_map1_obj; ft_map2_obj; kx_obj; ky_obj; kz_obj; kvalues_obj] s = Done p s' ->
  p <> NULL ->
  exists kpixX kpixY kpixZ a1 a2 ka x0 y0 z0 N wp wh outp outh,
    ob_as_double kx_obj = Some kpixX /\
    ob_as_double ky_obj = Some kpixY /\
    ob_as_double kz_obj = Some kpixZ /\
    ob_as_array ft_map1_obj NPY_COMPLEX128 = inr a1 /\
    ob_as_array ft_map2_obj NPY_COMPLEX128 = inr a2 /\
    ob_as_array kvalues_obj NPY_DOUBLE = inr ka /\
    nd_dims a1 !! 0%nat = Some x0 /\
    nd_dims a1 !! 1%nat = Some y0 /\
    nd_dims a1 !! 2%nat = Some z0 /\
    nd_dims ka !! 0%nat = Some N /\
    0 <= to_int N - 1 /\
    mem_ok (mem s) = true /\
    mem_ok (tail (mem s)) = true /\
    mem_ok (tail (tail (mem s))) = true /\
    let power := zeros NPY_DOUBLE [to_int N - 1] in
    let hits := zeros NPY_LONG [to_int N - 1] in
    azimuthal_rfft3 K (nd_data a1) (nd_data a2) (to_int x0) (to_int y0) (to_int z0)
      kpixX kpixY kpixZ (to_int N) (nd_data ka) power hits = (0, wp, wh) /\
    apply_stores wp power = Some outp /\
    apply_stores wh hits = Some outh /\
    view s' p = Tup [Item NPY_LONG (@mk_ndarray NPY_LONG [to_int N - 1] outh);
                     Item NPY_DOUBLE (@mk_ndarray NPY_DOUBLE [to_int N - 1] outp)] /\
    calls s' = calls s ++ [Call_azimuthal_rfft3 (nd_data a1) (nd_data a2)
                             (to_int x0) (to_int y0) (to_int z0)
                             kpixX kpixY kpixZ (to_int N) (nd_data ka) power hits].
Proof.
  intros Hrun Hp. revert Hrun. destruct s as [h n e m j c].
  run; ended.
  all: status_ok; post.
Qed.

Lemma rfft3_succeeds K ft_map1_obj ft_map2_obj kx_obj ky_obj kz_obj kvalues_obj s
    kpixX kpixY kpixZ a1 a2 ka x0 y0 z0 N wp wh :
  ob_as_double kx_obj = Some kpixX ->
  ob_as_double ky_obj = Some kpixY ->
  ob_as_double kz_obj = Some kpixZ ->
  ob_as_array ft_map1_obj NPY_COMPLEX128 = inr a1 ->
  ob_as_array ft_map2_obj NPY_COMPLEX128 = inr a2 ->
  ob_as_array kvalues_obj NPY_DOUBLE = inr ka ->
  nd_dims a1 !! 0%nat = Some x0 ->
  nd_dims a1 !! 1%nat = Some y0 ->
  nd_dims a1 !! 2%nat = Some z0 ->
  nd_dims ka !! 0%nat = Some N ->
  0 <= to_int N - 1 ->
  mem_ok (mem s) = true ->
  mem_ok (tail (mem s)) = true ->
  mem_ok (tail (tail (mem s))) = true ->
  (let power := zeros NPY_DOUBLE [to_int N - 1] in
   let hits := zeros NPY_LONG [to_int N - 1] in
   azimuthal_rfft3 K (nd_data a1) (nd_data a2) (to_int x0) (to_int y0) (to_int z0)
     kpixX kpixY kpixZ (to_int N) (nd_data ka) power hits = (0, wp, wh) /\
   in_bounds wp (length power) /\ in_bounds wh (length hits)) ->
  exists p s',
    _topology_rfft3_azimuthal K
      [ft_map1_obj; ft_map2_obj; kx_obj; ky_obj; kz_obj; kvalues_obj] s = Done p s' /\
    p <> NULL.
Proof.
  intros Hx Hy Hz H1 H2 Hk Hd0 Hd1 Hd2 HN Hpos Hm0 Hm1 Hm2 (Hker & Hbp & Hbh).
  apply nonneg_dim_1 in Hpos.
  apply apply_stores_in_bounds in Hbp. destruct Hbp as [outp Houtp].
  apply apply_stores_in_bounds in Hbh. destruct Hbh as [outh Houth].
  destruct s as [h n e m j c]. cbn in Hm0, Hm1, Hm2.
  run_known.
  eexists _, _; split; [reflexivity | discriminate].
Qed.

(** ** [gradient] *)

Lemma gradient_returned K map_obj s p s' :
  _topology_gradient K [map_obj] s = Done p s' ->
  p <> NULL ->
  exists ma d0 wx wy gx gy,
    ob_as_array map_obj NPY_DOUBLE = inr ma /\
    nd_dims ma !! 0%nat = Some d0 /\
    0 <= to_int d0 < 1073741824 /\
    mem_ok (mem s) = true /\
    mem_ok (tail (mem s)) = true /\
    mem_ok (tail (tail (mem s))) = true /\
    let n := to_int d0 in
    let jx := filled (junk s (S (next s)) NPY_DOUBLE) (nd_size [n; n]) in
    let jy := filled (junk s (S (S (next s))) NPY_DOUBLE) (nd_size [n; n]) in
    gradient_xy K (nd_data ma) jx jy n = (wx, wy) /\
    apply_stores wx jx = Some gx /\
    apply_stores wy jy = Some gy /\
    view s' p = Tup [Item NPY_DOUBLE (@mk_ndarray NPY_DOUBLE [n; n] gx);
                     Item NPY_DOUBLE (@mk_ndarray NPY_DOUBLE [n; n] gy)] /\
    calls s' = calls s ++ [Call_gradient_xy (nd_data ma) jx jy n].
Proof.
  intros Hrun Hp. revert Hrun. destruct s as [h n e m j c].
  run; ended.
  all: post.
Qed.

Lemma gradient_succeeds K map_obj s ma d0 wx wy :
  ob_as_array map_obj NPY_DOUBLE = inr ma ->
  nd_dims ma !! 0%nat = Some d0 ->
  0 <= to_int d0 < 1073741824 ->
  mem_ok (mem s) = true ->
  mem_ok (tail (mem s)) = true ->
  mem_ok (tail (tail (mem s))) = true ->
  (let n := to_int d0 in
   let jx := filled (junk s (S (next s)) NPY_DOUBLE) (nd_size [n; n]) in
   let jy := filled (junk s (S (S (next s))) NPY_DOUBLE) (nd_size [n; n]) in
   gradient_xy K (nd_data ma) jx jy n = (wx, wy) /\
   in_bounds wx (length jx) /\ in_bounds wy (length jy)) ->
  exists p s', _topology_gradient K [map_obj] s = Done p s' /\ p <> NULL.
Proof.
  intros Hma Hd0 Hpos Hm0 Hm1 Hm2 (Hker & Hbx & Hby).
  apply nonneg_dim_2 in Hpos.
  apply apply_stores_in_bounds in Hbx. destruct Hbx as [gx Hgx].
  apply apply_stores_in_bounds in Hby. destruct Hby as [gy Hgy].
  destruct s as [h n e m j c]. cbn in Hm0, Hm1, Hm2, Hker, Hgx, Hgy.
  run_known.
  eexists _, _; split; [reflexivity | discriminate].
Qed.

(** ** [hessian] *)

Lemma hessian_returned K map_obj s p s' :
  _topology_hessian K [map_obj] s = Done p s' ->
  p <> NULL ->
  exists ma d0 wxx wyy wxy hxx hyy hxy,
    ob_as_array map_obj NPY_DOUBLE = inr ma /\
    nd_dims ma !! 0%nat = Some d0 /\
    0 <= to_int d0 < 1073741824 /\
    mem_ok (mem s) = true /\
    mem_ok (tail (mem s)) = true /\
    mem_ok (tail (tail (mem s))) = true /\
    mem_ok (tail (tail (tail (mem s)))) = true /\
    let n := to_int d0 in
    let jxx := filled (junk s (S (next s)) NPY_DOUBLE) (nd_size [n; n]) in
    let jyy := filled (junk s (S (S (next s))) NPY_DOUBLE) (nd_size [n; n]) in
    let jxy := filled (junk s (S (S (S (next s)))) NPY_DOUBLE) (nd_size [n; n]) in
    hessian K (nd_data ma) jxx jyy jxy n = (wxx, wyy, wxy) /\
    apply_stores wxx jxx = Some hxx /\
    apply_stores wyy jyy = Some hyy /\
    apply_stores wxy jxy = Some hxy /\
    view s' p = Tup [Item NPY_DOUBLE (@mk_ndarray NPY_DOUBLE [n; n] hxx);
                     Item NPY_DOUBLE (@mk_ndarray NPY_DOUBLE [n; n] hyy);
                     Item NPY_DOUBLE (@mk_ndarray NPY_DOUBLE [n; n] hxy)] /\
    calls s' = calls s ++ [Call_hessian (nd_data ma) jxx jyy jxy n].
Proof.
  intros Hrun Hp. revert Hrun. destruct s as [h n e m j c].
  run; ended.
  all: post.
Qed.

Lemma hessian_succeeds K map_obj s ma d0 wxx wyy wxy :
  ob_as_array map_obj NPY_DOUBLE = inr ma ->
  nd_dims ma !! 0%nat = Some d0 ->
  0 <= to_int d0 < 1073741824 ->
  mem_ok (mem s) = true ->
  mem_ok (tail (mem s)) = true ->
  mem_ok (tail (tail (mem s))) = true ->
  mem_ok (tail (tail (tail (mem s)))) = true ->
  (let n := to_int d0 in
   let jxx := filled (junk s (S (next s)) NPY_DOUBLE) (nd_size [n; n]) in
   let jyy := filled (junk s (S (S (next s))) NPY_DOUBLE) (nd_size [n; n]) in
   let jxy := filled (junk s (S (S (S (next s)))) NPY_DOUBLE) (nd_size [n; n]) in
   hessian K (nd_data ma) jxx jyy jxy n = (wxx, wyy, wxy) /\
   in_bounds wxx (length jxx) /\ in_bounds wyy (length jyy) /\
   in_bounds wxy (length jxy)) ->
  exists p s', _topology_hessian K [map_obj] s = Done p s' /\ p <> NULL.
Proof.
  intros Hma Hd0 Hpos Hm0 Hm1 Hm2 Hm3 (Hker & Hbxx & Hbyy & Hbxy).
  apply nonneg_dim_2 in Hpos.
  apply apply_stores_in_bounds in Hbxx. destruct Hbxx as [hxx Hhxx].
  apply apply_stores_in_bounds in Hbyy. destruct Hbyy as [hyy Hhyy].
  apply apply_stores_in_bounds in Hbxy. destruct Hbxy as [hxy Hhxy].
  destruct s as [h n e m j c]. cbn in Hm0, Hm1, Hm2, Hm3, Hker, Hhxx, Hhyy, Hhxy.
  run_known.
  eexists _, _; split; [reflexivity | discriminate].
Qed.

(** ** [minkowski] *)

Lemma int_sub_ok x : 0 <= to_int x - 1 ->
  (INT_MIN <=? to_int x - 1) && (to_int x - 1 <=? INT_MAX) = true.
Proof.
  intros H. pose proof (to_int_range x) as R. unfold INT_MIN, INT_MAX in *.
  apply andb_true_intro. split; apply Z.leb_le; lia.
Qed.

Lemma minkowski_returned K map_obj mask_obj grad_x_obj grad_y_obj hess_xx_obj
    hess_yy_obj hess_xy_obj thresholds_obj sigma_obj s p s' :
  _topology_minkowski K
    [map_obj; mask_obj; grad_x_obj; grad_y_obj; hess_xx_obj; hess_yy_obj;
     hess_xy_obj; thresholds_obj; sigma_obj] s = Done p s' ->
  p <> NULL ->
  exists sigma ma gxa gya hxxa hyya hxya ta mk d0 N w0 w1 w2 v0 v1 v2,
    ob_as_double sigma_obj = Some sigma /\
    ob_as_array map_obj NPY_DOUBLE = inr ma /\
    ob_as_array grad_x_obj NPY_DOUBLE = inr gxa /\
    ob_as_array grad_y_obj NPY_DOUBLE = inr gya /\
    ob_as_array hess_xx_obj NPY_DOUBLE = inr hxxa /\
    ob_as_array hess_yy_obj NPY_DOUBLE = inr hyya /\
    ob_as_array hess_xy_obj NPY_DOUBLE = inr hxya /\
    ob_as_array thresholds_obj NPY_DOUBLE = inr ta /\
    mask_arg mask_obj mk /\
    nd_dims ma !! 0%nat = Some d0 /\
    nd_dims ta !! 0%nat = Some N /\
    0 <= to_int N - 1 /\
    mem_ok (mem s) = true /\
    mem_ok (tail (mem s)) = true /\
    mem_ok (tail (tail (mem s))) = true /\
    mem_ok (tail (tail (tail (mem s)))) = true /\
    let mink := zeros NPY_DOUBLE [to_int N - 1] in
    minkowski_functionals K (nd_data ma) mk (to_int d0) sigma
      (nd_data gxa) (nd_data gya) (nd_data hxxa) (nd_data hyya) (nd_data hxya)
      (to_int N) (nd_data ta) mink mink mink = (w0, w1, w2) /\
    apply_stores w0 mink = Some v0 /\
    apply_stores w1 mink = Some v1 /\
    apply_stores w2 mink = Some v2 /\
    view s' p = Tup [Item NPY_DOUBLE (@mk_ndarray NPY_DOUBLE [to_int N - 1] v0);
                     Item NPY_DOUBLE (@mk_ndarray NPY_DOUBLE [to_int N - 1] v1);
                     Item NPY_DOUBLE (@mk_ndarray NPY_DOUBLE [to_int N - 1] v2)] /\
    calls s' = calls s ++
      [Call_minkowski_functionals (nd_data ma) mk (to_int d0) sigma
         (nd_data gxa) (nd_data gya) (nd_data hxxa) (nd_data hyya) (nd_data hxya)
         (to_int N) (nd_data ta) mink mink mink] /\
    err s' = err s.
Proof.
  intros Hrun Hp. revert Hrun. destruct s as [h n e m j c].
  run; ended.
  all: post.
Qed.

Lemma minkowski_succeeds K map_obj mask_obj grad_x_obj grad_y_obj hess_xx_obj
    hess_yy_obj hess_xy_obj thresholds_obj sigma_obj s
    sigma ma gxa gya hxxa hyya hxya ta mk d0 N w0 w1 w2 :
  ob_as_double sigma_obj = Some sigma ->
  ob_as_array map_obj NPY_DOUBLE = inr ma ->
  ob_as_array grad_x_obj NPY_DOUBLE = inr gxa ->
  ob_as_array grad_y_obj NPY_DOUBLE = inr gya ->
  ob_as_array hess_xx_obj NPY_DOUBLE = inr hxxa ->
  ob_as_array hess_yy_obj NPY_DOUBLE = inr hyya ->
  ob_as_array hess_xy_obj NPY_DOUBLE = inr hxya ->
  ob_as_array thresholds_obj NPY_DOUBLE = inr ta ->
  mask_arg mask_obj mk ->
  nd_dims ma !! 0%nat = Some d0 ->
  nd_dims ta !! 0%nat = Some N ->
  0 <= to_int N - 1 ->
  mem_ok (mem s) = true ->
  mem_ok (tail (mem s)) = true ->
  mem_ok (tail (tail (mem s))) = true ->
  mem_ok (tail (tail (tail (mem s)))) = true ->
  (let mink := zeros NPY_DOUBLE [to_int N - 1] in
   minkowski_functionals K (nd_data ma) mk (to_int d0) sigma
     (nd_data gxa) (nd_data gya) (nd_data hxxa) (nd_data hyya) (nd_data hxya)
     (to_int N) (nd_data ta) mink mink mink = (w0, w1, w2) /\
   in_bounds w0 (length mink) /\ in_bounds w1 (length mink) /\
   in_bounds w2 (length mink)) ->
  exists p s',
    _topology_minkowski K
      [map_obj; mask_obj; grad_x_obj; grad_y_obj; hess_xx_obj; hess_yy_obj;
       hess_xy_obj; thresholds_obj; sigma_obj] s = Done p s' /\
    p <> NULL.
Proof.
  intros Hs Hma Hgx Hgy Hxx Hyy Hxy Hta Hmk Hd0 HN Hpos Hm0 Hm1 Hm2 Hm3
    (Hker & Hb0 & Hb1 & Hb2).
  pose proof (int_sub_ok _ Hpos) as Hsub.
  apply nonneg_dim_1 in Hpos.
  apply apply_stores_in_bounds in Hb0. destruct Hb0 as [v0 Hv0].
  apply apply_stores_in_bounds in Hb1. destruct Hb1 as [v1 Hv1].
  apply apply_stores_in_bounds in Hb2. destruct Hb2 as [v2 Hv2].
  destruct s as [h n e m j c]. cbn in Hm0, Hm1, Hm2, Hm3.
  destruct (mask_arg_cases _ _ Hmk) as [[Hn ->]|[Hn (a & Ha & ->)]].
  all: run_known.
  all: eexists _, _; split; [reflexivity | discriminate].
Qed.

(** ** Lengths of the statistic vectors *)

Lemma stored_vector_length t (w : stores (elt t)) n out :
  0 <= n ->
  apply_stores w (zeros t [n]) = Some out ->
  vector_of_length (@mk_ndarray t [n] out) n.
Proof.
  intros Hn H. split; [reflexivity|]. simpl.
  rewrite (apply_stores_length _ _ _ H), filled_length, nd_size_1. lia.
Qed.

Lemma same_length (o : PyObject) (a : ndarray NPY_DOUBLE) N N' :
  array_length o N ->
  ob_as_array o NPY_DOUBLE = inr a ->
  nd_dims a !! 0%nat = Some N' ->
  N' = N.
Proof.
  intros (b & Hb & HN) Ha HN'. rewrite Ha in Hb. injection Hb as <-.
  congruence.
Qed.

Lemma to_int_count N : 0 <= N <= INT_MAX -> to_int N = N.
Proof. intros H. apply to_int_id. unfold INT_MIN, INT_MAX in *. lia. Qed.

Lemma peakCount_output_length K map_obj mask_obj edges_obj sigma_obj s N :
  0 <= N <= INT_MAX ->
  array_length edges_obj N ->
  output_length
    (_topology_peakCount K [map_obj; mask_obj; edges_obj; sigma_obj] s) (N - 1).
Proof.
  intros HN Hlen p s' Hrun Hp.
  destruct (peakCount_returned _ _ _ _ _ _ _ _ Hrun Hp)
    as (sigma & ma & ta & mk & d0 & N' & out & _ & _ & Hta & _ & _ & HN' & Hpos
        & _ & Hout & Hview & _).
  rewrite (same_length _ _ _ _ Hlen Hta HN') in *.
  rewrite (to_int_count _ HN) in *.
  rewrite Hview. simpl. eapply stored_vector_length; eauto.
Qed.

Lemma minkowski_output_length K map_obj mask_obj gx_obj gy_obj hxx_obj hyy_obj
    hxy_obj edges_obj sigma_obj s N :
  0 <= N <= INT_MAX ->
  array_length edges_obj N ->
  output_length
    (_topology_minkowski K
       [map_obj; mask_obj; gx_obj; gy_obj; hxx_obj; hyy_obj; hxy_obj;
        edges_obj; sigma_obj] s) (N - 1).
Proof.
  intros HN Hlen p s' Hrun Hp.
  destruct (minkowski_returned _ _ _ _ _ _ _ _ _ _ _ _ _ Hrun Hp)
    as (sigma & ma & gxa & gya & hxxa & hyya & hxya & ta & mk & d0 & N'
        & w0 & w1 & w2 & v0 & v1 & v2
        & _ & _ & _ & _ & _ & _ & _ & Hta & _ & _ & HN' & Hpos & _ & _ & _ & _
        & _ & H0 & H1 & H2 & Hview & _).
  rewrite (same_length _ _ _ _ Hlen Hta HN') in *.
  rewrite (to_int_count _ HN) in *.
  rewrite Hview. simpl.
  repeat (constructor 2; [simpl; eapply stored_vector_length; eauto|]).
  constructor 1.
Qed.

Lemma rfft2_output_length K ft1_obj ft2_obj angle_obj edges_obj s N :
  0 <= N <= INT_MAX ->
  array_length edges_obj N ->
  output_length
    (_topology_rfft2_azimuthal K [ft1_obj; ft2_obj; angle_obj; edges_obj] s) (N - 1).
Proof.
  intros HN Hlen p s' Hrun Hp.
  destruct (rfft2_returned _ _ _ _ _ _ _ _ Hrun Hp)
    as (angle & a1 & a2 & la & x0 & y0 & N' & w & out
        & _ & _ & _ & Hla & _ & _ & HN' & Hpos & _ & _ & Hout & Hview & _).
  rewrite (same_length _ _ _ _ Hlen Hla HN') in *.
  rewrite (to_int_count _ HN) in *.
  rewrite Hview. simpl. eapply stored_vector_length; eauto.
Qed.

Lemma rfft3_output_length K ft1_obj ft2_obj kx_obj ky_obj kz_obj edges_obj s N :
  0 <= N <= INT_MAX ->
  array_length edges_obj N ->
  output_length
    (_topology_rfft3_azimuthal K
       [ft1_obj; ft2_obj; kx_obj; ky_obj; kz_obj; edges_obj] s) (N - 1).
Proof.
  intros HN Hlen p s' Hrun Hp.
  destruct (rfft3_returned _ _ _ _ _ _ _ _ _ _ Hrun Hp)
    as (kx & ky & kz & a1 & a2 & ka & x0 & y0 & z0 & N' & wp & wh & outp & outh
        & _ & _ & _ & _ & _ & Hka & _ & _ & _ & HN' & Hpos & _ & _ & _
        & _ & Hp' & Hh & Hview & _).
  rewrite (same_length _ _ _ _ Hlen Hka HN') in *.
  rewrite (to_int_count _ HN) in *.
  rewrite Hview. simpl.
  repeat (constructor 2; [simpl; eapply stored_vector_length; eauto|]).
  constructor 1.
Qed.

(** C1, as amended: for a thresholds (lvalues, kvalues) array of N entries
    with N at most INT_MAX, every statistic vector that [peakCount],
    [minkowski], [rfft2_azimuthal] or [rfft3_azimuthal] returns has exactly
    N - 1 cells. *)
Theorem statistic_vectors_have_N_minus_1_cells
    K map_obj mask_obj gx_obj gy_obj hxx_obj hyy_obj hxy_obj ft1_obj ft2_obj
    edges_obj sigma_obj kx_obj ky_obj kz_obj s N :
  0 <= N <= INT_MAX ->
  array_length edges_obj N ->
  output_length
    (_topology_peakCount K [map_obj; mask_obj; edges_obj; sigma_obj] s) (N - 1) /\
  output_length
    (_topology_minkowski K
       [map_obj; mask_obj; gx_obj; gy_obj; hxx_obj; hyy_obj; hxy_obj;
        edges_obj; sigma_obj] s) (N - 1) /\
  output_length
    (_topology_rfft2_azimuthal K [ft1_obj; ft2_obj; sigma_obj; edges_obj] s) (N - 1) /\
  output_length
    (_topology_rfft3_azimuthal K
       [ft1_obj; ft2_obj; kx_obj; ky_obj; kz_obj; edges_obj] s) (N - 1).
Proof.
  intros HN Hlen. repeat split.
  - now apply peakCount_output_length.
  - now apply minkowski_output_length.
  - now apply rfft2_output_length.
  - now apply rfft3_output_length.
Qed.

Lemma statistic_vectors_have_N_minus_1_cells_witness :
  0 <= 2 <= INT_MAX /\
  array_length (array_object NPY_DOUBLE edges_1_2) 2 /\
  output_length
    (_topology_peakCount flat_kernels
       [array_object NPY_DOUBLE flat_2x2; None_object;
        array_object NPY_DOUBLE edges_1_2; float_object d_one] fresh_state) (2 - 1).
Proof.
  assert (H1 : 0 <= 2 <= INT_MAX) by (unfold INT_MAX; lia).
  assert (H2 : array_length (array_object NPY_DOUBLE edges_1_2) 2)
    by (exists edges_1_2; split; reflexivity).
  split; [exact H1|]. split; [exact H2|].
  exact (proj1 (statistic_vectors_have_N_minus_1_cells flat_kernels
           (array_object NPY_DOUBLE flat_2x2) None_object
           None_object None_object None_object None_object None_object
           None_object None_object
           (array_object NPY_DOUBLE edges_1_2) (float_object d_one)
           None_object None_object None_object fresh_state 2 H1 H2)).
Defined.

Lemma huge_edges_wf : nd_wf huge_edges.
Proof.
  unfold nd_wf, huge_edges. cbn [nd_dims nd_data]. split.
  - constructor 2; [lia | constructor 1].
  - rewrite filled_length, Z2Nat.id; [reflexivity|].
    rewrite nd_size_1. lia.
Qed.

(** C1 as stated fails for an array of 2^32 + 3 edges: [(int)] narrows
    the count to 3 and the vector returned has 2 cells. *)
Lemma statistic_vectors_length_counterexample :
  nd_wf huge_edges /\
  array_length (array_object NPY_DOUBLE huge_edges) 4294967299 /\
  ~ output_length
      (_topology_peakCount flat_kernels
         [array_object NPY_DOUBLE flat_2x2; None_object;
          array_object NPY_DOUBLE huge_edges; float_object d_one] fresh_state)
      (4294967299 - 1).
Proof.
  split; [exact huge_edges_wf|].
  split; [exists huge_edges; split; reflexivity|].
  intros Hlaw.
  destruct (peakCount_succeeds flat_kernels
              (array_object NPY_DOUBLE flat_2x2) None_object
              (array_object NPY_DOUBLE huge_edges) (float_object d_one)
              fresh_state d_one flat_2x2 huge_edges None 2 4294967299)
    as (p & s' & Hrun & Hp); try reflexivity.
  - discriminate.
  - constructor 1.
  - specialize (Hlaw p s' Hrun Hp).
    destruct (peakCount_returned _ _ _ _ _ _ _ _ Hrun Hp)
      as (sigma & ma & ta & mk & d0 & N' & out & _ & _ & Hta & _ & _ & HN' & _
          & _ & _ & Hview & _).
    change (@inr exn _ huge_edges = inr ta) in Hta. injection Hta as <-.
    change (Some 4294967299 = Some N') in HN'. injection HN' as <-.
    rewrite Hview in Hlaw. destruct Hlaw as [Hd _].
    cbn [nd_dims] in Hd. injection Hd as Hd. vm_compute in Hd. discriminate.
Qed.

(** ** Exactly when a call returns an object *)

Lemma peakCount_returns_iff K map_obj mask_obj thresholds_obj sigma_obj s :
  returns (_topology_peakCount K [map_obj; mask_obj; thresholds_obj; sigma_obj] s)
  <-> peakCount_ready K map_obj mask_obj thresholds_obj sigma_obj s.
Proof.
  split.
  - intros (p & s' & Hrun & Hp).
    destruct (peakCount_returned _ _ _ _ _ _ _ _ Hrun Hp)
      as (sigma & ma & ta & mk & d0 & N & out & H).
    exists sigma, ma, ta, mk, d0, N.
    destruct H as (? & ? & ? & ? & ? & ? & ? & ? & Hout & _).
    repeat (split; [assumption|]).
    exact (apply_stores_Some_in_bounds _ _ _ Hout).
  - intros (sigma & ma & ta & mk & d0 & N & H).
    destruct H as (? & ? & ? & ? & ? & ? & ? & ? & ?).
    eapply peakCount_succeeds; eauto.
Qed.

Lemma minkowski_returns_iff K map_obj mask_obj grad_x_obj grad_y_obj hess_xx_obj
    hess_yy_obj hess_xy_obj thresholds_obj sigma_obj s :
  returns (_topology_minkowski K
             [map_obj; mask_obj; grad_x_obj; grad_y_obj; hess_xx_obj; hess_yy_obj;
              hess_xy_obj; thresholds_obj; sigma_obj] s)
  <-> minkowski_ready K map_obj mask_obj grad_x_obj grad_y_obj hess_xx_obj
        hess_yy_obj hess_xy_obj thresholds_obj sigma_obj s.
Proof.
  split.
  - intros (p & s' & Hrun & Hp).
    destruct (minkowski_returned _ _ _ _ _ _ _ _ _ _ _ _ _ Hrun Hp)
      as (sigma & ma & gxa & gya & hxxa & hyya & hxya & ta & mk & d0 & N
          & w0 & w1 & w2 & v0 & v1 & v2 & H).
    exists sigma, ma, gxa, gya, hxxa, hyya, hxya, ta, mk, d0, N.
    destruct H as (? & ? & ? & ? & ? & ? & ? & ? & ? & ? & ? & ? & ? & ? & ? & ?
                   & Hk & H0 & H1 & H2 & _).
    repeat (split; [assumption|]).
    cbv zeta. rewrite Hk. cbn [fst snd].
    repeat split; eapply apply_stores_Some_in_bounds; eassumption.
  - intros (sigma & ma & gxa & gya & hxxa & hyya & hxya & ta & mk & d0 & N & H).
    destruct H as (? & ? & ? & ? & ? & ? & ? & ? & ? & ? & ? & ? & ? & ? & ? & ?
                   & Hb).
    cbv zeta in Hb.
    destruct (minkowski_functionals K (nd_data ma) mk (to_int d0) sigma
                (nd_data gxa) (nd_data gya) (nd_data hxxa) (nd_data hyya)
                (nd_data hxya) (to_int N) (nd_data ta)
                (zeros NPY_DOUBLE [to_int N - 1]) (zeros NPY_DOUBLE [to_int N - 1])
                (zeros NPY_DOUBLE [to_int N - 1])) as [[w0 w1] w2] eqn:Hk.
    cbn [fst snd] in Hb.
    eapply minkowski_succeeds; eauto.
Qed.

Lemma rfft2_returns_iff K ft_map1_obj ft_map2_obj angle_obj lvalues_obj s :
  returns (_topology_rfft2_azimuthal K
             [ft_map1_obj; ft_map2_obj; angle_obj; lvalues_obj] s)
  <-> rfft2_ready K ft_map1_obj ft_map2_obj angle_obj lvalues_obj s.
Proof.
  split.
  - intros (p & s' & Hrun & Hp).
    destruct (rfft2_returned _ _ _ _ _ _ _ _ Hrun Hp)
      as (angle & a1 & a2 & la & x0 & y0 & N & w & out & H).
    exists angle, a1, a2, la, x0, y0, N.
    destruct H as (? & ? & ? & ? & ? & ? & ? & ? & ? & Hk & Hout & _).
    repeat (split; [assumption|]).
    cbv zeta. rewrite Hk. cbn [fst snd].
    repeat split; eapply apply_stores_Some_in_bounds; eassumption.
  - intros (angle & a1 & a2 & la & x0 & y0 & N & H).
    destruct H as (? & ? & ? & ? & ? & ? & ? & ? & ? & Hb).
    cbv zeta in Hb.
    destruct (azimuthal_rfft2 K (nd_data a1) (nd_data a2) (to_int x0) (to_int y0)
                angle (to_int N) (nd_data la) (zeros NPY_DOUBLE [to_int N - 1]))
      as [st w] eqn:Hk.
    cbn [fst snd] in Hb. destruct Hb as [-> Hb].
    eapply rfft2_succeeds; eauto.
Qed.

Lemma rfft3_returns_iff K ft_map1_obj ft_map2_obj kx_obj ky_obj kz_obj kvalues_obj s :
  returns (_topology_rfft3_azimuthal K
             [ft_map1_obj; ft_map2_obj; kx_obj; ky_obj; kz_obj; kvalues_obj] s)
  <-> rfft3_ready K ft_map1_obj ft_map2_obj kx_obj ky_obj kz_obj kvalues_obj s.
Proof.
  split.
  - intros (p & s' & Hrun & Hp).
    destruct (rfft3_returned _ _ _ _ _ _ _ _ _ _ Hrun Hp)
      as (kx & ky & kz & a1 & a2 & ka & x0 & y0 & z0 & N & wp & wh & outp & outh
          & H).
    exists kx, ky, kz, a1, a2, ka, x0, y0, z0, N.
    destruct H as (? & ? & ? & ? & ? & ? & ? & ? & ? & ? & ? & ? & ? & ?
                   & Hk & Hp' & Hh & _).
    repeat (split; [assumption|]).
    cbv zeta. rewrite Hk. cbn [fst snd].
    repeat split; eapply apply_stores_Some_in_bounds; eassumption.
  - intros (kx & ky & kz & a1 & a2 & ka & x0 & y0 & z0 & N & H).
    destruct H as (? & ? & ? & ? & ? & ? & ? & ? & ? & ? & ? & ? & ? & ? & Hb).
    cbv zeta in Hb.
    destruct (azimuthal_rfft3 K (nd_data a1) (nd_data a2) (to_int x0) (to_int y0)
                (to_int z0) kx ky kz (to_int N) (nd_data ka)
                (zeros NPY_DOUBLE [to_int N - 1]) (zeros NPY_LONG [to_int N - 1]))
      as [[st wp] wh] eqn:Hk.
    cbn [fst snd] in Hb. destruct Hb as (-> & Hbp & Hbh).
    eapply rfft3_succeeds; eauto.
Qed.

Lemma gradient_returns_iff K map_obj s :
  returns (_topology_gradient K [map_obj] s) <-> gradient_ready K map_obj s.
Proof.
  split.
  - intros (p & s' & Hrun & Hp).
    destruct (gradient_returned _ _ _ _ _ Hrun Hp)
      as (ma & d0 & wx & wy & gx & gy & H).
    exists ma, d0.
    destruct H as (? & ? & ? & ? & ? & ? & Hk & Hx & Hy & _).
    repeat (split; [assumption|]).
    cbv zeta. rewrite Hk. cbn [fst snd].
    repeat split; eapply apply_stores_Some_in_bounds; eassumption.
  - intros (ma & d0 & H).
    destruct H as (? & ? & ? & ? & ? & ? & Hb).
    cbv zeta in Hb.
    destruct (gradient_xy K (nd_data ma)
                (filled (junk s (S (next s)) NPY_DOUBLE)
                   (nd_size [to_int d0; to_int d0]))
                (filled (junk s (S (S (next s))) NPY_DOUBLE)
                   (nd_size [to_int d0; to_int d0])) (to_int d0))
      as [wx wy] eqn:Hk.
    cbn [fst snd] in Hb.
    eapply gradient_succeeds; eauto.
Qed.

Lemma hessian_returns_iff K map_obj s :
  returns (_topology_hessian K [map_obj] s) <-> hessian_ready K map_obj s.
Proof.
  split.
  - intros (p & s' & Hrun & Hp).
    destruct (hessian_returned _ _ _ _ _ Hrun Hp)
      as (ma & d0 & wxx & wyy & wxy & hxx & hyy & hxy & H).
    exists ma, d0.
    destruct H as (? & ? & ? & ? & ? & ? & ? & Hk & Hxx & Hyy & Hxy & _).
    repeat (split; [assumption|]).
    cbv zeta. rewrite Hk. cbn [fst snd].
    repeat split; eapply apply_stores_Some_in_bounds; eassumption.
  - intros (ma & d0 & H).
    destruct H as (? & ? & ? & ? & ? & ? & ? & Hb).
    cbv zeta in Hb.
    destruct (hessian K (nd_data ma)
                (filled (junk s (S (next s)) NPY_DOUBLE)
                   (nd_size [to_int d0; to_int d0]))
                (filled (junk s (S (S (next s))) NPY_DOUBLE)
                   (nd_size [to_int d0; to_int d0]))
                (filled (junk s (S (S (S (next s)))) NPY_DOUBLE)
                   (nd_size [to_int d0; to_int d0])) (to_int d0))
      as [[wxx wyy] wxy] eqn:Hk.
    cbn [fst snd] in Hb.
    eapply hessian_succeeds; eauto.
Qed.

(** ** Shapes are not compared *)

(** C2, as amended: no entry point compares the shape of one array with
    that of another.  [peakCount], [minkowski], [rfft2_azimuthal] and
    [rfft3_azimuthal] return their result exactly when the arguments
    convert, at least one edge is left after narrowing, the outputs can be
    allocated and the kernel stores inside them (reporting success, for the
    azimuthal kernels), whatever the shapes of map and mask or of ft1 and
    ft2 are. *)
Theorem shapes_are_not_compared
    K map_obj mask_obj gx_obj gy_obj hxx_obj hyy_obj hxy_obj ft1_obj ft2_obj
    edges_obj sigma_obj kx_obj ky_obj kz_obj s :
  (returns (_topology_peakCount K [map_obj; mask_obj; edges_obj; sigma_obj] s)
   <-> peakCount_ready K map_obj mask_obj edges_obj sigma_obj s) /\
  (returns (_topology_minkowski K
              [map_obj; mask_obj; gx_obj; gy_obj; hxx_obj; hyy_obj; hxy_obj;
               edges_obj; sigma_obj] s)
   <-> minkowski_ready K map_obj mask_obj gx_obj gy_obj hxx_obj hyy_obj hxy_obj
         edges_obj sigma_obj s) /\
  (returns (_topology_rfft2_azimuthal K [ft1_obj; ft2_obj; sigma_obj; edges_obj] s)
   <-> rfft2_ready K ft1_obj ft2_obj sigma_obj edges_obj s) /\
  (returns (_topology_rfft3_azimuthal K
              [ft1_obj; ft2_obj; kx_obj; ky_obj; kz_obj; edges_obj] s)
   <-> rfft3_ready K ft1_obj ft2_obj kx_obj ky_obj kz_obj edges_obj s).
Proof.
  repeat split;
    first [ apply peakCount_returns_iff | apply minkowski_returns_iff
          | apply rfft2_returns_iff | apply rfft3_returns_iff ].
Qed.

Lemma rfft2_ready_sample :
  rfft2_ready flat_kernels (array_object NPY_COMPLEX128 ft_2x2)
    (array_object NPY_COMPLEX128 ft_2x2x2) (float_object d_one)
    (array_object NPY_DOUBLE edges_1_2) fresh_state.
Proof.
  exists d_one, ft_2x2, ft_2x2x2, edges_1_2, 2, 2, 2.
  repeat split; try reflexivity.
  - vm_compute. discriminate.
  - constructor 1.
Defined.

Lemma shapes_are_not_compared_witness :
  nd_dims ft_2x2 <> nd_dims ft_2x2x2 /\
  returns (_topology_rfft2_azimuthal flat_kernels
             [array_object NPY_COMPLEX128 ft_2x2;
              array_object NPY_COMPLEX128 ft_2x2x2;
              float_object d_one; array_object NPY_DOUBLE edges_1_2] fresh_state).
Proof.
  split; [discriminate|].
  exact (proj2 (proj1 (proj2 (proj2
           (shapes_are_not_compared flat_kernels None_object None_object
              None_object None_object None_object None_object None_object
              (array_object NPY_COMPLEX128 ft_2x2)
              (array_object NPY_COMPLEX128 ft_2x2x2)
              (array_object NPY_DOUBLE edges_1_2) (float_object d_one)
              None_object None_object None_object fresh_state))))
           rfft2_ready_sample).
Defined.

(** C2 as stated fails: [peakCount] on a 2x2 map with a 3x3 mask raises
    nothing and returns its vector. *)
Lemma shape_mismatch_counterexample :
  nd_dims flat_2x2 <> nd_dims mask_3x3 /\
  ~ raises (_topology_peakCount flat_kernels
              [array_object NPY_DOUBLE flat_2x2; array_object NPY_BOOL mask_3x3;
               array_object NPY_DOUBLE edges_1_2; float_object d_one] fresh_state) /\
  result_of (_topology_peakCount flat_kernels
               [array_object NPY_DOUBLE flat_2x2; array_object NPY_BOOL mask_3x3;
                array_object NPY_DOUBLE edges_1_2; float_object d_one] fresh_state)
  = Arr NPY_DOUBLE (@mk_ndarray NPY_DOUBLE [1] [d_zero]).
Proof.
  split; [discriminate|]. split.
  - intros (s' & H & _). vm_compute in H. discriminate.
  - vm_compute. reflexivity.
Qed.

(** ** Thresholds are not validated *)

Lemma empty_dim_negative : shape_refused 8 [to_int 0 - 1] = true.
Proof. reflexivity. Qed.

Lemma empty_int_sub : (INT_MIN <=? to_int 0 - 1) && (to_int 0 - 1 <=? INT_MAX) = true.
Proof. reflexivity. Qed.

Ltac rejected :=
  eexists; split; [reflexivity | split; [discriminate | reflexivity]].

Lemma peakCount_empty_edges K map_obj mask_obj thresholds_obj sigma_obj s :
  peakCount_converts map_obj mask_obj thresholds_obj sigma_obj 0 ->
  rejected_before_kernel
    (_topology_peakCount K [map_obj; mask_obj; thresholds_obj; sigma_obj] s) s.
Proof.
  intros (sigma & ma & ta & mk & d0 & Hs & Hma & Hta & Hmk & Hd0 & HN).
  pose proof empty_dim_negative as Hneg.
  destruct s as [h n e m j c].
  destruct (mask_arg_cases _ _ Hmk) as [[Hn ->]|[Hn (a & Ha & ->)]].
  all: unfold rejected_before_kernel; run_known.
  all: rejected.
Qed.

Lemma minkowski_empty_edges K map_obj mask_obj grad_x_obj grad_y_obj hess_xx_obj
    hess_yy_obj hess_xy_obj thresholds_obj sigma_obj s :
  minkowski_converts map_obj mask_obj grad_x_obj grad_y_obj hess_xx_obj
    hess_yy_obj hess_xy_obj thresholds_obj sigma_obj 0 ->
  rejected_before_kernel
    (_topology_minkowski K
       [map_obj; mask_obj; grad_x_obj; grad_y_obj; hess_xx_obj; hess_yy_obj;
        hess_xy_obj; thresholds_obj; sigma_obj] s) s.
Proof.
  intros (sigma & ma & gxa & gya & hxxa & hyya & hxya & ta & mk & d0
          & Hs & Hma & Hgx & Hgy & Hxx & Hyy & Hxy & Hta & Hmk & Hd0 & HN).
  pose proof empty_dim_negative as Hneg.
  pose proof empty_int_sub as Hsub.
  destruct s as [h n e m j c].
  destruct (mask_arg_cases _ _ Hmk) as [[Hn ->]|[Hn (a & Ha & ->)]].
  all: unfold rejected_before_kernel; run_known.
  all: rejected.
Qed.

(** C3, as amended: [peakCount] and [minkowski] reject a thresholds array
    only when it is empty: the output of length -1 cannot be allocated,
    the call returns NULL with an exception set and the kernel has not
    run.  With N >= 1 edges (N at most INT_MAX) the edges are not
    inspected: a single edge, or edges that do not increase, are accepted
    like any other, and the call returns vectors of N - 1 cells exactly
    when the arguments convert, memory is available and the kernel stores
    inside its outputs. *)
Theorem thresholds_are_not_validated
    K map_obj mask_obj gx_obj gy_obj hxx_obj hyy_obj hxy_obj edges_obj sigma_obj s :
  (peakCount_converts map_obj mask_obj edges_obj sigma_obj 0 ->
   rejected_before_kernel
     (_topology_peakCount K [map_obj; mask_obj; edges_obj; sigma_obj] s) s) /\
  (minkowski_converts map_obj mask_obj gx_obj gy_obj hxx_obj hyy_obj hxy_obj
     edges_obj sigma_obj 0 ->
   rejected_before_kernel
     (_topology_minkowski K
        [map_obj; mask_obj; gx_obj; gy_obj; hxx_obj; hyy_obj; hxy_obj;
         edges_obj; sigma_obj] s) s) /\
  (forall N, 1 <= N <= INT_MAX -> array_length edges_obj N ->
   (returns (_topology_peakCount K [map_obj; mask_obj; edges_obj; sigma_obj] s)
    <-> peakCount_ready K map_obj mask_obj edges_obj sigma_obj s) /\
   output_length
     (_topology_peakCount K [map_obj; mask_obj; edges_obj; sigma_obj] s) (N - 1) /\
   (returns (_topology_minkowski K
               [map_obj; mask_obj; gx_obj; gy_obj; hxx_obj; hyy_obj; hxy_obj;
                edges_obj; sigma_obj] s)
    <-> minkowski_ready K map_obj mask_obj gx_obj gy_obj hxx_obj hyy_obj hxy_obj
          edges_obj sigma_obj s) /\
   output_length
     (_topology_minkowski K
        [map_obj; mask_obj; gx_obj; gy_obj; hxx_obj; hyy_obj; hxy_obj;
         edges_obj; sigma_obj] s) (N - 1)).
Proof.
  split; [apply peakCount_empty_edges|].
  split; [apply minkowski_empty_edges|].
  intros N HN Hlen.
  assert (HN' : 0 <= N <= INT_MAX) by lia.
  split; [apply peakCount_returns_iff|].
  split; [now apply peakCount_output_length|].
  split; [apply minkowski_returns_iff|].
  now apply minkowski_output_length.
Qed.

Lemma peakCount_ready_decreasing_edges :
  peakCount_ready flat_kernels (array_object NPY_DOUBLE flat_2x2) None_object
    (array_object NPY_DOUBLE edges_2_1) (float_object d_one) fresh_state.
Proof.
  exists d_one, flat_2x2, edges_2_1, None, 2, 2.
  repeat split; try reflexivity.
  - vm_compute. discriminate.
  - constructor 1.
Defined.

Lemma peakCount_converts_no_edge :
  peakCount_converts (array_object NPY_DOUBLE flat_2x2) None_object
    (array_object NPY_DOUBLE no_edge) (float_object d_one) 0.
Proof.
  exists d_one, flat_2x2, no_edge, None, 2.
  repeat split; reflexivity.
Defined.

Lemma thresholds_are_not_validated_witness :
  rejected_before_kernel
    (_topology_peakCount flat_kernels
       [array_object NPY_DOUBLE flat_2x2; None_object;
        array_object NPY_DOUBLE no_edge; float_object d_one] fresh_state)
    fresh_state /\
  returns
    (_topology_peakCount flat_kernels
       [array_object NPY_DOUBLE flat_2x2; None_object;
        array_object NPY_DOUBLE edges_2_1; float_object d_one] fresh_state).
Proof.
  split.
  - exact (proj1 (thresholds_are_not_validated flat_kernels
             (array_object NPY_DOUBLE flat_2x2) None_object
             None_object None_object None_object None_object None_object
             (array_object NPY_DOUBLE no_edge) (float_object d_one) fresh_state)
             peakCount_converts_no_edge).
  - assert (H1 : 1 <= 2 <= INT_MAX) by (unfold INT_MAX; lia).
    assert (H2 : array_length (array_object NPY_DOUBLE edges_2_1) 2)
      by (exists edges_2_1; split; reflexivity).
    exact (proj2 (proj1 (proj2 (proj2 (thresholds_are_not_validated flat_kernels
             (array_object NPY_DOUBLE flat_2x2) None_object
             None_object None_object None_object None_object None_object
             (array_object NPY_DOUBLE edges_2_1) (float_object d_one) fresh_state))
             2 H1 H2)) peakCount_ready_decreasing_edges).
Defined.

(** C3 as stated fails: with a single edge, and with two edges in
    decreasing order, [peakCount] raises nothing and returns a vector (of
    no cell, of one cell). *)
Lemma invalid_thresholds_counterexample :
  (~ raises (_topology_peakCount flat_kernels
               [array_object NPY_DOUBLE flat_2x2; None_object;
                array_object NPY_DOUBLE single_edge; float_object d_one] fresh_state) /\
   result_of (_topology_peakCount flat_kernels
                [array_object NPY_DOUBLE flat_2x2; None_object;
                 array_object NPY_DOUBLE single_edge; float_object d_one] fresh_state)
   = Arr NPY_DOUBLE (@mk_ndarray NPY_DOUBLE [0] [])) /\
  (~ raises (_topology_peakCount flat_kernels
               [array_object NPY_DOUBLE flat_2x2; None_object;
                array_object NPY_DOUBLE edges_2_1; float_object d_one] fresh_state) /\
   result_of (_topology_peakCount flat_kernels
                [array_object NPY_DOUBLE flat_2x2; None_object;
                 array_object NPY_DOUBLE edges_2_1; float_object d_one] fresh_state)
   = Arr NPY_DOUBLE (@mk_ndarray NPY_DOUBLE [1] [d_zero])).
Proof.
  split; split.
  - intros (s' & H & _). vm_compute in H. discriminate.
  - vm_compute. reflexivity.
  - intros (s' & H & _). vm_compute in H. discriminate.
  - vm_compute. reflexivity.
Qed.

(** ** The shape of the gradient *)

(** C4, as amended: for a two-dimensional field of shape (n, m), n at
    most INT_MAX, the pair of arrays [gradient] returns has shape (n, n),
    which is the shape of the field exactly when the field is square.
    The call fails when the argument does not convert or an output
    cannot be allocated; it never fails because the field is not square. *)
Theorem gradient_output_shape K map_obj s ma n m :
  ob_as_array map_obj NPY_DOUBLE = inr ma ->
  nd_dims ma = [n; m] ->
  0 <= n <= INT_MAX ->
  (returns (_topology_gradient K [map_obj] s) <-> gradient_ready K map_obj s) /\
  (forall p s', _topology_gradient K [map_obj] s = Done p s' -> p <> NULL ->
   exists gx gy,
     view s' p = Tup [Item NPY_DOUBLE gx; Item NPY_DOUBLE gy] /\
     nd_dims gx = [n; n] /\ nd_dims gy = [n; n] /\
     Z.of_nat (length (nd_data gx)) = n * n /\
     Z.of_nat (length (nd_data gy)) = n * n /\
     (nd_dims gx = nd_dims ma <-> m = n)).
Proof.
  intros Hma Hdims Hn. split; [apply gradient_returns_iff|].
  intros p s' Hrun Hp.
  destruct (gradient_returned _ _ _ _ _ Hrun Hp)
    as (ma' & d0 & wx & wy & gx & gy & Hma' & Hd0 & Hpos & _ & _ & _ & _
        & Hgx & Hgy & Hview & _).
  rewrite Hma in Hma'. injection Hma' as <-.
  rewrite Hdims in Hd0. injection Hd0 as <-.
  rewrite (to_int_count _ Hn) in *.
  eexists _, _. split; [exact Hview|]. cbn [nd_dims nd_data].
  split; [reflexivity|]. split; [reflexivity|].
  split; [|split].
  - etransitivity; [apply f_equal; exact (apply_stores_length _ _ _ Hgx)|].
    rewrite filled_length, nd_size_2. nia.
  - etransitivity; [apply f_equal; exact (apply_stores_length _ _ _ Hgy)|].
    rewrite filled_length, nd_size_2. nia.
  - rewrite Hdims. split; [intros H; injection H; auto | intros ->; reflexivity].
Qed.

Lemma gradient_ready_sample :
  gradient_ready flat_kernels (array_object NPY_DOUBLE flat_2x2) fresh_state.
Proof.
  exists flat_2x2, 2.
  repeat split; try reflexivity.
  - vm_compute. discriminate.
  - vm_compute. repeat constructor.
  - vm_compute. repeat constructor.
Defined.

Lemma gradient_output_shape_witness :
  returns (_topology_gradient flat_kernels [array_object NPY_DOUBLE flat_2x2]
             fresh_state).
Proof.
  assert (H : 0 <= 2 <= INT_MAX) by (unfold INT_MAX; lia).
  exact (proj2 (proj1 (gradient_output_shape flat_kernels
           (array_object NPY_DOUBLE flat_2x2) fresh_state flat_2x2 2 2
           eq_refl eq_refl H)) gradient_ready_sample).
Defined.

(** C4 as stated fails: for a field of shape (2, 3) the arrays returned
    have shape (2, 2). *)
Lemma gradient_shape_counterexample :
  exists gx gy,
    result_of (_topology_gradient flat_kernels
                 [array_object NPY_DOUBLE flat_2x3] fresh_state)
    = Tup [Item NPY_DOUBLE gx; Item NPY_DOUBLE gy] /\
    nd_dims gx <> nd_dims flat_2x3 /\ nd_dims gy <> nd_dims flat_2x3.
Proof.
  eexists _, _. split; [vm_compute; reflexivity|].
  split; discriminate.
Qed.

(** ** What [rfft3_azimuthal] returns *)

(** C5, as amended: a successful call of [rfft3_azimuthal] with N bin
    edges, N at most INT_MAX, returns the pair (hits, power): hits a
    vector of N - 1 C longs and power a vector of N - 1 doubles, each being
    what the kernel, reporting success, stored into a zeroed buffer. *)
Theorem rfft3_returns_hits_and_power
    K ft1_obj ft2_obj kx_obj ky_obj kz_obj kvalues_obj s N p s' :
  0 <= N <= INT_MAX ->
  array_length kvalues_obj N ->
  _topology_rfft3_azimuthal K
    [ft1_obj; ft2_obj; kx_obj; ky_obj; kz_obj; kvalues_obj] s = Done p s' ->
  p <> NULL ->
  exists hits power ft1 ft2 nx ny nz kx ky kz kvalues wp wh,
    view s' p = Tup [Item NPY_LONG hits; Item NPY_DOUBLE power] /\
    vector_of_length hits (N - 1) /\
    vector_of_length power (N - 1) /\
    invoked s s'
      (Call_azimuthal_rfft3 ft1 ft2 nx ny nz kx ky kz N kvalues
         (zeros NPY_DOUBLE [N - 1]) (zeros NPY_LONG [N - 1])) /\
    azimuthal_rfft3 K ft1 ft2 nx ny nz kx ky kz N kvalues
      (zeros NPY_DOUBLE [N - 1]) (zeros NPY_LONG [N - 1]) = (0, wp, wh) /\
    apply_stores wp (zeros NPY_DOUBLE [N - 1]) = Some (nd_data power) /\
    apply_stores wh (zeros NPY_LONG [N - 1]) = Some (nd_data hits).
Proof.
  intros HN Hlen Hrun Hp.
  destruct (rfft3_returned _ _ _ _ _ _ _ _ _ _ Hrun Hp)
    as (kx & ky & kz & a1 & a2 & ka & x0 & y0 & z0 & N' & wp & wh & outp & outh
        & _ & _ & _ & _ & _ & Hka & _ & _ & _ & HN' & Hpos & _ & _ & _
        & Hk & Hp' & Hh & Hview & Hcalls).
  rewrite (same_length _ _ _ _ Hlen Hka HN') in *.
  rewrite (to_int_count _ HN) in *.
  exists (@mk_ndarray NPY_LONG [N - 1] outh), (@mk_ndarray NPY_DOUBLE [N - 1] outp).
  exists (nd_data a1), (nd_data a2), (to_int x0), (to_int y0), (to_int z0).
  exists kx, ky, kz, (nd_data ka), wp, wh.
  split; [exact Hview|].
  split; [eapply stored_vector_length; eauto|].
  split; [eapply stored_vector_length; eauto|].
  split; [exact Hcalls|].
  split; [exact Hk|].
  split; assumption.
Qed.

Lemma rfft3_ready_sample :
  rfft3_ready flat_kernels (array_object NPY_COMPLEX128 ft_2x2x2)
    (array_object NPY_COMPLEX128 ft_2x2x2) (float_object d_one)
    (float_object d_one) (float_object d_one)
    (array_object NPY_DOUBLE edges_1_2) fresh_state.
Proof.
  exists d_one, d_one, d_one, ft_2x2x2, ft_2x2x2, edges_1_2, 2, 2, 2, 2.
  repeat split; try reflexivity.
  - vm_compute. discriminate.
  - constructor 1.
  - constructor 1.
Defined.

Lemma rfft3_returns_hits_and_power_witness :
  exists p s' hits power,
    _topology_rfft3_azimuthal flat_kernels
      [array_object NPY_COMPLEX128 ft_2x2x2; array_object NPY_COMPLEX128 ft_2x2x2;
       float_object d_one; float_object d_one; float_object d_one;
       array_object NPY_DOUBLE edges_1_2] fresh_state = Done p s' /\
    p <> NULL /\
    view s' p = Tup [Item NPY_LONG hits; Item NPY_DOUBLE power] /\
    vector_of_length hits (2 - 1) /\
    vector_of_length power (2 - 1).
Proof.
  destruct (proj2 (rfft3_returns_iff _ _ _ _ _ _ _ _) rfft3_ready_sample)
    as (p & s' & Hrun & Hp).
  assert (H1 : 0 <= 2 <= INT_MAX) by (unfold INT_MAX; lia).
  assert (H2 : array_length (array_object NPY_DOUBLE edges_1_2) 2)
    by (exists edges_1_2; split; reflexivity).
  destruct (rfft3_returns_hits_and_power _ _ _ _ _ _ _ _ _ _ _ H1 H2 Hrun Hp)
    as (hits & power & ft1 & ft2 & nx & ny & nz & kx & ky & kz & kv & wp & wh
        & Hview & Hh & Hpw & _).
  exists p, s', hits, power. repeat split; try assumption; apply Hh || apply Hpw.
Defined.

(** C5 as stated fails for 2^32 + 3 bin edges: both vectors returned
    have 2 cells. *)
Lemma rfft3_length_counterexample :
  array_length (array_object NPY_DOUBLE huge_edges) 4294967299 /\
  exists p s',
    _topology_rfft3_azimuthal flat_kernels
      [array_object NPY_COMPLEX128 ft_2x2x2; array_object NPY_COMPLEX128 ft_2x2x2;
       float_object d_one; float_object d_one; float_object d_one;
       array_object NPY_DOUBLE huge_edges] fresh_state = Done p s' /\
    p <> NULL /\
    ~ vectors_of_length (view s' p) (4294967299 - 1).
Proof.
  split; [exists huge_edges; split; reflexivity|].
  destruct (rfft3_succeeds flat_kernels
              (array_object NPY_COMPLEX128 ft_2x2x2)
              (array_object NPY_COMPLEX128 ft_2x2x2)
              (float_object d_one) (float_object d_one) (float_object d_one)
              (array_object NPY_DOUBLE huge_edges) fresh_state
              d_one d_one d_one ft_2x2x2 ft_2x2x2 huge_edges 2 2 2 4294967299 [] [])
    as (p & s' & Hrun & Hp); try reflexivity.
  - discriminate.
  - split; [reflexivity|]. split; constructor 1.
  - exists p, s'. split; [exact Hrun|]. split; [exact Hp|].
    destruct (rfft3_returned _ _ _ _ _ _ _ _ _ _ Hrun Hp)
      as (kx & ky & kz & a1 & a2 & ka & x0 & y0 & z0 & N' & wp & wh & outp & outh
          & _ & _ & _ & _ & _ & Hka & _ & _ & _ & HN' & _ & _ & _ & _
          & _ & _ & _ & Hview & _).
    change (@inr exn _ huge_edges = inr ka) in Hka. injection Hka as <-.
    change (Some 4294967299 = Some N') in HN'. injection HN' as <-.
    rewrite Hview. intros Hall.
    unfold vectors_of_length in Hall.
    inversion Hall as [|? ? Hit _]; subst.
    destruct Hit as [Hd _]. cbn [nd_dims] in Hd. injection Hd as Hd. vm_compute in Hd. discriminate.
Qed.

(** ** Outputs are zeroed before the kernel runs *)






(** ** Comparing two calls *)

Lemma result_of_agree (r1 r2 : outcome ptr) :
  (returns r1 <-> returns r2) ->
  (forall p1 s1 p2 s2,
     r1 = Done p1 s1 -> p1 <> NULL -> r2 = Done p2 s2 -> p2 <> NULL ->
     view s1 p1 = view s2 p2) ->
  result_of r1 = result_of r2.
Proof.
  intros Hiff Hview.
  assert (Hnot : forall r : outcome ptr, ~ returns r -> result_of r = Nothing).
  { intros [[l|] s|] Hr; try reflexivity.
    exfalso. apply Hr. exists (Some l), s. split; [reflexivity | discriminate]. }
  destruct r1 as [[l1|] s1|] eqn:E1.
  - assert (R1 : returns r1)
      by (subst r1; exists (Some l1), s1; split; [reflexivity | discriminate]).
    subst r1. destruct (proj1 Hiff R1) as (p2 & s2 & -> & Hp2).
    simpl. apply Hview with (p1 := Some l1) (s1 := s1) (p2 := p2) (s2 := s2);
      try reflexivity; [discriminate | exact Hp2].
  - subst r1. simpl. symmetry. apply Hnot. intros R2.
    destruct (proj2 Hiff R2) as (p & s & H & Hp). injection H as <- <-.
    now apply Hp.
  - subst r1. simpl. symmetry. apply Hnot. intros R2.
    destruct (proj2 Hiff R2) as (p & s & H & Hp). discriminate.
Qed.

Lemma mask_arg_unique mask_obj mk mk' :
  mask_arg mask_obj mk -> mask_arg mask_obj mk' -> mk = mk'.
Proof.
  unfold mask_arg. destruct (ob_is_None mask_obj).
  - congruence.
  - intros (a & Ha & ->) (a' & Ha' & ->). congruence.
Qed.

Ltac same_conversion :=
  repeat match goal with
    | H1 : ?x = inr ?a, H2 : ?x = inr ?b |- _ =>
        rewrite H1 in H2; injection H2 as <-
    | H1 : ?x = Some ?a, H2 : ?x = Some ?b |- _ =>
        rewrite H1 in H2; injection H2 as <-
    | H1 : mask_arg ?o ?a, H2 : mask_arg ?o ?b |- _ =>
        pose proof (mask_arg_unique _ _ _ H1 H2); subst b; clear H2
    end.

(** ** An absent mask *)

Lemma mask_arg_None mask_obj mk :
  ob_is_None mask_obj = true -> mask_arg mask_obj mk -> mk = None.
Proof. unfold mask_arg. now intros ->. Qed.

Lemma mask_arg_array mask_obj a mk :
  ob_is_None mask_obj = false ->
  ob_as_array mask_obj NPY_BOOL = inr a ->
  mask_arg mask_obj mk -> mk = Some (nd_data a).
Proof. unfold mask_arg. intros -> Ha (a' & Ha' & ->). congruence. Qed.

Lemma peakCount_open_mask K map_obj mask_obj open_obj edges_obj sigma_obj s oa :
  ob_is_None mask_obj = true ->
  ob_is_None open_obj = false ->
  ob_as_array open_obj NPY_BOOL = inr oa ->
  open_for_peakCount K map_obj edges_obj sigma_obj (nd_data oa) ->
  result_of (_topology_peakCount K [map_obj; mask_obj; edges_obj; sigma_obj] s)
  = result_of (_topology_peakCount K [map_obj; open_obj; edges_obj; sigma_obj] s).
Proof.
  intros Hnone Hopen Hoa Hpk. apply result_of_agree.
  - rewrite !peakCount_returns_iff. unfold peakCount_ready.
    split; intros (sigma & ma & ta & mk & d0 & N & Hs & Hma & Hta & Hmk & Hd0 & HN
                   & Hpos & Hmem & Hb); cbv zeta in Hb;
      pose proof (Hpk _ _ _ _ _ Hs Hma Hta Hd0 HN) as E; cbv zeta in E.
    + rewrite (mask_arg_None _ _ Hnone Hmk) in Hb.
      exists sigma, ma, ta, (Some (nd_data oa)), d0, N.
      split; [exact Hs|]. split; [exact Hma|]. split; [exact Hta|].
      split; [unfold mask_arg; rewrite Hopen; exists oa; split; [exact Hoa | reflexivity]|].
      split; [exact Hd0|]. split; [exact HN|]. split; [exact Hpos|].
      split; [exact Hmem|]. cbv zeta. rewrite <- E in Hb. exact Hb.
    + rewrite (mask_arg_array _ _ _ Hopen Hoa Hmk) in Hb.
      cbn [elt] in Hb, E. rewrite E in Hb.
      exists sigma, ma, ta, None, d0, N.
      split; [exact Hs|]. split; [exact Hma|]. split; [exact Hta|].
      split; [unfold mask_arg; rewrite Hnone; reflexivity|].
      split; [exact Hd0|]. split; [exact HN|]. split; [exact Hpos|].
      split; [exact Hmem|]. exact Hb.
  - intros p1 t1 p2 t2 R1 P1 R2 P2.
    destruct (peakCount_returned _ _ _ _ _ _ _ _ R1 P1)
      as (sigma & ma & ta & mk & d0 & N & out & Hs & Hma & Hta & Hmk & Hd0 & HN & _
          & _ & Hout & Hview & _).
    destruct (peakCount_returned _ _ _ _ _ _ _ _ R2 P2)
      as (sigma' & ma' & ta' & mk' & d0' & N' & out' & Hs' & Hma' & Hta' & Hmk'
          & Hd0' & HN' & _ & _ & Hout' & Hview' & _).
    rewrite (mask_arg_None _ _ Hnone Hmk) in Hout.
    rewrite (mask_arg_array _ _ _ Hopen Hoa Hmk') in Hout'.
    clear Hmk Hmk'. same_conversion. same_conversion.
    pose proof (Hpk _ _ _ _ _ Hs Hma Hta Hd0 HN) as E.
    cbv zeta in Hout, Hout', E. cbn [elt] in Hout, Hout', E. rewrite E in Hout'.
    rewrite Hview, Hview'. congruence.
Qed.

Lemma minkowski_open_mask K map_obj mask_obj open_obj gx_obj gy_obj hxx_obj hyy_obj
    hxy_obj edges_obj sigma_obj s oa :
  ob_is_None mask_obj = true ->
  ob_is_None open_obj = false ->
  ob_as_array open_obj NPY_BOOL = inr oa ->
  open_for_minkowski K map_obj gx_obj gy_obj hxx_obj hyy_obj hxy_obj edges_obj
    sigma_obj (nd_data oa) ->
  result_of (_topology_minkowski K
               [map_obj; mask_obj; gx_obj; gy_obj; hxx_obj; hyy_obj; hxy_obj;
                edges_obj; sigma_obj] s)
  = result_of (_topology_minkowski K
                 [map_obj; open_obj; gx_obj; gy_obj; hxx_obj; hyy_obj; hxy_obj;
                  edges_obj; sigma_obj] s).
Proof.
  intros Hnone Hopen Hoa Hmf. apply result_of_agree.
  - rewrite !minkowski_returns_iff. unfold minkowski_ready.
    split; intros (sigma & ma & gxa & gya & hxxa & hyya & hxya & ta & mk & d0 & N
                   & Hs & Hma & Hgx & Hgy & Hxx & Hyy & Hxy & Hta & Hmk & Hd0 & HN
                   & Hpos & Hm0 & Hm1 & Hm2 & Hm3 & Hb); cbv zeta in Hb;
      pose proof (Hmf _ _ _ _ _ _ _ _ _ _ Hs Hma Hgx Hgy Hxx Hyy Hxy Hta Hd0 HN) as E;
      cbv zeta in E.
    + rewrite (mask_arg_None _ _ Hnone Hmk) in Hb.
      exists sigma, ma, gxa, gya, hxxa, hyya, hxya, ta, (Some (nd_data oa)), d0, N.
      split; [exact Hs|]. split; [exact Hma|]. split; [exact Hgx|]. split; [exact Hgy|].
      split; [exact Hxx|]. split; [exact Hyy|]. split; [exact Hxy|]. split; [exact Hta|].
      split; [unfold mask_arg; rewrite Hopen; exists oa; split; [exact Hoa | reflexivity]|].
      split; [exact Hd0|]. split; [exact HN|]. split; [exact Hpos|].
      split; [exact Hm0|]. split; [exact Hm1|]. split; [exact Hm2|]. split; [exact Hm3|].
      cbv zeta. rewrite <- E in Hb. exact Hb.
    + rewrite (mask_arg_array _ _ _ Hopen Hoa Hmk) in Hb.
      cbn [elt] in Hb, E. rewrite E in Hb.
      exists sigma, ma, gxa, gya, hxxa, hyya, hxya, ta, None, d0, N.
      split; [exact Hs|]. split; [exact Hma|]. split; [exact Hgx|]. split; [exact Hgy|].
      split; [exact Hxx|]. split; [exact Hyy|]. split; [exact Hxy|]. split; [exact Hta|].
      split; [unfold mask_arg; rewrite Hnone; reflexivity|].
      split; [exact Hd0|]. split; [exact HN|]. split; [exact Hpos|].
      split; [exact Hm0|]. split; [exact Hm1|]. split; [exact Hm2|]. split; [exact Hm3|].
      exact Hb.
  - intros p1 t1 p2 t2 R1 P1 R2 P2.
    destruct (minkowski_returned _ _ _ _ _ _ _ _ _ _ _ _ _ R1 P1)
      as (sigma & ma & gxa & gya & hxxa & hyya & hxya & ta & mk & d0 & N
          & w0 & w1 & w2 & v0 & v1 & v2
          & Hs & Hma & Hgx & Hgy & Hxx & Hyy & Hxy & Hta & Hmk & Hd0 & HN & _
          & _ & _ & _ & _ & Hk & H0 & H1 & H2 & Hview & _).
    destruct (minkowski_returned _ _ _ _ _ _ _ _ _ _ _ _ _ R2 P2)
      as (sigma' & ma' & gxa' & gya' & hxxa' & hyya' & hxya' & ta' & mk' & d0' & N'
          & w0' & w1' & w2' & v0' & v1' & v2'
          & Hs' & Hma' & Hgx' & Hgy' & Hxx' & Hyy' & Hxy' & Hta' & Hmk' & Hd0' & HN'
          & _ & _ & _ & _ & _ & Hk' & H0' & H1' & H2' & Hview' & _).
    rewrite (mask_arg_None _ _ Hnone Hmk) in Hk.
    rewrite (mask_arg_array _ _ _ Hopen Hoa Hmk') in Hk'.
    clear Hmk Hmk'. same_conversion. same_conversion.
    pose proof (Hmf _ _ _ _ _ _ _ _ _ _ Hs Hma Hgx Hgy Hxx Hyy Hxy Hta Hd0 HN) as E.
    cbv zeta in Hk, Hk', E. cbn [elt] in Hk, Hk', E.
    rewrite E, Hk in Hk'. injection Hk' as <- <- <-.
    rewrite Hview, Hview'. congruence.
Qed.

(** C8: when the mask argument is [None], no conversion of it is
    attempted and nothing is raised for it: provided the other arguments
    convert, the output can be allocated and the kernel stores inside it,
    [peakCount] and [minkowski] return their result and leave the error
    indicator as it was.  The kernel has been invoked once, with a NULL
    mask pointer, and the data returned are what that invocation stored
    into the zeroed outputs.  That a NULL pointer stands for a mask under
    which every sample is valid is the convention of the kernels: for a
    mask that hides nothing from the kernel on the arguments of the call,
    the call with [None] yields what the call with that mask yields. *)
Theorem absent_mask_is_no_mask
    K map_obj mask_obj gx_obj gy_obj hxx_obj hyy_obj hxy_obj edges_obj sigma_obj s :
  ob_is_None mask_obj = true ->
  (peakCount_ready K map_obj mask_obj edges_obj sigma_obj s ->
   exists p s' sigma ma ta d0 N out,
     _topology_peakCount K [map_obj; mask_obj; edges_obj; sigma_obj] s = Done p s' /\
     p <> NULL /\ err s' = err s /\
     ob_as_double sigma_obj = Some sigma /\
     ob_as_array map_obj NPY_DOUBLE = inr ma /\
     ob_as_array edges_obj NPY_DOUBLE = inr ta /\
     nd_dims ma !! 0%nat = Some d0 /\
     nd_dims ta !! 0%nat = Some N /\
     let peaks := zeros NPY_DOUBLE [to_int N - 1] in
     invoked s s'
       (Call_peak_count (nd_data ma) None (to_int d0) sigma (to_int N)
          (nd_data ta) peaks) /\
     apply_stores
       (peak_count K (nd_data ma) None (to_int d0) sigma (to_int N) (nd_data ta) peaks)
       peaks = Some out /\
     view s' p = Arr NPY_DOUBLE (@mk_ndarray NPY_DOUBLE [to_int N - 1] out)) /\
  (minkowski_ready K map_obj mask_obj gx_obj gy_obj hxx_obj hyy_obj hxy_obj
     edges_obj sigma_obj s ->
   exists p s' sigma ma gxa gya hxxa hyya hxya ta d0 N v0 v1 v2,
     _topology_minkowski K
       [map_obj; mask_obj; gx_obj; gy_obj; hxx_obj; hyy_obj; hxy_obj;
        edges_obj; sigma_obj] s = Done p s' /\
     p <> NULL /\ err s' = err s /\
     ob_as_double sigma_obj = Some sigma /\
     ob_as_array map_obj NPY_DOUBLE = inr ma /\
     ob_as_array gx_obj NPY_DOUBLE = inr gxa /\
     ob_as_array gy_obj NPY_DOUBLE = inr gya /\
     ob_as_array hxx_obj NPY_DOUBLE = inr hxxa /\
     ob_as_array hyy_obj NPY_DOUBLE = inr hyya /\
     ob_as_array hxy_obj NPY_DOUBLE = inr hxya /\
     ob_as_array edges_obj NPY_DOUBLE = inr ta /\
     nd_dims ma !! 0%nat = Some d0 /\
     nd_dims ta !! 0%nat = Some N /\
     let mink := zeros NPY_DOUBLE [to_int N - 1] in
     let w := minkowski_functionals K (nd_data ma) None (to_int d0) sigma
                (nd_data gxa) (nd_data gya) (nd_data hxxa) (nd_data hyya)
                (nd_data hxya) (to_int N) (nd_data ta) mink mink mink in
     invoked s s'
       (Call_minkowski_functionals (nd_data ma) None (to_int d0) sigma
          (nd_data gxa) (nd_data gya) (nd_data hxxa) (nd_data hyya) (nd_data hxya)
          (to_int N) (nd_data ta) mink mink mink) /\
     apply_stores (fst (fst w)) mink = Some v0 /\
     apply_stores (snd (fst w)) mink = Some v1 /\
     apply_stores (snd w) mink = Some v2 /\
     view s' p = Tup [Item NPY_DOUBLE (@mk_ndarray NPY_DOUBLE [to_int N - 1] v0);
                      Item NPY_DOUBLE (@mk_ndarray NPY_DOUBLE [to_int N - 1] v1);
                      Item NPY_DOUBLE (@mk_ndarray NPY_DOUBLE [to_int N - 1] v2)]) /\
  (forall open_obj oa,
     ob_is_None open_obj = false ->
     ob_as_array open_obj NPY_BOOL = inr oa ->
     (open_for_peakCount K map_obj edges_obj sigma_obj (nd_data oa) ->
      result_of (_topology_peakCount K [map_obj; mask_obj; edges_obj; sigma_obj] s)
      = result_of (_topology_peakCount K [map_obj; open_obj; edges_obj; sigma_obj] s)) /\
     (open_for_minkowski K map_obj gx_obj gy_obj hxx_obj hyy_obj hxy_obj edges_obj
        sigma_obj (nd_data oa) ->
      result_of (_topology_minkowski K
                   [map_obj; mask_obj; gx_obj; gy_obj; hxx_obj; hyy_obj; hxy_obj;
                    edges_obj; sigma_obj] s)
      = result_of (_topology_minkowski K
                     [map_obj; open_obj; gx_obj; gy_obj; hxx_obj; hyy_obj; hxy_obj;
                      edges_obj; sigma_obj] s))).
Proof.
  intros Hnone. split; [|split].
  - intros Hready.
    destruct (proj2 (peakCount_returns_iff _ _ _ _ _ _) Hready)
      as (p & s' & Hrun & Hp).
    destruct (peakCount_returned _ _ _ _ _ _ _ _ Hrun Hp)
      as (sigma & ma & ta & mk & d0 & N & out & Hs & Hma & Hta & Hmk & Hd0 & HN & _
          & _ & Hout & Hview & Hcalls & Herr).
    rewrite (mask_arg_None _ _ Hnone Hmk) in Hout, Hcalls.
    exists p, s', sigma, ma, ta, d0, N, out.
    split; [exact Hrun|]. split; [exact Hp|]. split; [exact Herr|].
    split; [exact Hs|]. split; [exact Hma|]. split; [exact Hta|].
    split; [exact Hd0|]. split; [exact HN|].
    split; [exact Hcalls|]. split; [exact Hout | exact Hview].
  - intros Hready.
    destruct (proj2 (minkowski_returns_iff _ _ _ _ _ _ _ _ _ _ _) Hready)
      as (p & s' & Hrun & Hp).
    destruct (minkowski_returned _ _ _ _ _ _ _ _ _ _ _ _ _ Hrun Hp)
      as (sigma & ma & gxa & gya & hxxa & hyya & hxya & ta & mk & d0 & N
          & w0 & w1 & w2 & v0 & v1 & v2
          & Hs & Hma & Hgx & Hgy & Hxx & Hyy & Hxy & Hta & Hmk & Hd0 & HN & _
          & _ & _ & _ & _ & Hk & H0 & H1 & H2 & Hview & Hcalls & Herr).
    rewrite (mask_arg_None _ _ Hnone Hmk) in Hk, Hcalls.
    exists p, s', sigma, ma, gxa, gya, hxxa, hyya, hxya, ta, d0, N, v0, v1, v2.
    split; [exact Hrun|]. split; [exact Hp|]. split; [exact Herr|].
    split; [exact Hs|]. split; [exact Hma|]. split; [exact Hgx|]. split; [exact Hgy|].
    split; [exact Hxx|]. split; [exact Hyy|]. split; [exact Hxy|]. split; [exact Hta|].
    split; [exact Hd0|]. split; [exact HN|].
    cbv zeta in Hk |- *. rewrite Hk. cbn [fst snd].
    split; [exact Hcalls|]. split; [exact H0|]. split; [exact H1|].
    split; [exact H2 | exact Hview].
  - intros open_obj oa Hopen Hoa. split; intros Hcontract.
    + now apply (peakCount_open_mask K map_obj mask_obj open_obj edges_obj sigma_obj s oa).
    + now apply (minkowski_open_mask K map_obj mask_obj open_obj gx_obj gy_obj hxx_obj
                   hyy_obj hxy_obj edges_obj sigma_obj s oa).
Qed.

Lemma masking_kernels_open_mask :
  open_for_peakCount masking_kernels (array_object NPY_DOUBLE ramp_2x2)
    (array_object NPY_DOUBLE edges_1_2) (float_object d_one) (nd_data open_mask_2x2).
Proof. intros sigma ma ta d0 N _ _ _ _ _. reflexivity. Qed.

Lemma peakCount_ready_masking :
  peakCount_ready masking_kernels (array_object NPY_DOUBLE ramp_2x2) None_object
    (array_object NPY_DOUBLE edges_1_2) (float_object d_one) fresh_state.
Proof.
  exists d_one, ramp_2x2, edges_1_2, None, 2, 2.
  repeat split; try reflexivity.
  - vm_compute. discriminate.
  - vm_compute. repeat constructor.
Defined.

Lemma absent_mask_is_no_mask_witness :
  ob_is_None None_object = true /\
  (exists p s',
     _topology_peakCount masking_kernels
       [array_object NPY_DOUBLE ramp_2x2; None_object;
        array_object NPY_DOUBLE edges_1_2; float_object d_one] fresh_state
       = Done p s' /\
     p <> NULL /\ err s' = err fresh_state /\
     view s' p = Arr NPY_DOUBLE (@mk_ndarray NPY_DOUBLE [1] [d_one])) /\
  result_of (_topology_peakCount masking_kernels
               [array_object NPY_DOUBLE ramp_2x2; None_object;
                array_object NPY_DOUBLE edges_1_2; float_object d_one] fresh_state)
  = result_of (_topology_peakCount masking_kernels
                 [array_object NPY_DOUBLE ramp_2x2; array_object NPY_BOOL open_mask_2x2;
                  array_object NPY_DOUBLE edges_1_2; float_object d_one] fresh_state).
Proof.
  split; [reflexivity|].
  pose proof (absent_mask_is_no_mask masking_kernels
                (array_object NPY_DOUBLE ramp_2x2) None_object
                None_object None_object None_object None_object None_object
                (array_object NPY_DOUBLE edges_1_2) (float_object d_one) fresh_state
                eq_refl) as (Hpeak & _ & Hopen).
  split.
  - destruct (Hpeak peakCount_ready_masking)
      as (p & s' & sigma & ma & ta & d0 & N & out & Hrun & Hp & Herr & Hs & Hma & Hta
          & Hd0 & HN & _ & Hout & Hview).
    exists p, s'. split; [exact Hrun|]. split; [exact Hp|]. split; [exact Herr|].
    change (Some d_one = Some sigma) in Hs. injection Hs as <-.
    change (@inr exn _ ramp_2x2 = inr ma) in Hma. injection Hma as <-.
    change (@inr exn _ edges_1_2 = inr ta) in Hta. injection Hta as <-.
    change (Some 2 = Some d0) in Hd0. injection Hd0 as <-.
    change (Some 2 = Some N) in HN. injection HN as <-.
    rewrite Hview. vm_compute in Hout. injection Hout as <-. reflexivity.
  - exact (proj1 (Hopen (array_object NPY_BOOL open_mask_2x2) open_mask_2x2
                    eq_refl eq_refl) masking_kernels_open_mask).
Defined.

(** With these kernels the mask is looked at: a mask that hides a sample
    changes the result, the absent mask does not. *)
Example absent_mask_sample :
  result_of (_topology_peakCount masking_kernels
               [array_object NPY_DOUBLE ramp_2x2; None_object;
                array_object NPY_DOUBLE edges_1_2; float_object d_one] fresh_state)
  = Arr NPY_DOUBLE (@mk_ndarray NPY_DOUBLE [1] [d_one]) /\
  result_of (_topology_peakCount masking_kernels
               [array_object NPY_DOUBLE ramp_2x2; array_object NPY_BOOL holed_mask_2x2;
                array_object NPY_DOUBLE edges_1_2; float_object d_one] fresh_state)
  = Arr NPY_DOUBLE (@mk_ndarray NPY_DOUBLE [1] [d_zero]).
Proof. split; vm_compute; reflexivity. Qed.

(** ** The side of the grid *)

Lemma first_dim (ma : ndarray NPY_DOUBLE) n m d0 :
  nd_dims ma = [n; m] -> nd_dims ma !! 0%nat = Some d0 -> d0 = n.
Proof. intros -> H. now injection H. Qed.

Lemma peakCount_side K map_obj mask_obj edges_obj sigma_obj s ma n m :
  ob_as_array map_obj NPY_DOUBLE = inr ma -> nd_dims ma = [n; m] ->
  0 <= n <= INT_MAX ->
  processed_with_side
    (_topology_peakCount K [map_obj; mask_obj; edges_obj; sigma_obj] s) s n.
Proof.
  intros Hma Hdims Hn p s' Hrun Hp.
  destruct (peakCount_returned _ _ _ _ _ _ _ _ Hrun Hp)
    as (sigma & ma' & ta & mk & d0 & N & out & _ & Hma' & _ & _ & Hd0 & _ & _ & _
        & _ & _ & Hcalls & _).
  rewrite Hma in Hma'. injection Hma' as <-.
  rewrite (first_dim _ _ _ _ Hdims Hd0), (to_int_count _ Hn) in Hcalls.
  eexists. split; [exact Hcalls | reflexivity].
Qed.

Lemma gradient_side K map_obj s ma n m :
  ob_as_array map_obj NPY_DOUBLE = inr ma -> nd_dims ma = [n; m] ->
  0 <= n <= INT_MAX ->
  processed_with_side (_topology_gradient K [map_obj] s) s n.
Proof.
  intros Hma Hdims Hn p s' Hrun Hp.
  destruct (gradient_returned _ _ _ _ _ Hrun Hp)
    as (ma' & d0 & wx & wy & gx & gy & Hma' & Hd0 & _ & _ & _ & _ & _ & _ & _ & _
        & Hcalls).
  rewrite Hma in Hma'. injection Hma' as <-.
  rewrite (first_dim _ _ _ _ Hdims Hd0), (to_int_count _ Hn) in Hcalls.
  eexists. split; [exact Hcalls | reflexivity].
Qed.

Lemma hessian_side K map_obj s ma n m :
  ob_as_array map_obj NPY_DOUBLE = inr ma -> nd_dims ma = [n; m] ->
  0 <= n <= INT_MAX ->
  processed_with_side (_topology_hessian K [map_obj] s) s n.
Proof.
  intros Hma Hdims Hn p s' Hrun Hp.
  destruct (hessian_returned _ _ _ _ _ Hrun Hp)
    as (ma' & d0 & wxx & wyy & wxy & hxx & hyy & hxy & Hma' & Hd0
        & _ & _ & _ & _ & _ & _ & _ & _ & _ & _ & Hcalls).
  rewrite Hma in Hma'. injection Hma' as <-.
  rewrite (first_dim _ _ _ _ Hdims Hd0), (to_int_count _ Hn) in Hcalls.
  eexists. split; [exact Hcalls | reflexivity].
Qed.

Lemma minkowski_side K map_obj mask_obj gx_obj gy_obj hxx_obj hyy_obj hxy_obj
    edges_obj sigma_obj s ma n m :
  ob_as_array map_obj NPY_DOUBLE = inr ma -> nd_dims ma = [n; m] ->
  0 <= n <= INT_MAX ->
  processed_with_side
    (_topology_minkowski K
       [map_obj; mask_obj; gx_obj; gy_obj; hxx_obj; hyy_obj; hxy_obj;
        edges_obj; sigma_obj] s) s n.
Proof.
  intros Hma Hdims Hn p s' Hrun Hp.
  destruct (minkowski_returned _ _ _ _ _ _ _ _ _ _ _ _ _ Hrun Hp)
    as (sigma & ma' & gxa & gya & hxxa & hyya & hxya & ta & mk & d0 & N
        & w0 & w1 & w2 & v0 & v1 & v2
        & _ & Hma' & _ & _ & _ & _ & _ & _ & _ & Hd0 & _ & _ & _ & _ & _ & _
        & _ & _ & _ & _ & _ & Hcalls & _).
  rewrite Hma in Hma'. injection Hma' as <-.
  rewrite (first_dim _ _ _ _ Hdims Hd0), (to_int_count _ Hn) in Hcalls.
  eexists. split; [exact Hcalls | reflexivity].
Qed.

(** C10, as amended: for a map of shape (n, m), n at most INT_MAX,
    [peakCount], [gradient], [hessian] and [minkowski] hand the kernel the
    side n, read off the first axis alone; m is never examined.  A map
    that is not square is therefore accepted: each call returns exactly
    under conditions in which m plays no part, and has then run its kernel
    once on a grid of side n. *)
Theorem side_is_the_first_dimension
    K map_obj mask_obj gx_obj gy_obj hxx_obj hyy_obj hxy_obj edges_obj sigma_obj
    s ma n m :
  ob_as_array map_obj NPY_DOUBLE = inr ma ->
  nd_dims ma = [n; m] ->
  0 <= n <= INT_MAX ->
  (processed_with_side
     (_topology_peakCount K [map_obj; mask_obj; edges_obj; sigma_obj] s) s n /\
   (returns (_topology_peakCount K [map_obj; mask_obj; edges_obj; sigma_obj] s)
    <-> peakCount_ready K map_obj mask_obj edges_obj sigma_obj s)) /\
  (processed_with_side (_topology_gradient K [map_obj] s) s n /\
   (returns (_topology_gradient K [map_obj] s) <-> gradient_ready K map_obj s)) /\
  (processed_with_side (_topology_hessian K [map_obj] s) s n /\
   (returns (_topology_hessian K [map_obj] s) <-> hessian_ready K map_obj s)) /\
  (processed_with_side
     (_topology_minkowski K
        [map_obj; mask_obj; gx_obj; gy_obj; hxx_obj; hyy_obj; hxy_obj;
         edges_obj; sigma_obj] s) s n /\
   (returns (_topology_minkowski K
               [map_obj; mask_obj; gx_obj; gy_obj; hxx_obj; hyy_obj; hxy_obj;
                edges_obj; sigma_obj] s)
    <-> minkowski_ready K map_obj mask_obj gx_obj gy_obj hxx_obj hyy_obj hxy_obj
          edges_obj sigma_obj s)).
Proof.
  intros Hma Hdims Hn.
  split; [split; [eapply peakCount_side; eauto | apply peakCount_returns_iff]|].
  split; [split; [eapply gradient_side; eauto | apply gradient_returns_iff]|].
  split; [split; [eapply hessian_side; eauto | apply hessian_returns_iff]|].
  split; [eapply minkowski_side; eauto | apply minkowski_returns_iff].
Qed.

Lemma gradient_ready_2x3 :
  gradient_ready flat_kernels (array_object NPY_DOUBLE flat_2x3) fresh_state.
Proof.
  exists flat_2x3, 2.
  repeat split; try reflexivity.
  - vm_compute. discriminate.
  - vm_compute. repeat constructor.
  - vm_compute. repeat constructor.
Defined.

Lemma side_is_the_first_dimension_witness :
  exists p s' c,
    _topology_gradient flat_kernels [array_object NPY_DOUBLE flat_2x3] fresh_state
      = Done p s' /\
    p <> NULL /\ invoked fresh_state s' c /\ kernel_side c = Some 2.
Proof.
  assert (H : 0 <= 2 <= INT_MAX) by (unfold INT_MAX; lia).
  destruct (proj1 (proj2 (side_is_the_first_dimension flat_kernels
              (array_object NPY_DOUBLE flat_2x3) None_object
              None_object None_object None_object None_object None_object
              None_object None_object fresh_state flat_2x3 2 3 eq_refl eq_refl H)))
    as [Hside Hiff].
  destruct (proj2 Hiff gradient_ready_2x3) as (p & s' & Hrun & Hp).
  destruct (Hside p s' Hrun Hp) as (c & Hc & Hk).
  exists p, s', c. repeat split; assumption.
Defined.

Lemma huge_column_wf : nd_wf huge_column.
Proof.
  unfold nd_wf, huge_column. cbn [nd_dims nd_data]. split.
  - constructor 2; [lia | constructor 2; [lia | constructor 1]].
  - rewrite filled_length, Z2Nat.id; [reflexivity|].
    rewrite nd_size_2. lia.
Qed.

(** C10 as stated fails for a map of 2^32 + 2 rows: [(int)] narrows the
    side handed to the kernel to 2. *)
Lemma side_counterexample :
  nd_wf huge_column /\
  nd_dims huge_column = [4294967298; 1] /\
  ~ processed_with_side
      (_topology_peakCount flat_kernels
         [array_object NPY_DOUBLE huge_column; None_object;
          array_object NPY_DOUBLE edges_1_2; float_object d_one] fresh_state)
      fresh_state 4294967298.
Proof.
  split; [exact huge_column_wf|]. split; [reflexivity|].
  intros Hlaw.
  destruct (peakCount_succeeds flat_kernels
              (array_object NPY_DOUBLE huge_column) None_object
              (array_object NPY_DOUBLE edges_1_2) (float_object d_one)
              fresh_state d_one huge_column edges_1_2 None 4294967298 2)
    as (p & s' & Hrun & Hp); try reflexivity.
  - discriminate.
  - constructor 1.
  - destruct (Hlaw p s' Hrun Hp) as (c & Hc & Hk).
    destruct (peakCount_returned _ _ _ _ _ _ _ _ Hrun Hp)
      as (sigma & ma & ta & mk & d0 & N & out & _ & Hma & _ & _ & Hd0 & _ & _ & _
          & _ & _ & Hcalls & _).
    change (@inr exn _ huge_column = inr ma) in Hma. injection Hma as <-.
    change (Some 4294967298 = Some d0) in Hd0. injection Hd0 as <-.
    unfold invoked in Hc. rewrite Hcalls in Hc. apply app_inv_head in Hc.
    apply (f_equal (fun l => match l with x :: _ => kernel_side x | [] => None end))
      in Hc.
    cbv beta iota in Hc. rewrite Hk in Hc.
    change (Some (to_int 4294967298) = Some 4294967298) in Hc.
    injection Hc as Hc. vm_compute in Hc. discriminate.
Qed.

(** ** Failures *)

Example gradient_sample :
  result_of
    (_topology_gradient flat_kernels [array_object NPY_DOUBLE flat_2x3] fresh_state)
  = Tup [Item NPY_DOUBLE (@mk_ndarray NPY_DOUBLE [2; 2] [d_zero; d_zero; d_zero; d_zero]);
         Item NPY_DOUBLE (@mk_ndarray NPY_DOUBLE [2; 2] [d_zero; d_zero; d_zero; d_zero])].
Proof. vm_compute. reflexivity. Qed.

Ltac released :=
  let l := fresh "l" in
  let Hl := fresh "Hl" in
  intros l Hl; cbn in Hl |- *;
  repeat match goal with
    | H : (?n <= l < S ?m)%nat |- _ =>
        let E := fresh "E" in
        destruct (Nat.eq_dec l m) as [E|E];
        [ subst l; heap_simpl; reflexivity
        | assert (n <= l < m)%nat by lia; clear H ]
    end;
  lia.

(** X7: when the azimuthal kernel reports a failure, [rfft2_azimuthal]
    returns NULL, the output buffer and the three converted arguments are
    released, and no exception is set by the wrapper. *)
Lemma rfft2_kernel_failure K ft_map1_obj ft_map2_obj angle_obj lvalues_obj s
    angle a1 a2 la x0 y0 N status w :
  ob_as_double angle_obj = Some angle ->
  ob_as_array ft_map1_obj NPY_COMPLEX128 = inr a1 ->
  ob_as_array ft_map2_obj NPY_COMPLEX128 = inr a2 ->
  ob_as_array lvalues_obj NPY_DOUBLE = inr la ->
  nd_dims a1 !! 0%nat = Some x0 ->
  nd_dims a1 !! 1%nat = Some y0 ->
  nd_dims la !! 0%nat = Some N ->
  0 <= to_int N - 1 ->
  mem_ok (mem s) = true ->
  (let power := zeros NPY_DOUBLE [to_int N - 1] in
   azimuthal_rfft2 K (nd_data a1) (nd_data a2) (to_int x0) (to_int y0) angle
     (to_int N) (nd_data la) power = (status, w) /\
   in_bounds w (length power)) ->
  status <> 0 ->
  exists s',
    _topology_rfft2_azimuthal K [ft_map1_obj; ft_map2_obj; angle_obj; lvalues_obj] s
      = Done NULL s' /\
    all_released s s' /\ err s' = err s.
Proof.
  intros Hs H1 H2 Hl Hx Hy HN Hpos Hmem [Hk Hb] Hst.
  apply nonneg_dim_1 in Hpos.
  apply apply_stores_in_bounds in Hb. destruct Hb as [out Hout].
  assert (Hneg : negb (status =? 0) = true)
    by (apply negb_true_iff, Z.eqb_neq; exact Hst).
  destruct s as [h n e m j c]. cbn in Hmem.
  run_known.
  eexists. split; [reflexivity|]. split; [released | reflexivity].
Qed.

(** X8: when the azimuthal kernel reports a failure, [rfft3_azimuthal]
    returns NULL before any tuple is built; both output buffers and the
    three converted arguments are released, and no exception is set by
    the wrapper. *)
Lemma rfft3_kernel_failure K ft_map1_obj ft_map2_obj kx_obj ky_obj kz_obj kvalues_obj
    s kpixX kpixY kpixZ a1 a2 ka x0 y0 z0 N status wp wh :
  ob_as_double kx_obj = Some kpixX ->
  ob_as_double ky_obj = Some kpixY ->
  ob_as_double kz_obj = Some kpixZ ->
  ob_as_array ft_map1_obj NPY_COMPLEX128 = inr a1 ->
  ob_as_array ft_map2_obj NPY_COMPLEX128 = inr a2 ->
  ob_as_array kvalues_obj NPY_DOUBLE = inr ka ->
  nd_dims a1 !! 0%nat = Some x0 ->
  nd_dims a1 !! 1%nat = Some y0 ->
  nd_dims a1 !! 2%nat = Some z0 ->
  nd_dims ka !! 0%nat = Some N ->
  0 <= to_int N - 1 ->
  mem_ok (mem s) = true ->
  mem_ok (tail (mem s)) = true ->
  (let power := zeros NPY_DOUBLE [to_int N - 1] in
   let hits := zeros NPY_LONG [to_int N - 1] in
   azimuthal_rfft3 K (nd_data a1) (nd_data a2) (to_int x0) (to_int y0) (to_int z0)
     kpixX kpixY kpixZ (to_int N) (nd_data ka) power hits = (status, wp, wh) /\
   in_bounds wp (length power) /\ in_bounds wh (length hits)) ->
  status <> 0 ->
  exists s',
    _topology_rfft3_azimuthal K
      [ft_map1_obj; ft_map2_obj; kx_obj; ky_obj; kz_obj; kvalues_obj] s
      = Done NULL s' /\
    all_released s s' /\ err s' = err s.
Proof.
  intros Hx Hy Hz H1 H2 Hk Hd0 Hd1 Hd2 HN Hpos Hm0 Hm1 (Hker & Hbp & Hbh) Hst.
  apply nonneg_dim_1 in Hpos.
  apply apply_stores_in_bounds in Hbp. destruct Hbp as [outp Houtp].
  apply apply_stores_in_bounds in Hbh. destruct Hbh as [outh Houth].
  assert (Hneg : negb (status =? 0) = true)
    by (apply negb_true_iff, Z.eqb_neq; exact Hst).
  destruct s as [h n e m j c]. cbn in Hm0, Hm1.
  run_known.
  eexists. split; [reflexivity|]. split; [released | reflexivity].
Qed.

(** When the two output arrays are there but the result tuple cannot be
    allocated, [gradient] passes the NULL tuple to [PyTuple_SetItem]. *)
Lemma gradient_tuple_allocation_failure K map_obj s ma d0 wx wy :
  ob_as_array map_obj NPY_DOUBLE = inr ma ->
  nd_dims ma !! 0%nat = Some d0 ->
  0 <= to_int d0 < 1073741824 ->
  mem_ok (mem s) = true ->
  mem_ok (tail (mem s)) = true ->
  mem_ok (tail (tail (mem s))) = false ->
  (let n := to_int d0 in
   let jx := filled (junk s (S (next s)) NPY_DOUBLE) (nd_size [n; n]) in
   let jy := filled (junk s (S (S (next s))) NPY_DOUBLE) (nd_size [n; n]) in
   gradient_xy K (nd_data ma) jx jy n = (wx, wy) /\
   in_bounds wx (length jx) /\ in_bounds wy (length jy)) ->
  _topology_gradient K [map_obj] s = Undefined.
Proof.
  intros Hma Hd0 Hpos Hm0 Hm1 Hm2 (Hker & Hbx & Hby).
  apply nonneg_dim_2 in Hpos.
  apply apply_stores_in_bounds in Hbx. destruct Hbx as [gx Hgx].
  apply apply_stores_in_bounds in Hby. destruct Hby as [gy Hgy].
  destruct s as [h n e m j c]. cbn in Hm0, Hm1, Hm2, Hker, Hgx, Hgy.
  run_known. reflexivity.
Qed.

(** C6 fails on the code: [gradient], [hessian] and [rfft3_azimuthal] do
    not check the result of [PyTuple_New].  When that allocation fails
    they dereference NULL instead of returning an error, whereas
    [minkowski], which checks it, returns NULL with [MemoryError] set. *)
Theorem tuple_allocation_is_not_checked :
  _topology_gradient flat_kernels [array_object NPY_DOUBLE flat_2x2]
    (state_with_memory [true; true; false]) = Undefined /\
  _topology_hessian flat_kernels [array_object NPY_DOUBLE flat_2x2]
    (state_with_memory [true; true; true; false]) = Undefined /\
  _topology_rfft3_azimuthal flat_kernels
    [array_object NPY_COMPLEX128 ft_2x2x2; array_object NPY_COMPLEX128 ft_2x2x2;
     float_object d_one; float_object d_one; float_object d_one;
     array_object NPY_DOUBLE edges_1_2]
    (state_with_memory [true; true; false]) = Undefined /\
  exists s',
    _topology_minkowski flat_kernels
      [array_object NPY_DOUBLE flat_2x2; None_object;
       array_object NPY_DOUBLE flat_2x2; array_object NPY_DOUBLE flat_2x2;
       array_object NPY_DOUBLE flat_2x2; array_object NPY_DOUBLE flat_2x2;
       array_object NPY_DOUBLE flat_2x2; array_object NPY_DOUBLE edges_1_2;
       float_object d_one]
      (state_with_memory [true; true; true; false]) = Done NULL s' /\
    err s' = Some MemoryError /\
    all_released (state_with_memory [true; true; true; false]) s'.
Proof.
  split; [vm_compute; reflexivity|].
  split; [vm_compute; reflexivity|].
  split; [vm_compute; reflexivity|].
  eexists. split; [vm_compute; reflexivity|]. split; [reflexivity|].
  intros l Hl. reflexivity.
Qed.

(** ** No state is carried from one call to the next *)
















(** The same call from the interpreter that has been running: the stale
    ones of its fresh memory are nowhere in the result. *)
Example gradient_from_used_state :
  result_of (_topology_gradient copying_kernels [array_object NPY_DOUBLE ramp_2x2]
               used_state)
  = Tup [Item NPY_DOUBLE (@mk_ndarray NPY_DOUBLE [2; 2] [d_zero; d_one; d_two; d_five]);
         Item NPY_DOUBLE (@mk_ndarray NPY_DOUBLE [2; 2] [d_zero; d_one; d_two; d_five])].
Proof. vm_compute. reflexivity. Qed.

(** The contract is met as well by kernels that assign as many cells as
    the buffer they are handed has. *)
Example flat_kernels_fill_their_outputs :
  gradient_overwrites flat_kernels /\ hessian_overwrites flat_kernels.
Proof. exact (conj flat_gradient_overwrites flat_hessian_overwrites). Qed.

(** Kernels that assign no cell do not meet it: what [gradient] returns
    with them is the stale content of the memory it was handed, and
    differs from one state to another. *)
Example idle_kernels_return_stale_memory :
  ~ gradient_overwrites idle_kernels /\
  first_cell (result_of (_topology_gradient idle_kernels
                           [array_object NPY_DOUBLE flat_2x2] fresh_state))
  = Some d_zero /\
  first_cell (result_of (_topology_gradient idle_kernels
                           [array_object NPY_DOUBLE flat_2x2] used_state))
  = Some d_one.
Proof.
  split; [|split; vm_compute; reflexivity].
  intros H.
  destruct (H [] 1 [d_zero] [d_zero] [d_zero] [d_zero]) as (_ & A & _);
    try reflexivity; [lia|].
  destruct (A 0%nat) as [v Hv]; [vm_compute; lia | exact Hv].
Qed.

(** * Further properties of the wrappers *)

(** ** Every path of a call *)

#[local] Arguments mem_ok : simpl never.

Lemma decref_live_array l s t a :
  hget l (heap s) = Some (mk_heapobj 1 (VArray t a)) ->
  Py_DECREF (Some l) s = Done tt (set_heap (hdel l (heap s)) s).
Proof. intros H. rewrite Py_DECREF_eq, H. reflexivity. Qed.

Ltac otf_full :=
  match goal with
  | |- context [PyArray_FROM_OTF ?o ?t ?s] => rewrite (PyArray_FROM_OTF_eq o t s)
  end.

(** Reference-count cleanup carried out on the heap. *)
Ltac cleanup_fast :=
  match goal with
  | |- context [decref_all (?p :: ?ps) ?s] => rewrite (decref_all_cons p ps s)
  | |- context [decref_all [] ?s] => rewrite (decref_all_nil s)
  | |- context [xdecref_all (?p :: ?ps) ?s] => rewrite (xdecref_all_cons p ps s)
  | |- context [xdecref_all [] ?s] => rewrite (xdecref_all_nil s)
  | |- context [Py_DECREF (Some ?l) ?s] =>
      first [ erewrite (decref_live_array l s) by (cbn; heap_simpl; reflexivity)
            | rewrite (Py_DECREF_eq l s) ]
  | |- context [Py_DECREF None ?s] => rewrite (Py_DECREF_NULL s)
  | |- context [Py_DECREF NULL ?s] => rewrite (Py_DECREF_NULL s)
  end.

(** A branch that is bound to return an object, whatever its cleanup does. *)
Ltac bound_to_return :=
  solve [ repeat first [ progress cbn | cleanup_abstract ];
          let H := fresh "Hend" in intros H; discriminate H ].

(** Symbolic execution of the paths that end in NULL. *)
Ltac run_full :=
  repeat first
    [ progress cbn | progress heap_simpl | progress arith_simpl
    | otf_full | known_step | split_step | bound_to_return | cleanup_fast ].

Ltac untouched :=
  let l := fresh "l" in
  let Hl := fresh "Hl" in
  intros l Hl; cbn in Hl |- *;
  repeat first [ rewrite hget_hput_ne by lia | rewrite hget_hdel_ne by lia ];
  reflexivity.

Ltac failed_leaf :=
  let H := fresh "Hend" in
  intros H; first [ discriminate H | inversion H; subst; clear H ].

Ltac status_known :=
  match goal with
  | H : ?k = (_, _) |- context [?k] => rewrite H
  end.

Ltac failed_post :=
  split; [released | split; [untouched |]];
  first
    [ split; [discriminate | reflexivity]
    | left; split; [discriminate | reflexivity]
    | right; split; [reflexivity|];
      eexists _, _; split; [reflexivity|];
      split; [cbn; status_known; reflexivity|];
      status_ok; assumption ].

(** The argument tuple does not fit the format. *)
Ltac misfit :=
  let H := fresh "Hend" in
  intros H; cbn in H;
  repeat match type of H with
    | context [ob_as_double ?o] => destruct (ob_as_double o)
    end;
  cbn in H; inversion H; subst; clear H.

Ltac misfit_post :=
  split; [intros ? ?; cbn in *; lia | split; [intros ? ?; reflexivity |]];
  first [ split; [discriminate | reflexivity]
        | left; split; [discriminate | reflexivity] ].

(** *** Conversions that fail *)

(** Every conversion, or every allocation, went through: not the case
    under study. *)
Ltac all_converted :=
  match goal with
  | |- None = Some _ -> _ => let H := fresh in intros H; discriminate H
  end.

Ltac all_allocated :=
  match goal with
  | H : context [true = false] |- _ =>
      solve [ exfalso; clear - H; intuition discriminate ]
  end.

(** Symbolic execution of the path the hypotheses select. *)
Ltac run_forward :=
  repeat first
    [ all_converted | all_allocated
    | progress cbn | progress heap_simpl | progress arith_simpl
    | otf_full | known_step | split_step | cleanup_fast ].

Ltac fails_now :=
  eexists; split; [reflexivity|];
  split; [reflexivity|]; split; [reflexivity|]; split; [released | untouched].

Ltac fails_post :=
  let H := fresh "Hexn" in
  intros H; injection H as <-; fails_now.

Lemma conversion_error_from objs : forall found,
  fold_left
    (fun found (ot : PyObject * dtype) =>
       match ob_as_array (fst ot) (snd ot) with
       | inl e => Some e
       | inr _ => found
       end) objs found = None ->
  found = None /\
  Forall (fun ot : PyObject * dtype =>
            exists a, ob_as_array (fst ot) (snd ot) = inr a) objs.
Proof.
  induction objs as [|[o t] objs IH]; intros found H; simpl in H.
  - split; [exact H | constructor 1].
  - destruct (IH _ H) as [Hf Hall].
    destruct (ob_as_array o t) as [e|a] eqn:E; [discriminate|].
    split; [exact Hf|]. constructor 2; [exists a; exact E | exact Hall].
Qed.

Lemma conversion_error_None objs :
  conversion_error objs = None ->
  Forall (fun ot : PyObject * dtype =>
            exists a, ob_as_array (fst ot) (snd ot) = inr a) objs.
Proof. intros H. exact (proj2 (conversion_error_from _ _ H)). Qed.

Lemma peakCount_conversion_failure K map_obj mask_obj thresholds_obj sigma_obj s e :
  ob_as_double sigma_obj <> None ->
  conversion_error [(map_obj, NPY_DOUBLE); (thresholds_obj, NPY_DOUBLE)] = Some e ->
  fails_with (_topology_peakCount K [map_obj; mask_obj; thresholds_obj; sigma_obj] s)
    s e.
Proof.
  intros Hs. destruct (ob_as_double sigma_obj) as [sigma|] eqn:Hsigma; [clear Hs|congruence].
  destruct s as [h n e0 m j c].
  unfold fails_with, conversion_error. cbn [fold_left fst snd].
  run_forward. all: fails_post.
Qed.

Lemma gradient_conversion_failure K map_obj s e :
  conversion_error [(map_obj, NPY_DOUBLE)] = Some e ->
  fails_with (_topology_gradient K [map_obj] s) s e.
Proof.
  destruct s as [h n e0 m j c].
  unfold fails_with, conversion_error. cbn [fold_left fst snd].
  run_forward. all: fails_post.
Qed.

Lemma hessian_conversion_failure K map_obj s e :
  conversion_error [(map_obj, NPY_DOUBLE)] = Some e ->
  fails_with (_topology_hessian K [map_obj] s) s e.
Proof.
  destruct s as [h n e0 m j c].
  unfold fails_with, conversion_error. cbn [fold_left fst snd].
  run_forward. all: fails_post.
Qed.

Lemma rfft2_conversion_failure K ft1_obj ft2_obj angle_obj lvalues_obj s e :
  ob_as_double angle_obj <> None ->
  conversion_error
    [(ft1_obj, NPY_COMPLEX128); (ft2_obj, NPY_COMPLEX128); (lvalues_obj, NPY_DOUBLE)]
    = Some e ->
  fails_with
    (_topology_rfft2_azimuthal K [ft1_obj; ft2_obj; angle_obj; lvalues_obj] s) s e.
Proof.
  intros Hs. destruct (ob_as_double angle_obj) as [angle|] eqn:Hangle; [clear Hs|congruence].
  destruct s as [h n e0 m j c].
  unfold fails_with, conversion_error. cbn [fold_left fst snd].
  run_forward. all: fails_post.
Qed.

Lemma rfft3_conversion_failure K ft1_obj ft2_obj kx_obj ky_obj kz_obj kvalues_obj s e :
  ob_as_double kx_obj <> None ->
  ob_as_double ky_obj <> None ->
  ob_as_double kz_obj <> None ->
  conversion_error
    [(ft1_obj, NPY_COMPLEX128); (ft2_obj, NPY_COMPLEX128); (kvalues_obj, NPY_DOUBLE)]
    = Some e ->
  fails_with
    (_topology_rfft3_azimuthal K
       [ft1_obj; ft2_obj; kx_obj; ky_obj; kz_obj; kvalues_obj] s) s e.
Proof.
  intros Hx Hy Hz.
  destruct (ob_as_double kx_obj) as [kx|] eqn:Hkx; [clear Hx|congruence].
  destruct (ob_as_double ky_obj) as [ky|] eqn:Hky; [clear Hy|congruence].
  destruct (ob_as_double kz_obj) as [kz|] eqn:Hkz; [clear Hz|congruence].
  destruct s as [h n e0 m j c].
  unfold fails_with, conversion_error. cbn [fold_left fst snd].
  run_forward. all: fails_post.
Qed.

Lemma minkowski_conversion_failure K map_obj mask_obj grad_x_obj grad_y_obj
    hess_xx_obj hess_yy_obj hess_xy_obj thresholds_obj sigma_obj s e :
  ob_as_double sigma_obj <> None ->
  conversion_error
    [(map_obj, NPY_DOUBLE); (grad_x_obj, NPY_DOUBLE); (grad_y_obj, NPY_DOUBLE);
     (hess_xx_obj, NPY_DOUBLE); (hess_yy_obj, NPY_DOUBLE); (hess_xy_obj, NPY_DOUBLE);
     (thresholds_obj, NPY_DOUBLE)] = Some e ->
  fails_with
    (_topology_minkowski K
       [map_obj; mask_obj; grad_x_obj; grad_y_obj; hess_xx_obj; hess_yy_obj;
        hess_xy_obj; thresholds_obj; sigma_obj] s) s e.
Proof.
  intros Hs. destruct (ob_as_double sigma_obj) as [sigma|] eqn:Hsigma; [clear Hs|congruence].
  destruct s as [h n e0 m j c].
  unfold fails_with, conversion_error. cbn [fold_left fst snd].
  run_forward. all: fails_post.
Qed.

(** *** A call that returns NULL *)

Lemma peakCount_failed K args s s' :
  _topology_peakCount K args s = Done NULL s' ->
  all_released s s' /\ untouched_before s s' /\ err s' <> None /\ calls s' = calls s.
Proof.
  destruct args as [|a1 [|a2 [|a3 [|a4 [|a5 args]]]]].
  5: { destruct s as [h n e m j c]. run_full. all: failed_leaf. all: failed_post. }
  all: misfit; misfit_post.
Qed.

Lemma gradient_failed K args s s' :
  _topology_gradient K args s = Done NULL s' ->
  all_released s s' /\ untouched_before s s' /\ err s' <> None /\ calls s' = calls s.
Proof.
  destruct args as [|a1 [|a2 args]].
  2: { destruct s as [h n e m j c]. run_full. all: failed_leaf. all: failed_post. }
  all: misfit; misfit_post.
Qed.

Lemma hessian_failed K args s s' :
  _topology_hessian K args s = Done NULL s' ->
  all_released s s' /\ untouched_before s s' /\ err s' <> None /\ calls s' = calls s.
Proof.
  destruct args as [|a1 [|a2 args]].
  2: { destruct s as [h n e m j c]. run_full. all: failed_leaf. all: failed_post. }
  all: misfit; misfit_post.
Qed.

Ltac converted H :=
  let a := fresh "a" in
  let E := fresh "Hcv" in
  inversion H as [|? ? [a E] H']; subst; cbn [fst snd] in E; clear H.

Lemma minkowski_failed K args s s' :
  _topology_minkowski K args s = Done NULL s' ->
  all_released s s' /\ untouched_before s s' /\ err s' <> None /\ calls s' = calls s.
Proof.
  destruct args as [|a1 [|a2 [|a3 [|a4 [|a5 [|a6 [|a7 [|a8 [|a9 [|a10 args]]]]]]]]]].
  10: { destruct (ob_as_double a9) as [sigma|] eqn:Hsigma.
        - destruct (conversion_error
                      [(a1, NPY_DOUBLE); (a3, NPY_DOUBLE); (a4, NPY_DOUBLE);
                       (a5, NPY_DOUBLE); (a6, NPY_DOUBLE); (a7, NPY_DOUBLE);
                       (a8, NPY_DOUBLE)]) as [e0|] eqn:Hc.
          + assert (Hs : ob_as_double a9 <> None) by congruence.
            destruct (minkowski_conversion_failure K a1 a2 a3 a4 a5 a6 a7 a8 a9 s e0
                        Hs Hc) as (s'' & Hrun & Herr & Hcalls & Hrel & Hunt).
            intros Hrun'. rewrite Hrun in Hrun'. injection Hrun' as <-.
            split; [exact Hrel|]. split; [exact Hunt|].
            split; [congruence | exact Hcalls].
          + apply conversion_error_None in Hc.
            inversion Hc as [|? ? [b1 H1] Hc1]; subst; clear Hc.
            inversion Hc1 as [|? ? [b3 H3] Hc2]; subst; clear Hc1.
            inversion Hc2 as [|? ? [b4 H4] Hc3]; subst; clear Hc2.
            inversion Hc3 as [|? ? [b5 H5] Hc4]; subst; clear Hc3.
            inversion Hc4 as [|? ? [b6 H6] Hc5]; subst; clear Hc4.
            inversion Hc5 as [|? ? [b7 H7] Hc6]; subst; clear Hc5.
            inversion Hc6 as [|? ? [b8 H8] _]; subst; clear Hc6.
            cbn [fst snd] in H1, H3, H4, H5, H6, H7, H8.
            destruct s as [h n e m j c].
            run_full. all: failed_leaf. all: failed_post.
        - intros H. cbn in H. rewrite Hsigma in H. cbn in H.
          inversion H; subst; clear H. misfit_post. }
  all: misfit; misfit_post.
Qed.

Lemma rfft2_failed K args s s' :
  _topology_rfft2_azimuthal K args s = Done NULL s' ->
  all_released s s' /\ untouched_before s s' /\ failed_visibly K s s'.
Proof.
  destruct args as [|a1 [|a2 [|a3 [|a4 [|a5 args]]]]].
  5: { destruct s as [h n e m j c]. run_full. all: failed_leaf. all: failed_post. }
  all: misfit; misfit_post.
Qed.

Lemma rfft3_failed K args s s' :
  _topology_rfft3_azimuthal K args s = Done NULL s' ->
  all_released s s' /\ untouched_before s s' /\ failed_visibly K s s'.
Proof.
  destruct args as [|a1 [|a2 [|a3 [|a4 [|a5 [|a6 [|a7 args]]]]]]].
  7: { destruct s as [h n e m j c]. run_full. all: failed_leaf. all: failed_post. }
  all: misfit; misfit_post.
Qed.

(** *** A call that returns an object *)

Ltac listed :=
  cbn; repeat first [ left; reflexivity | right ].

Ltac handed :=
  unfold handed_over, result_locs; cbn; heap_simpl; cbn;
  split; [ repeat (constructor; [cbn; intuition lia|]); constructor |];
  split;
  [ let l := fresh "l" in
    let H := fresh "H" in
    intros l H;
    repeat (destruct H as [H|H]; [subst l; split; [lia | heap_simpl; eexists; reflexivity]|]);
    destruct H
  | let l := fresh "l" in
    let Hl := fresh "Hl" in
    let Hn := fresh "Hn" in
    intros l Hl Hn;
    repeat match goal with
      | H : (?n <= l < S ?m)%nat |- _ =>
          let E := fresh "E" in
          destruct (Nat.eq_dec l m) as [E|E];
          [ subst l; first [ heap_simpl; reflexivity | exfalso; apply Hn; listed ]
          | assert (n <= l < m)%nat by lia; clear H ]
      end;
    lia ].

Ltac unfit :=
  let H := fresh "Hend" in
  intros H ?; cbn in H;
  repeat match type of H with
    | context [ob_as_double ?o] => destruct (ob_as_double o)
    end;
  cbn in H; congruence.

(** What dropping the returned object does. *)
Ltac drop_result :=
  match goal with
  | |- context [Py_DECREF (Some ?l) ?s] => rewrite (Py_DECREF_eq l s)
  end;
  repeat first
    [ progress cbn | progress heap_simpl | progress arith_simpl
    | progress unfold drop_ref ].

Ltac handed_post :=
  split; [handed | split; [untouched | split; [reflexivity|]]];
  eexists; split; [drop_result; reflexivity | split; [released | untouched]].

Lemma peakCount_handed_over K args s p s' :
  _topology_peakCount K args s = Done p s' ->
  p <> NULL ->
  handed_over s s' p /\ untouched_before s s' /\ err s' = err s /\
  exists s'', Py_DECREF p s' = Done tt s'' /\
    all_released s s'' /\ untouched_before s s''.
Proof.
  destruct args as [|a1 [|a2 [|a3 [|a4 [|a5 args]]]]].
  5: { intros Hrun Hp. revert Hrun. destruct s as [h n e m j c].
       run; ended. all: handed_post. }
  all: unfit.
Qed.

Lemma gradient_handed_over K args s p s' :
  _topology_gradient K args s = Done p s' ->
  p <> NULL ->
  handed_over s s' p /\ untouched_before s s' /\ err s' = err s /\
  exists s'', Py_DECREF p s' = Done tt s'' /\
    all_released s s'' /\ untouched_before s s''.
Proof.
  destruct args as [|a1 [|a2 args]].
  2: { intros Hrun Hp. revert Hrun. destruct s as [h n e m j c].
       run; ended. all: handed_post. }
  all: unfit.
Qed.

Lemma hessian_handed_over K args s p s' :
  _topology_hessian K args s = Done p s' ->
  p <> NULL ->
  handed_over s s' p /\ untouched_before s s' /\ err s' = err s /\
  exists s'', Py_DECREF p s' = Done tt s'' /\
    all_released s s'' /\ untouched_before s s''.
Proof.
  destruct args as [|a1 [|a2 args]].
  2: { intros Hrun Hp. revert Hrun. destruct s as [h n e m j c].
       run; ended. all: handed_post. }
  all: unfit.
Qed.

Lemma minkowski_handed_over K args s p s' :
  _topology_minkowski K args s = Done p s' ->
  p <> NULL ->
  handed_over s s' p /\ untouched_before s s' /\ err s' = err s /\
  exists s'', Py_DECREF p s' = Done tt s'' /\
    all_released s s'' /\ untouched_before s s''.
Proof.
  destruct args as [|a1 [|a2 [|a3 [|a4 [|a5 [|a6 [|a7 [|a8 [|a9 [|a10 args]]]]]]]]]].
  10: { intros Hrun Hp. revert Hrun. destruct s as [h n e m j c].
        run; ended. all: handed_post. }
  all: unfit.
Qed.

Lemma rfft2_handed_over K args s p s' :
  _topology_rfft2_azimuthal K args s = Done p s' ->
  p <> NULL ->
  handed_over s s' p /\ untouched_before s s' /\ err s' = err s /\
  exists s'', Py_DECREF p s' = Done tt s'' /\
    all_released s s'' /\ untouched_before s s''.
Proof.
  destruct args as [|a1 [|a2 [|a3 [|a4 [|a5 args]]]]].
  5: { intros Hrun Hp. revert Hrun. destruct s as [h n e m j c].
       run; ended. all: handed_post. }
  all: unfit.
Qed.

Lemma rfft3_handed_over K args s p s' :
  _topology_rfft3_azimuthal K args s = Done p s' ->
  p <> NULL ->
  handed_over s s' p /\ untouched_before s s' /\ err s' = err s /\
  exists s'', Py_DECREF p s' = Done tt s'' /\
    all_released s s'' /\ untouched_before s s''.
Proof.
  destruct args as [|a1 [|a2 [|a3 [|a4 [|a5 [|a6 [|a7 args]]]]]]].
  7: { intros Hrun Hp. revert Hrun. destruct s as [h n e m j c].
       run; ended. all: handed_post. }
  all: unfit.
Qed.

Ltac each_method Hm :=
  unfold module_methods in Hm; cbn [In] in Hm;
  repeat (destruct Hm as [Hm|Hm]; [subst; cbn [ml_meth] in *|]); [..|destruct Hm].

(** ** The methods of the module, whatever the argument tuple *)


(** X1: a method of the module that returns NULL has released every
    object it created: a failed call leaks nothing. *)
Theorem failed_call_releases_everything K m args s s' :
  In m (module_methods K) ->
  ml_meth m args s = Done NULL s' ->
  all_released s s'.
Proof.
  intros Hm Hrun. each_method Hm.
  - exact (proj1 (peakCount_failed _ _ _ _ Hrun)).
  - exact (proj1 (gradient_failed _ _ _ _ Hrun)).
  - exact (proj1 (hessian_failed _ _ _ _ Hrun)).
  - exact (proj1 (minkowski_failed _ _ _ _ Hrun)).
  - exact (proj1 (rfft2_failed _ _ _ _ Hrun)).
  - exact (proj1 (rfft3_failed _ _ _ _ Hrun)).
Qed.

Lemma failed_call_releases_everything_witness :
  exists s',
    _topology_minkowski flat_kernels
      [array_object NPY_DOUBLE flat_2x2; None_object;
       array_object NPY_DOUBLE flat_2x2; array_object NPY_DOUBLE flat_2x2;
       array_object NPY_DOUBLE flat_2x2; array_object NPY_DOUBLE flat_2x2;
       array_object NPY_DOUBLE flat_2x2; array_object NPY_DOUBLE edges_1_2;
       float_object d_one]
      (state_with_memory [true; false]) = Done NULL s' /\
    all_released (state_with_memory [true; false]) s'.
Proof.
  eexists. split; [vm_compute; reflexivity|].
  apply (failed_call_releases_everything flat_kernels
           (mk_PyMethodDef "minkowski" (_topology_minkowski flat_kernels)
              METH_VARARGS minkowski_docstring)
           [array_object NPY_DOUBLE flat_2x2; None_object;
            array_object NPY_DOUBLE flat_2x2; array_object NPY_DOUBLE flat_2x2;
            array_object NPY_DOUBLE flat_2x2; array_object NPY_DOUBLE flat_2x2;
            array_object NPY_DOUBLE flat_2x2; array_object NPY_DOUBLE edges_1_2;
            float_object d_one]
           (state_with_memory [true; false])).
  - do 3 right; left; reflexivity.
  - vm_compute. reflexivity.
Defined.

(** X2: the object a method returns, and the arrays a returned tuple
    holds, are the only objects of the call left alive, each with exactly
    one reference; the converted arguments have been released, and the
    error indicator is as it was. *)
Theorem result_is_handed_over K m args s p s' :
  In m (module_methods K) ->
  ml_meth m args s = Done p s' ->
  p <> NULL ->
  handed_over s s' p /\ err s' = err s.
Proof.
  intros Hm Hrun Hp. each_method Hm.
  - destruct (peakCount_handed_over _ _ _ _ _ Hrun Hp) as (H & _ & He & _). now split.
  - destruct (gradient_handed_over _ _ _ _ _ Hrun Hp) as (H & _ & He & _). now split.
  - destruct (hessian_handed_over _ _ _ _ _ Hrun Hp) as (H & _ & He & _). now split.
  - destruct (minkowski_handed_over _ _ _ _ _ Hrun Hp) as (H & _ & He & _). now split.
  - destruct (rfft2_handed_over _ _ _ _ _ Hrun Hp) as (H & _ & He & _). now split.
  - destruct (rfft3_handed_over _ _ _ _ _ Hrun Hp) as (H & _ & He & _). now split.
Qed.

Lemma result_is_handed_over_witness :
  exists p s',
    _topology_gradient flat_kernels [array_object NPY_DOUBLE flat_2x2] fresh_state
      = Done p s' /\
    p <> NULL /\ handed_over fresh_state s' p /\ err s' = err fresh_state.
Proof.
  destruct (proj2 (gradient_returns_iff _ _ _) gradient_ready_sample)
    as (p & s' & Hrun & Hp).
  exists p, s'. split; [exact Hrun|]. split; [exact Hp|].
  apply (result_is_handed_over flat_kernels
           (mk_PyMethodDef "gradient" (_topology_gradient flat_kernels)
              METH_VARARGS gradient_docstring)
           [array_object NPY_DOUBLE flat_2x2] fresh_state p s').
  - right; left; reflexivity.
  - exact Hrun.
  - exact Hp.
Defined.

(** X3: whatever a method returns, the objects that existed before the
    call have been neither modified nor released. *)
Theorem earlier_objects_are_untouched K m args s p s' :
  In m (module_methods K) ->
  ml_meth m args s = Done p s' ->
  untouched_before s s'.
Proof.
  intros Hm Hrun.
  destruct p as [l|].
  - assert (Hp : Some l <> NULL) by discriminate.
    each_method Hm.
    + exact (proj1 (proj2 (peakCount_handed_over _ _ _ _ _ Hrun Hp))).
    + exact (proj1 (proj2 (gradient_handed_over _ _ _ _ _ Hrun Hp))).
    + exact (proj1 (proj2 (hessian_handed_over _ _ _ _ _ Hrun Hp))).
    + exact (proj1 (proj2 (minkowski_handed_over _ _ _ _ _ Hrun Hp))).
    + exact (proj1 (proj2 (rfft2_handed_over _ _ _ _ _ Hrun Hp))).
    + exact (proj1 (proj2 (rfft3_handed_over _ _ _ _ _ Hrun Hp))).
  - change (@None loc) with NULL in Hrun. each_method Hm.
    + exact (proj1 (proj2 (peakCount_failed _ _ _ _ Hrun))).
    + exact (proj1 (proj2 (gradient_failed _ _ _ _ Hrun))).
    + exact (proj1 (proj2 (hessian_failed _ _ _ _ Hrun))).
    + exact (proj1 (proj2 (minkowski_failed _ _ _ _ Hrun))).
    + exact (proj1 (proj2 (rfft2_failed _ _ _ _ Hrun))).
    + exact (proj1 (proj2 (rfft3_failed _ _ _ _ Hrun))).
Qed.

Lemma earlier_objects_are_untouched_witness :
  exists p s',
    _topology_gradient flat_kernels [array_object NPY_DOUBLE flat_2x2] used_state
      = Done p s' /\
    hget 3%nat (heap s') = Some (mk_heapobj 2 (VArray NPY_DOUBLE flat_2x3)).
Proof.
  eexists _, _. split; [vm_compute; reflexivity|].
  refine (eq_trans
    (earlier_objects_are_untouched flat_kernels
       (mk_PyMethodDef "gradient" (_topology_gradient flat_kernels)
          METH_VARARGS gradient_docstring)
       [array_object NPY_DOUBLE flat_2x2] used_state _ _ _ _ 3%nat _) _).
  - right; left; reflexivity.
  - vm_compute. reflexivity.
  - simpl. lia.
  - vm_compute. reflexivity.
Defined.


(** X4: once the caller drops the object a method returned, nothing the
    call created is left: the result, and for a tuple the arrays it holds,
    are deallocated, and the objects that existed before the call are as
    they were. *)
Theorem dropping_the_result_releases_everything K m args s p s' :
  In m (module_methods K) ->
  ml_meth m args s = Done p s' ->
  p <> NULL ->
  exists s'', Py_DECREF p s' = Done tt s'' /\
    all_released s s'' /\ untouched_before s s''.
Proof.
  intros Hm Hrun Hp. each_method Hm.
  - exact (proj2 (proj2 (proj2 (peakCount_handed_over _ _ _ _ _ Hrun Hp)))).
  - exact (proj2 (proj2 (proj2 (gradient_handed_over _ _ _ _ _ Hrun Hp)))).
  - exact (proj2 (proj2 (proj2 (hessian_handed_over _ _ _ _ _ Hrun Hp)))).
  - exact (proj2 (proj2 (proj2 (minkowski_handed_over _ _ _ _ _ Hrun Hp)))).
  - exact (proj2 (proj2 (proj2 (rfft2_handed_over _ _ _ _ _ Hrun Hp)))).
  - exact (proj2 (proj2 (proj2 (rfft3_handed_over _ _ _ _ _ Hrun Hp)))).
Qed.

Lemma dropping_the_result_releases_everything_witness :
  exists p s' s'',
    _topology_gradient flat_kernels [array_object NPY_DOUBLE flat_2x2] fresh_state
      = Done p s' /\
    Py_DECREF p s' = Done tt s'' /\ all_released fresh_state s''.
Proof.
  destruct (proj2 (gradient_returns_iff _ _ _) gradient_ready_sample)
    as (p & s' & Hrun & Hp).
  destruct (dropping_the_result_releases_everything flat_kernels
              (mk_PyMethodDef "gradient" (_topology_gradient flat_kernels)
                 METH_VARARGS gradient_docstring)
              [array_object NPY_DOUBLE flat_2x2] fresh_state p s'
              ltac:(right; left; reflexivity) Hrun Hp)
    as (s'' & Hdrop & Hrel & _).
  exists p, s', s''. repeat split; assumption.
Defined.

(** X5: [peakCount], [gradient], [hessian] and [minkowski] never return
    NULL without an exception set, and when they return NULL their kernel
    has not run: the branches that clean up after a failing
    [PyTuple_SetItem] are never taken. *)
Theorem NULL_comes_with_an_exception K args s s' :
  (_topology_peakCount K args s = Done NULL s' ->
   err s' <> None /\ calls s' = calls s) /\
  (_topology_gradient K args s = Done NULL s' ->
   err s' <> None /\ calls s' = calls s) /\
  (_topology_hessian K args s = Done NULL s' ->
   err s' <> None /\ calls s' = calls s) /\
  (_topology_minkowski K args s = Done NULL s' ->
   err s' <> None /\ calls s' = calls s).
Proof.
  split; [|split; [|split]]; intros Hrun.
  - exact (proj2 (proj2 (peakCount_failed _ _ _ _ Hrun))).
  - exact (proj2 (proj2 (gradient_failed _ _ _ _ Hrun))).
  - exact (proj2 (proj2 (hessian_failed _ _ _ _ Hrun))).
  - exact (proj2 (proj2 (minkowski_failed _ _ _ _ Hrun))).
Qed.

Lemma NULL_comes_with_an_exception_witness :
  exists s',
    _topology_gradient flat_kernels [array_object NPY_DOUBLE flat_2x2]
      (state_with_memory [true; false]) = Done NULL s' /\
    err s' <> None /\ calls s' = calls (state_with_memory [true; false]).
Proof.
  eexists. split; [vm_compute; reflexivity|].
  apply (proj1 (proj2 (NULL_comes_with_an_exception flat_kernels
           [array_object NPY_DOUBLE flat_2x2] (state_with_memory [true; false]) _))).
  vm_compute. reflexivity.
Defined.

(** X6: [rfft2_azimuthal] and [rfft3_azimuthal] return NULL either with
    an exception set and the kernel not run, or after the kernel answered
    with a non-zero status, in which case the wrapper sets no exception. *)
Theorem azimuthal_NULL_is_an_exception_or_a_kernel_failure K args s s' :
  (_topology_rfft2_azimuthal K args s = Done NULL s' -> failed_visibly K s s') /\
  (_topology_rfft3_azimuthal K args s = Done NULL s' -> failed_visibly K s s').
Proof.
  split; intros Hrun.
  - exact (proj2 (proj2 (rfft2_failed _ _ _ _ Hrun))).
  - exact (proj2 (proj2 (rfft3_failed _ _ _ _ Hrun))).
Qed.

Lemma azimuthal_NULL_is_an_exception_or_a_kernel_failure_witness :
  exists s',
    _topology_rfft2_azimuthal failing_kernels
      [array_object NPY_COMPLEX128 ft_2x2; array_object NPY_COMPLEX128 ft_2x2;
       float_object d_one; array_object NPY_DOUBLE edges_1_2] fresh_state
      = Done NULL s' /\
    failed_visibly failing_kernels fresh_state s'.
Proof.
  eexists. split; [vm_compute; reflexivity|].
  apply (proj1 (azimuthal_NULL_is_an_exception_or_a_kernel_failure failing_kernels
           [array_object NPY_COMPLEX128 ft_2x2; array_object NPY_COMPLEX128 ft_2x2;
            float_object d_one; array_object NPY_DOUBLE edges_1_2] fresh_state _)).
  vm_compute. reflexivity.
Defined.

(** ** Kernel failures *)

Lemma rfft2_kernel_failure_witness :
  exists s',
    _topology_rfft2_azimuthal failing_kernels
      [array_object NPY_COMPLEX128 ft_2x2; array_object NPY_COMPLEX128 ft_2x2;
       float_object d_one; array_object NPY_DOUBLE edges_1_2] fresh_state
      = Done NULL s' /\
    all_released fresh_state s' /\ err s' = err fresh_state.
Proof.
  apply (rfft2_kernel_failure failing_kernels
           (array_object NPY_COMPLEX128 ft_2x2) (array_object NPY_COMPLEX128 ft_2x2)
           (float_object d_one) (array_object NPY_DOUBLE edges_1_2) fresh_state
           d_one ft_2x2 ft_2x2 edges_1_2 2 2 2 1 []); try reflexivity.
  - vm_compute. discriminate.
  - split; [reflexivity | constructor 1].
  - discriminate.
Defined.

Lemma rfft3_kernel_failure_witness :
  exists s',
    _topology_rfft3_azimuthal failing_kernels
      [array_object NPY_COMPLEX128 ft_2x2x2; array_object NPY_COMPLEX128 ft_2x2x2;
       float_object d_one; float_object d_one; float_object d_one;
       array_object NPY_DOUBLE edges_1_2] fresh_state = Done NULL s' /\
    all_released fresh_state s' /\ err s' = err fresh_state.
Proof.
  apply (rfft3_kernel_failure failing_kernels
           (array_object NPY_COMPLEX128 ft_2x2x2)
           (array_object NPY_COMPLEX128 ft_2x2x2)
           (float_object d_one) (float_object d_one) (float_object d_one)
           (array_object NPY_DOUBLE edges_1_2) fresh_state
           d_one d_one d_one ft_2x2x2 ft_2x2x2 edges_1_2 2 2 2 2 1 [] []);
    try reflexivity.
  - vm_compute. discriminate.
  - split; [reflexivity|]. split; constructor 1.
  - discriminate.
Defined.



(** ** Arguments that do not fit the format *)

Lemma parse_args_fits f : forall args r, parse_args f args = Some r -> fits f args.
Proof.
  induction f as [|u f IH]; intros args r H.
  - destruct args; [|discriminate]. split; [reflexivity|]. intros i o Hf. destruct i; discriminate.
  - destruct args as [|o args]; [destruct u; discriminate|].
    assert (Hrest : exists r', parse_args f args = Some r' /\
                      (u = fmt_d -> ob_as_double o <> None)).
    { destruct u; simpl in H.
      - destruct (parse_args f args) as [r'|]; [|discriminate].
        exists r'. split; [reflexivity|]. discriminate.
      - destruct (ob_as_double o); [|discriminate].
        destruct (parse_args f args) as [r'|]; [|discriminate].
        exists r'. split; [reflexivity|]. discriminate. }
    destruct Hrest as (r' & Hr' & Hu).
    destruct (IH _ _ Hr') as [Hlen Hd].
    split; [simpl; now rewrite Hlen|].
    intros [|i] o' Hf Ha; simpl in Hf, Ha.
    + injection Hf as ->. injection Ha as <-. now apply Hu.
    + now apply (Hd i).
Qed.

Ltac no_fit H :=
  unfold bind, PyArg_ParseTuple;
  match goal with
  | |- context [parse_args ?f ?args] =>
      let E := fresh "E" in
      destruct (parse_args f args) eqn:E;
      [ exfalso; apply H; exact (parse_args_fits _ _ _ E) | reflexivity ]
  end.

Lemma first_double_error_at f : forall args (i : nat) o,
  f !! i = Some fmt_d -> args !! i = Some o -> ob_as_double o = None ->
  (forall (j : nat) o', (j < i)%nat -> f !! j = Some fmt_d -> args !! j = Some o' ->
     ob_as_double o' <> None) ->
  first_double_error f args = Some (ob_double_error o).
Proof.
  induction f as [|u f IH]; intros args i o Hf Ha Ho Hbefore.
  - rewrite lookup_nil in Hf. discriminate.
  - destruct args as [|a args]; [rewrite lookup_nil in Ha; discriminate|].
    destruct i as [|i]; simpl in Hf, Ha.
    + injection Hf as ->. injection Ha as ->. simpl. rewrite Ho. reflexivity.
    + assert (IH' : first_double_error f args = Some (ob_double_error o)).
      { apply (IH args i o Hf Ha Ho). intros j o' Hj.
        apply (Hbefore (S j) o'). lia. }
      destruct u; simpl; [exact IH'|].
      destruct (ob_as_double a) eqn:Ea; [exact IH'|].
      exfalso. exact (Hbefore 0%nat a (Nat.lt_0_succ i) eq_refl eq_refl Ea).
Qed.

(** X9: an argument tuple that does not fit the format of the method
    fails the call in the parser, with the exception the parser leaves:
    [TypeError] for a wrong number of arguments, and otherwise the
    exception of the first conversion to a double that fails
    ([TypeError] for an object that is no number, [OverflowError] for an
    integer too large for a double).  Nothing is converted to an array,
    allocated or run. *)
Theorem misfit_arguments_fail_in_the_parser K args s :
  (~ fits [fmt_O; fmt_O; fmt_O; fmt_d] args ->
   _topology_peakCount K args s
   = Done NULL (set_err (parse_error [fmt_O; fmt_O; fmt_O; fmt_d] args) s)) /\
  (~ fits [fmt_O] args ->
   _topology_gradient K args s = Done NULL (set_err (parse_error [fmt_O] args) s)) /\
  (~ fits [fmt_O] args ->
   _topology_hessian K args s = Done NULL (set_err (parse_error [fmt_O] args) s)) /\
  (~ fits [fmt_O; fmt_O; fmt_O; fmt_O; fmt_O; fmt_O; fmt_O; fmt_O; fmt_d] args ->
   _topology_minkowski K args s
   = Done NULL
       (set_err
          (parse_error [fmt_O; fmt_O; fmt_O; fmt_O; fmt_O; fmt_O; fmt_O; fmt_O; fmt_d]
             args) s)) /\
  (~ fits [fmt_O; fmt_O; fmt_d; fmt_O] args ->
   _topology_rfft2_azimuthal K args s
   = Done NULL (set_err (parse_error [fmt_O; fmt_O; fmt_d; fmt_O] args) s)) /\
  (~ fits [fmt_O; fmt_O; fmt_d; fmt_d; fmt_d; fmt_O] args ->
   _topology_rfft3_azimuthal K args s
   = Done NULL
       (set_err (parse_error [fmt_O; fmt_O; fmt_d; fmt_d; fmt_d; fmt_O] args) s)) /\
  (forall f, length args <> length f -> parse_error f args = TypeError) /\
  (forall f (i : nat) o,
     length args = length f ->
     f !! i = Some fmt_d -> args !! i = Some o -> ob_as_double o = None ->
     (forall (j : nat) o', (j < i)%nat -> f !! j = Some fmt_d -> args !! j = Some o' ->
        ob_as_double o' <> None) ->
     parse_error f args = ob_double_error o).
Proof.
  split; [intros H; unfold _topology_peakCount; no_fit H|].
  split; [intros H; unfold _topology_gradient; no_fit H|].
  split; [intros H; unfold _topology_hessian; no_fit H|].
  split; [intros H; unfold _topology_minkowski; no_fit H|].
  split; [intros H; unfold _topology_rfft2_azimuthal; no_fit H|].
  split; [intros H; unfold _topology_rfft3_azimuthal; no_fit H|].
  split.
  - intros f Hlen. unfold parse_error.
    destruct (Nat.eqb_spec (length args) (length f)); [contradiction | reflexivity].
  - intros f i o Hlen Hf Ha Ho Hbefore. unfold parse_error.
    rewrite Hlen, Nat.eqb_refl.
    now rewrite (first_double_error_at f args i o Hf Ha Ho Hbefore).
Qed.

Lemma misfit_arguments_fail_in_the_parser_witness :
  _topology_peakCount flat_kernels
    [array_object NPY_DOUBLE flat_2x2; None_object;
     array_object NPY_DOUBLE edges_1_2; huge_int_object] fresh_state
  = Done NULL (set_err OverflowError fresh_state) /\
  _topology_peakCount flat_kernels
    [array_object NPY_DOUBLE flat_2x2; None_object;
     array_object NPY_DOUBLE edges_1_2; None_object] fresh_state
  = Done NULL (set_err TypeError fresh_state) /\
  _topology_gradient flat_kernels [] fresh_state
  = Done NULL (set_err TypeError fresh_state).
Proof.
  split; [|split].
  - apply (proj1 (misfit_arguments_fail_in_the_parser flat_kernels
             [array_object NPY_DOUBLE flat_2x2; None_object;
              array_object NPY_DOUBLE edges_1_2; huge_int_object] fresh_state)).
    intros [_ H]. exact (H 3%nat huge_int_object eq_refl eq_refl eq_refl).
  - apply (proj1 (misfit_arguments_fail_in_the_parser flat_kernels
             [array_object NPY_DOUBLE flat_2x2; None_object;
              array_object NPY_DOUBLE edges_1_2; None_object] fresh_state)).
    intros [_ H]. exact (H 3%nat None_object eq_refl eq_refl eq_refl).
  - apply (proj1 (proj2 (misfit_arguments_fail_in_the_parser flat_kernels
             [] fresh_state))).
    intros [H _]. discriminate H.
Defined.


(** ** Failed conversions *)

(** X10: when a conversion of an array argument fails, the call returns
    NULL with the exception of the last conversion that failed (all of
    them are attempted before the results are looked at); the arguments
    that did convert are released, the mask is not looked at and no
    kernel runs. *)
Theorem failed_conversion_is_reported
    K map_obj mask_obj gx_obj gy_obj hxx_obj hyy_obj hxy_obj ft1_obj ft2_obj
    edges_obj sigma_obj kx_obj ky_obj kz_obj s e :
  (ob_as_double sigma_obj <> None ->
   conversion_error [(map_obj, NPY_DOUBLE); (edges_obj, NPY_DOUBLE)] = Some e ->
   fails_with (_topology_peakCount K [map_obj; mask_obj; edges_obj; sigma_obj] s) s e) /\
  (conversion_error [(map_obj, NPY_DOUBLE)] = Some e ->
   fails_with (_topology_gradient K [map_obj] s) s e) /\
  (conversion_error [(map_obj, NPY_DOUBLE)] = Some e ->
   fails_with (_topology_hessian K [map_obj] s) s e) /\
  (ob_as_double sigma_obj <> None ->
   conversion_error
     [(map_obj, NPY_DOUBLE); (gx_obj, NPY_DOUBLE); (gy_obj, NPY_DOUBLE);
      (hxx_obj, NPY_DOUBLE); (hyy_obj, NPY_DOUBLE); (hxy_obj, NPY_DOUBLE);
      (edges_obj, NPY_DOUBLE)] = Some e ->
   fails_with
     (_topology_minkowski K
        [map_obj; mask_obj; gx_obj; gy_obj; hxx_obj; hyy_obj; hxy_obj;
         edges_obj; sigma_obj] s) s e) /\
  (ob_as_double sigma_obj <> None ->
   conversion_error
     [(ft1_obj, NPY_COMPLEX128); (ft2_obj, NPY_COMPLEX128); (edges_obj, NPY_DOUBLE)]
     = Some e ->
   fails_with
     (_topology_rfft2_azimuthal K [ft1_obj; ft2_obj; sigma_obj; edges_obj] s) s e) /\
  (ob_as_double kx_obj <> None -> ob_as_double ky_obj <> None ->
   ob_as_double kz_obj <> None ->
   conversion_error
     [(ft1_obj, NPY_COMPLEX128); (ft2_obj, NPY_COMPLEX128); (edges_obj, NPY_DOUBLE)]
     = Some e ->
   fails_with
     (_topology_rfft3_azimuthal K
        [ft1_obj; ft2_obj; kx_obj; ky_obj; kz_obj; edges_obj] s) s e).
Proof.
  split; [apply peakCount_conversion_failure|].
  split; [apply gradient_conversion_failure|].
  split; [apply hessian_conversion_failure|].
  split; [apply minkowski_conversion_failure|].
  split; [apply rfft2_conversion_failure|].
  apply rfft3_conversion_failure.
Qed.

Lemma failed_conversion_is_reported_witness :
  fails_with
    (_topology_peakCount flat_kernels
       [None_object; None_object; ragged_object; float_object d_one] fresh_state)
    fresh_state ValueError.
Proof.
  apply (proj1 (failed_conversion_is_reported flat_kernels
           None_object None_object None_object None_object None_object None_object
           None_object None_object None_object ragged_object (float_object d_one)
           None_object None_object None_object fresh_state ValueError)).
  - simpl. discriminate.
  - reflexivity.
Defined.

(** ** The mask *)

Lemma peakCount_mask_failure K map_obj mask_obj thresholds_obj sigma_obj s ma ta e :
  ob_as_double sigma_obj <> None ->
  ob_as_array map_obj NPY_DOUBLE = inr ma ->
  ob_as_array thresholds_obj NPY_DOUBLE = inr ta ->
  ob_is_None mask_obj = false ->
  ob_as_array mask_obj NPY_BOOL = inl e ->
  fails_with (_topology_peakCount K [map_obj; mask_obj; thresholds_obj; sigma_obj] s)
    s e.
Proof.
  intros Hs Hma Hta Hn He.
  destruct (ob_as_double sigma_obj) as [sigma|] eqn:Hsigma; [clear Hs|congruence].
  assert (Hn' : negb (ob_is_None mask_obj) = true) by (rewrite Hn; reflexivity).
  destruct s as [h n e0 m j c]. unfold fails_with.
  run_forward. fails_now.
Qed.

Lemma minkowski_mask_failure K map_obj mask_obj grad_x_obj grad_y_obj hess_xx_obj
    hess_yy_obj hess_xy_obj thresholds_obj sigma_obj s ma gxa gya hxxa hyya hxya ta e :
  ob_as_double sigma_obj <> None ->
  ob_as_array map_obj NPY_DOUBLE = inr ma ->
  ob_as_array grad_x_obj NPY_DOUBLE = inr gxa ->
  ob_as_array grad_y_obj NPY_DOUBLE = inr gya ->
  ob_as_array hess_xx_obj NPY_DOUBLE = inr hxxa ->
  ob_as_array hess_yy_obj NPY_DOUBLE = inr hyya ->
  ob_as_array hess_xy_obj NPY_DOUBLE = inr hxya ->
  ob_as_array thresholds_obj NPY_DOUBLE = inr ta ->
  ob_is_None mask_obj = false ->
  ob_as_array mask_obj NPY_BOOL = inl e ->
  fails_with
    (_topology_minkowski K
       [map_obj; mask_obj; grad_x_obj; grad_y_obj; hess_xx_obj; hess_yy_obj;
        hess_xy_obj; thresholds_obj; sigma_obj] s) s e.
Proof.
  intros Hs Hma Hgx Hgy Hxx Hyy Hxy Hta Hn He.
  destruct (ob_as_double sigma_obj) as [sigma|] eqn:Hsigma; [clear Hs|congruence].
  assert (Hn' : negb (ob_is_None mask_obj) = true) by (rewrite Hn; reflexivity).
  destruct s as [h n e0 m j c]. unfold fails_with.
  run_forward. fails_now.
Qed.

(** X11: a mask that is not [None] and cannot be converted to a Boolean
    array fails [peakCount] and [minkowski] with the exception of that
    conversion; the arguments converted before it are released and the
    kernel does not run. *)
Theorem unconvertible_mask_is_reported
    K map_obj mask_obj gx_obj gy_obj hxx_obj hyy_obj hxy_obj edges_obj sigma_obj
    s e :
  ob_is_None mask_obj = false ->
  ob_as_array mask_obj NPY_BOOL = inl e ->
  ob_as_double sigma_obj <> None ->
  (conversion_error [(map_obj, NPY_DOUBLE); (edges_obj, NPY_DOUBLE)] = None ->
   fails_with (_topology_peakCount K [map_obj; mask_obj; edges_obj; sigma_obj] s) s e) /\
  (conversion_error
     [(map_obj, NPY_DOUBLE); (gx_obj, NPY_DOUBLE); (gy_obj, NPY_DOUBLE);
      (hxx_obj, NPY_DOUBLE); (hyy_obj, NPY_DOUBLE); (hxy_obj, NPY_DOUBLE);
      (edges_obj, NPY_DOUBLE)] = None ->
   fails_with
     (_topology_minkowski K
        [map_obj; mask_obj; gx_obj; gy_obj; hxx_obj; hyy_obj; hxy_obj;
         edges_obj; sigma_obj] s) s e).
Proof.
  intros Hn He Hs. split; intros Hc; apply conversion_error_None in Hc.
  - inversion Hc as [|? ? [ma Hma] Hc1]; subst; clear Hc.
    inversion Hc1 as [|? ? [ta Hta] _]; subst; clear Hc1.
    eapply peakCount_mask_failure; eassumption.
  - inversion Hc as [|? ? [b1 H1] Hc1]; subst; clear Hc.
    inversion Hc1 as [|? ? [b3 H3] Hc2]; subst; clear Hc1.
    inversion Hc2 as [|? ? [b4 H4] Hc3]; subst; clear Hc2.
    inversion Hc3 as [|? ? [b5 H5] Hc4]; subst; clear Hc3.
    inversion Hc4 as [|? ? [b6 H6] Hc5]; subst; clear Hc4.
    inversion Hc5 as [|? ? [b7 H7] Hc6]; subst; clear Hc5.
    inversion Hc6 as [|? ? [b8 H8] _]; subst; clear Hc6.
    eapply minkowski_mask_failure; eassumption.
Qed.

Lemma unconvertible_mask_is_reported_witness :
  fails_with
    (_topology_peakCount flat_kernels
       [array_object NPY_DOUBLE flat_2x2; ragged_object;
        array_object NPY_DOUBLE edges_1_2; float_object d_one] fresh_state)
    fresh_state ValueError.
Proof.
  apply (proj1 (unconvertible_mask_is_reported flat_kernels
           (array_object NPY_DOUBLE flat_2x2) ragged_object
           None_object None_object None_object None_object None_object
           (array_object NPY_DOUBLE edges_1_2) (float_object d_one)
           fresh_state ValueError eq_refl eq_refl ltac:(simpl; discriminate))).
  reflexivity.
Defined.




(** ** Edge counts that narrow to nothing *)

Lemma negative_length n : n <= 0 -> shape_refused 8 [n - 1] = true.
Proof. intros H. apply negative_refused. lia. Qed.

Lemma peakCount_no_bin K map_obj mask_obj thresholds_obj sigma_obj s N :
  peakCount_converts map_obj mask_obj thresholds_obj sigma_obj N ->
  to_int N <= 0 ->
  fails_with (_topology_peakCount K [map_obj; mask_obj; thresholds_obj; sigma_obj] s)
    s ValueError.
Proof.
  intros (sigma & ma & ta & mk & d0 & Hs & Hma & Hta & Hmk & Hd0 & HN) Hneg.
  apply negative_length in Hneg.
  destruct s as [h n e m j c]. unfold fails_with.
  destruct (mask_arg_cases _ _ Hmk) as [[Hn ->]|[Hn (a & Ha & ->)]].
  all: run_forward.
  all: fails_now.
Qed.

Lemma rfft2_no_bin K ft_map1_obj ft_map2_obj angle_obj lvalues_obj s N :
  rfft2_converts ft_map1_obj ft_map2_obj angle_obj lvalues_obj N ->
  to_int N <= 0 ->
  fails_with
    (_topology_rfft2_azimuthal K [ft_map1_obj; ft_map2_obj; angle_obj; lvalues_obj] s)
    s ValueError.
Proof.
  intros (angle & a1 & a2 & la & x0 & y0 & Hs & H1 & H2 & Hl & Hx & Hy & HN) Hneg.
  apply negative_length in Hneg.
  destruct s as [h n e m j c]. unfold fails_with.
  run_forward. fails_now.
Qed.

Lemma rfft3_no_bin K ft_map1_obj ft_map2_obj kx_obj ky_obj kz_obj kvalues_obj s N :
  rfft3_converts ft_map1_obj ft_map2_obj kx_obj ky_obj kz_obj kvalues_obj N ->
  to_int N <= 0 ->
  fails_with
    (_topology_rfft3_azimuthal K
       [ft_map1_obj; ft_map2_obj; kx_obj; ky_obj; kz_obj; kvalues_obj] s)
    s ValueError.
Proof.
  intros (kx & ky & kz & a1 & a2 & ka & x0 & y0 & z0
          & Hkx & Hky & Hkz & H1 & H2 & Hk & Hx & Hy & Hz & HN) Hneg.
  apply negative_length in Hneg.
  destruct s as [h n e m j c]. unfold fails_with.
  run_forward. fails_now.
Qed.

Lemma minkowski_no_bin K map_obj mask_obj grad_x_obj grad_y_obj hess_xx_obj
    hess_yy_obj hess_xy_obj thresholds_obj sigma_obj s N :
  minkowski_converts map_obj mask_obj grad_x_obj grad_y_obj hess_xx_obj
    hess_yy_obj hess_xy_obj thresholds_obj sigma_obj N ->
  INT_MIN < to_int N <= 0 ->
  fails_with
    (_topology_minkowski K
       [map_obj; mask_obj; grad_x_obj; grad_y_obj; hess_xx_obj; hess_yy_obj;
        hess_xy_obj; thresholds_obj; sigma_obj] s)
    s (if mem_ok (mem s) then ValueError else MemoryError).
Proof.
  intros (sigma & ma & gxa & gya & hxxa & hyya & hxya & ta & mk & d0
          & Hs & Hma & Hgx & Hgy & Hxx & Hyy & Hxy & Hta & Hmk & Hd0 & HN) [Hlo Hneg].
  assert (Hsub : (INT_MIN <=? to_int N - 1) && (to_int N - 1 <=? INT_MAX) = true).
  { unfold INT_MIN, INT_MAX in *. apply andb_true_intro. split; apply Z.leb_le; lia. }
  apply negative_length in Hneg.
  destruct s as [h n e m j c]. unfold fails_with. cbn [mem].
  destruct (mask_arg_cases _ _ Hmk) as [[Hn ->]|[Hn (a & Ha & ->)]].
  all: run_forward.
  all: fails_now.
Qed.

Lemma minkowski_count_overflow K map_obj mask_obj grad_x_obj grad_y_obj hess_xx_obj
    hess_yy_obj hess_xy_obj thresholds_obj sigma_obj s N :
  minkowski_converts map_obj mask_obj grad_x_obj grad_y_obj hess_xx_obj
    hess_yy_obj hess_xy_obj thresholds_obj sigma_obj N ->
  to_int N = INT_MIN ->
  _topology_minkowski K
    [map_obj; mask_obj; grad_x_obj; grad_y_obj; hess_xx_obj; hess_yy_obj;
     hess_xy_obj; thresholds_obj; sigma_obj] s = Undefined.
Proof.
  intros (sigma & ma & gxa & gya & hxxa & hyya & hxya & ta & mk & d0
          & Hs & Hma & Hgx & Hgy & Hxx & Hyy & Hxy & Hta & Hmk & Hd0 & HN) Hmin.
  assert (Hsub : (INT_MIN <=? to_int N - 1) && (to_int N - 1 <=? INT_MAX) = false).
  { rewrite Hmin. reflexivity. }
  destruct s as [h n e m j c].
  destruct (mask_arg_cases _ _ Hmk) as [[Hn ->]|[Hn (a & Ha & ->)]].
  all: run_forward.
  all: reflexivity.
Qed.

(** X13: an edge count that narrows to an [int] of at most zero (no
    edge, or a multiple of 2^32 of them, or a count that wraps to a
    negative [int]) leaves no bin: the output of negative length is
    refused with [ValueError] and the kernel does not run.  [minkowski]
    computes the length in [int]: for a count that narrows to INT_MIN the
    subtraction overflows, which is undefined, and otherwise its tuple is
    still requested, so that the exception is [MemoryError] when that
    allocation fails. *)
Theorem no_bin_is_a_ValueError
    K map_obj mask_obj gx_obj gy_obj hxx_obj hyy_obj hxy_obj ft1_obj ft2_obj
    edges_obj sigma_obj kx_obj ky_obj kz_obj s N :
  (peakCount_converts map_obj mask_obj edges_obj sigma_obj N ->
   to_int N <= 0 ->
   fails_with (_topology_peakCount K [map_obj; mask_obj; edges_obj; sigma_obj] s)
     s ValueError) /\
  (rfft2_converts ft1_obj ft2_obj sigma_obj edges_obj N ->
   to_int N <= 0 ->
   fails_with (_topology_rfft2_azimuthal K [ft1_obj; ft2_obj; sigma_obj; edges_obj] s)
     s ValueError) /\
  (rfft3_converts ft1_obj ft2_obj kx_obj ky_obj kz_obj edges_obj N ->
   to_int N <= 0 ->
   fails_with
     (_topology_rfft3_azimuthal K
        [ft1_obj; ft2_obj; kx_obj; ky_obj; kz_obj; edges_obj] s)
     s ValueError) /\
  (minkowski_converts map_obj mask_obj gx_obj gy_obj hxx_obj hyy_obj hxy_obj
     edges_obj sigma_obj N ->
   INT_MIN < to_int N <= 0 ->
   fails_with
     (_topology_minkowski K
        [map_obj; mask_obj; gx_obj; gy_obj; hxx_obj; hyy_obj; hxy_obj;
         edges_obj; sigma_obj] s)
     s (if mem_ok (mem s) then ValueError else MemoryError)) /\
  (minkowski_converts map_obj mask_obj gx_obj gy_obj hxx_obj hyy_obj hxy_obj
     edges_obj sigma_obj N ->
   to_int N = INT_MIN ->
   _topology_minkowski K
     [map_obj; mask_obj; gx_obj; gy_obj; hxx_obj; hyy_obj; hxy_obj;
      edges_obj; sigma_obj] s = Undefined).
Proof.
  split; [apply peakCount_no_bin|].
  split; [apply rfft2_no_bin|].
  split; [apply rfft3_no_bin|].
  split; [apply minkowski_no_bin|].
  apply minkowski_count_overflow.
Qed.

Lemma rfft2_converts_no_edge :
  rfft2_converts (array_object NPY_COMPLEX128 ft_2x2)
    (array_object NPY_COMPLEX128 ft_2x2) (float_object d_one)
    (array_object NPY_DOUBLE no_edge) 0.
Proof.
  exists d_one, ft_2x2, ft_2x2, no_edge, 2, 2.
  repeat split; reflexivity.
Defined.

Lemma minkowski_converts_2_31 :
  minkowski_converts (array_object NPY_DOUBLE flat_2x2) None_object
    (array_object NPY_DOUBLE flat_2x2) (array_object NPY_DOUBLE flat_2x2)
    (array_object NPY_DOUBLE flat_2x2) (array_object NPY_DOUBLE flat_2x2)
    (array_object NPY_DOUBLE flat_2x2) (array_object NPY_DOUBLE edges_2_31)
    (float_object d_one) 2147483648.
Proof.
  exists d_one, flat_2x2, flat_2x2, flat_2x2, flat_2x2, flat_2x2, flat_2x2,
    edges_2_31, None, 2.
  repeat split; reflexivity.
Defined.

Lemma no_bin_is_a_ValueError_witness :
  fails_with
    (_topology_rfft2_azimuthal flat_kernels
       [array_object NPY_COMPLEX128 ft_2x2; array_object NPY_COMPLEX128 ft_2x2;
        float_object d_one; array_object NPY_DOUBLE no_edge] fresh_state)
    fresh_state ValueError /\
  _topology_minkowski flat_kernels
    [array_object NPY_DOUBLE flat_2x2; None_object;
     array_object NPY_DOUBLE flat_2x2; array_object NPY_DOUBLE flat_2x2;
     array_object NPY_DOUBLE flat_2x2; array_object NPY_DOUBLE flat_2x2;
     array_object NPY_DOUBLE flat_2x2; array_object NPY_DOUBLE edges_2_31;
     float_object d_one] fresh_state = Undefined.
Proof.
  split.
  - apply (proj1 (proj2 (no_bin_is_a_ValueError flat_kernels
             None_object None_object None_object None_object None_object None_object
             None_object (array_object NPY_COMPLEX128 ft_2x2)
             (array_object NPY_COMPLEX128 ft_2x2) (array_object NPY_DOUBLE no_edge)
             (float_object d_one) None_object None_object None_object
             fresh_state 0)) rfft2_converts_no_edge).
    vm_compute. discriminate.
  - apply (proj2 (proj2 (proj2 (proj2 (no_bin_is_a_ValueError flat_kernels
             (array_object NPY_DOUBLE flat_2x2) None_object
             (array_object NPY_DOUBLE flat_2x2) (array_object NPY_DOUBLE flat_2x2)
             (array_object NPY_DOUBLE flat_2x2) (array_object NPY_DOUBLE flat_2x2)
             (array_object NPY_DOUBLE flat_2x2) None_object None_object
             (array_object NPY_DOUBLE edges_2_31) (float_object d_one)
             None_object None_object None_object fresh_state 2147483648))))
             minkowski_converts_2_31).
    vm_compute. reflexivity.
Defined.



(** ** Allocations that fail *)


Lemma peakCount_out_of_memory K map_obj mask_obj thresholds_obj sigma_obj s N :
  peakCount_converts map_obj mask_obj thresholds_obj sigma_obj N ->
  0 <= to_int N - 1 ->
  mem_ok (mem s) = false ->
  fails_with (_topology_peakCount K [map_obj; mask_obj; thresholds_obj; sigma_obj] s)
    s MemoryError.
Proof.
  intros (sigma & ma & ta & mk & d0 & Hs & Hma & Hta & Hmk & Hd0 & HN) Hpos Hmem.
  apply nonneg_dim_1 in Hpos.
  destruct s as [h n e m j c]. cbn [mem] in Hmem. unfold fails_with.
  destruct (mask_arg_cases _ _ Hmk) as [[Hn ->]|[Hn (a & Ha & ->)]].
  all: run_forward.
  all: fails_now.
Qed.

Lemma rfft2_out_of_memory K ft_map1_obj ft_map2_obj angle_obj lvalues_obj s N :
  rfft2_converts ft_map1_obj ft_map2_obj angle_obj lvalues_obj N ->
  0 <= to_int N - 1 ->
  mem_ok (mem s) = false ->
  fails_with
    (_topology_rfft2_azimuthal K [ft_map1_obj; ft_map2_obj; angle_obj; lvalues_obj] s)
    s MemoryError.
Proof.
  intros (angle & a1 & a2 & la & x0 & y0 & Hs & H1 & H2 & Hl & Hx & Hy & HN) Hpos Hmem.
  apply nonneg_dim_1 in Hpos.
  destruct s as [h n e m j c]. cbn [mem] in Hmem. unfold fails_with.
  run_forward. fails_now.
Qed.

Lemma rfft3_out_of_memory K ft_map1_obj ft_map2_obj kx_obj ky_obj kz_obj kvalues_obj
    s N :
  rfft3_converts ft_map1_obj ft_map2_obj kx_obj ky_obj kz_obj kvalues_obj N ->
  0 <= to_int N - 1 ->
  mem_ok (mem s) = false \/ mem_ok (tail (mem s)) = false ->
  fails_with
    (_topology_rfft3_azimuthal K
       [ft_map1_obj; ft_map2_obj; kx_obj; ky_obj; kz_obj; kvalues_obj] s)
    s MemoryError.
Proof.
  intros (kx & ky & kz & a1 & a2 & ka & x0 & y0 & z0
          & Hkx & Hky & Hkz & H1 & H2 & Hk & Hx & Hy & Hz & HN) Hpos Hmem.
  apply nonneg_dim_1 in Hpos.
  destruct s as [h n e m j c]. cbn [mem] in Hmem. unfold fails_with.
  run_forward.
  all: fails_now.
Qed.

Lemma gradient_out_of_memory K map_obj s ma d0 :
  ob_as_array map_obj NPY_DOUBLE = inr ma ->
  nd_dims ma !! 0%nat = Some d0 ->
  0 <= to_int d0 < 1073741824 ->
  mem_ok (mem s) = false \/ mem_ok (tail (mem s)) = false ->
  fails_with (_topology_gradient K [map_obj] s) s MemoryError.
Proof.
  intros Hma Hd0 Hpos Hmem.
  apply nonneg_dim_2 in Hpos.
  destruct s as [h n e m j c]. cbn [mem] in Hmem. unfold fails_with.
  run_forward.
  all: fails_now.
Qed.

Lemma hessian_out_of_memory K map_obj s ma d0 :
  ob_as_array map_obj NPY_DOUBLE = inr ma ->
  nd_dims ma !! 0%nat = Some d0 ->
  0 <= to_int d0 < 1073741824 ->
  mem_ok (mem s) = false \/ mem_ok (tail (mem s)) = false
  \/ mem_ok (tail (tail (mem s))) = false ->
  fails_with (_topology_hessian K [map_obj] s) s MemoryError.
Proof.
  intros Hma Hd0 Hpos Hmem.
  apply nonneg_dim_2 in Hpos.
  destruct s as [h n e m j c]. cbn [mem] in Hmem. unfold fails_with.
  run_forward.
  all: fails_now.
Qed.

Lemma minkowski_out_of_memory K map_obj mask_obj grad_x_obj grad_y_obj hess_xx_obj
    hess_yy_obj hess_xy_obj thresholds_obj sigma_obj s N :
  minkowski_converts map_obj mask_obj grad_x_obj grad_y_obj hess_xx_obj
    hess_yy_obj hess_xy_obj thresholds_obj sigma_obj N ->
  0 <= to_int N - 1 ->
  mem_ok (mem s) = false \/ mem_ok (tail (mem s)) = false
  \/ mem_ok (tail (tail (mem s))) = false
  \/ mem_ok (tail (tail (tail (mem s)))) = false ->
  fails_with
    (_topology_minkowski K
       [map_obj; mask_obj; grad_x_obj; grad_y_obj; hess_xx_obj; hess_yy_obj;
        hess_xy_obj; thresholds_obj; sigma_obj] s)
    s MemoryError.
Proof.
  intros (sigma & ma & gxa & gya & hxxa & hyya & hxya & ta & mk & d0
          & Hs & Hma & Hgx & Hgy & Hxx & Hyy & Hxy & Hta & Hmk & Hd0 & HN) Hpos Hmem.
  pose proof (int_sub_ok _ Hpos) as Hsub.
  apply nonneg_dim_1 in Hpos.
  destruct s as [h n e m j c]. cbn [mem] in Hmem. unfold fails_with.
  destruct (mask_arg_cases _ _ Hmk) as [[Hn ->]|[Hn (a & Ha & ->)]].
  all: run_forward.
  all: fails_now.
Qed.

(** X14: when the allocation of an output array fails, or, in
    [minkowski], that of the result tuple, the call returns NULL with
    [MemoryError]; the kernel has not run, and the converted arguments
    and the outputs that were allocated are released.  The shape of the
    output is one that is accepted: at least one edge is left, and the
    side of the outputs of [gradient] and [hessian] is less than 2^30. *)
Theorem failed_allocation_is_a_MemoryError
    K map_obj mask_obj gx_obj gy_obj hxx_obj hyy_obj hxy_obj ft1_obj ft2_obj
    edges_obj sigma_obj kx_obj ky_obj kz_obj s N ma d0 :
  (peakCount_converts map_obj mask_obj edges_obj sigma_obj N ->
   0 <= to_int N - 1 ->
   mem_ok (mem s) = false ->
   fails_with (_topology_peakCount K [map_obj; mask_obj; edges_obj; sigma_obj] s)
     s MemoryError) /\
  (ob_as_array map_obj NPY_DOUBLE = inr ma ->
   nd_dims ma !! 0%nat = Some d0 -> 0 <= to_int d0 < 1073741824 ->
   mem_ok (mem s) = false \/ mem_ok (tail (mem s)) = false ->
   fails_with (_topology_gradient K [map_obj] s) s MemoryError) /\
  (ob_as_array map_obj NPY_DOUBLE = inr ma ->
   nd_dims ma !! 0%nat = Some d0 -> 0 <= to_int d0 < 1073741824 ->
   mem_ok (mem s) = false \/ mem_ok (tail (mem s)) = false
   \/ mem_ok (tail (tail (mem s))) = false ->
   fails_with (_topology_hessian K [map_obj] s) s MemoryError) /\
  (minkowski_converts map_obj mask_obj gx_obj gy_obj hxx_obj hyy_obj hxy_obj
     edges_obj sigma_obj N ->
   0 <= to_int N - 1 ->
   mem_ok (mem s) = false \/ mem_ok (tail (mem s)) = false
   \/ mem_ok (tail (tail (mem s))) = false
   \/ mem_ok (tail (tail (tail (mem s)))) = false ->
   fails_with
     (_topology_minkowski K
        [map_obj; mask_obj; gx_obj; gy_obj; hxx_obj; hyy_obj; hxy_obj;
         edges_obj; sigma_obj] s) s MemoryError) /\
  (rfft2_converts ft1_obj ft2_obj sigma_obj edges_obj N ->
   0 <= to_int N - 1 ->
   mem_ok (mem s) = false ->
   fails_with (_topology_rfft2_azimuthal K [ft1_obj; ft2_obj; sigma_obj; edges_obj] s)
     s MemoryError) /\
  (rfft3_converts ft1_obj ft2_obj kx_obj ky_obj kz_obj edges_obj N ->
   0 <= to_int N - 1 ->
   mem_ok (mem s) = false \/ mem_ok (tail (mem s)) = false ->
   fails_with
     (_topology_rfft3_azimuthal K
        [ft1_obj; ft2_obj; kx_obj; ky_obj; kz_obj; edges_obj] s) s MemoryError).
Proof.
  split; [apply peakCount_out_of_memory|].
  split; [apply gradient_out_of_memory|].
  split; [apply hessian_out_of_memory|].
  split; [apply minkowski_out_of_memory|].
  split; [apply rfft2_out_of_memory|].
  apply rfft3_out_of_memory.
Qed.

Lemma failed_allocation_is_a_MemoryError_witness :
  fails_with
    (_topology_gradient flat_kernels [array_object NPY_DOUBLE flat_2x2]
       (state_with_memory [true; false]))
    (state_with_memory [true; false]) MemoryError.
Proof.
  apply (proj1 (proj2 (failed_allocation_is_a_MemoryError flat_kernels
           (array_object NPY_DOUBLE flat_2x2) None_object None_object None_object
           None_object None_object None_object None_object None_object None_object
           None_object None_object None_object None_object
           (state_with_memory [true; false]) 0 flat_2x2 2))).
  - reflexivity.
  - reflexivity.
  - split; [vm_compute; discriminate | reflexivity].
  - right. reflexivity.
Defined.

(** ** Outputs too large to be requested *)

Lemma gradient_too_big K map_obj s ma d0 :
  ob_as_array map_obj NPY_DOUBLE = inr ma ->
  nd_dims ma !! 0%nat = Some d0 ->
  1073741824 <= to_int d0 ->
  exists s',
    _topology_gradient K [map_obj] s = Done NULL s' /\
    err s' = Some ValueError /\ mem s' = mem s /\ calls s' = calls s /\
    all_released s s' /\ untouched_before s s'.
Proof.
  intros Hma Hd0 Hbig. apply square_refused in Hbig.
  destruct s as [h n e m j c].
  run_forward.
  eexists. split; [reflexivity|]. split; [reflexivity|]. split; [reflexivity|].
  split; [reflexivity|]. split; [released | untouched].
Qed.

Lemma hessian_too_big K map_obj s ma d0 :
  ob_as_array map_obj NPY_DOUBLE = inr ma ->
  nd_dims ma !! 0%nat = Some d0 ->
  1073741824 <= to_int d0 ->
  exists s',
    _topology_hessian K [map_obj] s = Done NULL s' /\
    err s' = Some ValueError /\ mem s' = mem s /\ calls s' = calls s /\
    all_released s s' /\ untouched_before s s'.
Proof.
  intros Hma Hd0 Hbig. apply square_refused in Hbig.
  destruct s as [h n e m j c].
  run_forward.
  eexists. split; [reflexivity|]. split; [reflexivity|]. split; [reflexivity|].
  split; [reflexivity|]. split; [released | untouched].
Qed.

(** X22: [gradient] and [hessian] request outputs of shape (n, n) for a
    field of n rows, whatever its other extents.  From n = 2^30 on the
    8 n^2 bytes of such an output exceed [NPY_MAX_INTP]: the shape is
    refused with [ValueError] before any memory is requested, the
    converted field is released and the kernel does not run.  A field of
    2^30 rows and no column, which holds no sample, is refused in this
    way. *)
Theorem oversized_output_is_a_ValueError K map_obj s ma d0 :
  ob_as_array map_obj NPY_DOUBLE = inr ma ->
  nd_dims ma !! 0%nat = Some d0 ->
  1073741824 <= to_int d0 ->
  (exists s',
     _topology_gradient K [map_obj] s = Done NULL s' /\
     err s' = Some ValueError /\ mem s' = mem s /\ calls s' = calls s /\
     all_released s s' /\ untouched_before s s') /\
  (exists s',
     _topology_hessian K [map_obj] s = Done NULL s' /\
     err s' = Some ValueError /\ mem s' = mem s /\ calls s' = calls s /\
     all_released s s' /\ untouched_before s s').
Proof.
  intros Hma Hd0 Hbig.
  split; [eapply gradient_too_big | eapply hessian_too_big]; eassumption.
Qed.

Lemma oversized_output_is_a_ValueError_witness :
  nd_wf empty_2_30 /\
  exists s',
    _topology_gradient flat_kernels [array_object NPY_DOUBLE empty_2_30] fresh_state
    = Done NULL s' /\
    err s' = Some ValueError /\ mem s' = mem fresh_state.
Proof.
  split.
  - split; [repeat constructor; lia | reflexivity].
  - destruct (proj1 (oversized_output_is_a_ValueError flat_kernels
                (array_object NPY_DOUBLE empty_2_30) fresh_state empty_2_30
                1073741824 eq_refl eq_refl ltac:(vm_compute; discriminate)))
      as (s' & Hrun & Herr & Hmem & _).
    exists s'. split; [exact Hrun|]. split; [exact Herr | exact Hmem].
Defined.


(** ** The tuple that is not checked *)

Lemma hessian_tuple_allocation_failure K map_obj s ma d0 wxx wyy wxy :
  ob_as_array map_obj NPY_DOUBLE = inr ma ->
  nd_dims ma !! 0%nat = Some d0 ->
  0 <= to_int d0 < 1073741824 ->
  mem_ok (mem s) = true ->
  mem_ok (tail (mem s)) = true ->
  mem_ok (tail (tail (mem s))) = true ->
  mem_ok (tail (tail (tail (mem s)))) = false ->
  (let n := to_int d0 in
   let jxx := filled (junk s (S (next s)) NPY_DOUBLE) (nd_size [n; n]) in
   let jyy := filled (junk s (S (S (next s))) NPY_DOUBLE) (nd_size [n; n]) in
   let jxy := filled (junk s (S (S (S (next s)))) NPY_DOUBLE) (nd_size [n; n]) in
   hessian K (nd_data ma) jxx jyy jxy n = (wxx, wyy, wxy) /\
   in_bounds wxx (length jxx) /\ in_bounds wyy (length jyy) /\
   in_bounds wxy (length jxy)) ->
  _topology_hessian K [map_obj] s = Undefined.
Proof.
  intros Hma Hd0 Hpos Hm0 Hm1 Hm2 Hm3 (Hker & Hbxx & Hbyy & Hbxy).
  apply nonneg_dim_2 in Hpos.
  apply apply_stores_in_bounds in Hbxx. destruct Hbxx as [hxx Hhxx].
  apply apply_stores_in_bounds in Hbyy. destruct Hbyy as [hyy Hhyy].
  apply apply_stores_in_bounds in Hbxy. destruct Hbxy as [hxy Hhxy].
  destruct s as [h n e m j c]. cbn [mem next junk] in *.
  cbv zeta in Hker, Hhxx, Hhyy, Hhxy.
  run_forward. reflexivity.
Qed.

Lemma rfft3_tuple_allocation_failure K ft_map1_obj ft_map2_obj kx_obj ky_obj kz_obj
    kvalues_obj s kpixX kpixY kpixZ a1 a2 ka x0 y0 z0 N wp wh :
  ob_as_double kx_obj = Some kpixX ->
  ob_as_double ky_obj = Some kpixY ->
  ob_as_double kz_obj = Some kpixZ ->
  ob_as_array ft_map1_obj NPY_COMPLEX128 = inr a1 ->
  ob_as_array ft_map2_obj NPY_COMPLEX128 = inr a2 ->
  ob_as_array kvalues_obj NPY_DOUBLE = inr ka ->
  nd_dims a1 !! 0%nat = Some x0 ->
  nd_dims a1 !! 1%nat = Some y0 ->
  nd_dims a1 !! 2%nat = Some z0 ->
  nd_dims ka !! 0%nat = Some N ->
  0 <= to_int N - 1 ->
  mem_ok (mem s) = true ->
  mem_ok (tail (mem s)) = true ->
  mem_ok (tail (tail (mem s))) = false ->
  (let power := zeros NPY_DOUBLE [to_int N - 1] in
   let hits := zeros NPY_LONG [to_int N - 1] in
   azimuthal_rfft3 K (nd_data a1) (nd_data a2) (to_int x0) (to_int y0) (to_int z0)
     kpixX kpixY kpixZ (to_int N) (nd_data ka) power hits = (0, wp, wh) /\
   in_bounds wp (length power) /\ in_bounds wh (length hits)) ->
  _topology_rfft3_azimuthal K
    [ft_map1_obj; ft_map2_obj; kx_obj; ky_obj; kz_obj; kvalues_obj] s = Undefined.
Proof.
  intros Hx Hy Hz H1 H2 Hk Hd0 Hd1 Hd2 HN Hpos Hm0 Hm1 Hm2 (Hker & Hbp & Hbh).
  apply nonneg_dim_1 in Hpos.
  apply apply_stores_in_bounds in Hbp. destruct Hbp as [outp Houtp].
  apply apply_stores_in_bounds in Hbh. destruct Hbh as [outh Houth].
  destruct s as [h n e m j c]. cbn [mem] in Hm0, Hm1, Hm2.
  run_forward. reflexivity.
Qed.

(** X15: [gradient], [hessian] and [rfft3_azimuthal] build their result
    tuple after the kernel has run and do not test [PyTuple_New]: for
    every input on which the outputs are allocated and the kernel
    succeeds, a failure of that last allocation makes the wrapper hand a
    NULL tuple to [PyTuple_SetItem], which is undefined behaviour. *)
Theorem unchecked_tuple_is_a_crash
    K map_obj ft1_obj ft2_obj kx_obj ky_obj kz_obj edges_obj s :
  mem_ok (mem s) = true ->
  mem_ok (tail (mem s)) = true ->
  (gradient_computes K map_obj s ->
   mem_ok (tail (tail (mem s))) = false ->
   _topology_gradient K [map_obj] s = Undefined) /\
  (hessian_computes K map_obj s ->
   mem_ok (tail (tail (mem s))) = true ->
   mem_ok (tail (tail (tail (mem s)))) = false ->
   _topology_hessian K [map_obj] s = Undefined) /\
  (rfft3_computes K ft1_obj ft2_obj kx_obj ky_obj kz_obj edges_obj ->
   mem_ok (tail (tail (mem s))) = false ->
   _topology_rfft3_azimuthal K
     [ft1_obj; ft2_obj; kx_obj; ky_obj; kz_obj; edges_obj] s = Undefined).
Proof.
  intros Hm0 Hm1. split; [|split].
  - intros (ma & d0 & Hma & Hd0 & Hpos & Hb) Hm2. cbv zeta in Hb.
    destruct (gradient_xy K (nd_data ma)
                (filled (junk s (S (next s)) NPY_DOUBLE)
                   (nd_size [to_int d0; to_int d0]))
                (filled (junk s (S (S (next s))) NPY_DOUBLE)
                   (nd_size [to_int d0; to_int d0])) (to_int d0))
      as [wx wy] eqn:Hk.
    cbn [fst snd] in Hb.
    eapply gradient_tuple_allocation_failure; eauto.
  - intros (ma & d0 & Hma & Hd0 & Hpos & Hb) Hm2 Hm3. cbv zeta in Hb.
    destruct (hessian K (nd_data ma)
                (filled (junk s (S (next s)) NPY_DOUBLE)
                   (nd_size [to_int d0; to_int d0]))
                (filled (junk s (S (S (next s))) NPY_DOUBLE)
                   (nd_size [to_int d0; to_int d0]))
                (filled (junk s (S (S (S (next s)))) NPY_DOUBLE)
                   (nd_size [to_int d0; to_int d0])) (to_int d0))
      as [[wxx wyy] wxy] eqn:Hk.
    cbn [fst snd] in Hb.
    eapply hessian_tuple_allocation_failure; eauto.
  - intros (kx & ky & kz & a1 & a2 & ka & x0 & y0 & z0 & N & H) Hm2.
    destruct H as (? & ? & ? & ? & ? & ? & ? & ? & ? & ? & ? & Hb).
    cbv zeta in Hb.
    destruct (azimuthal_rfft3 K (nd_data a1) (nd_data a2) (to_int x0) (to_int y0)
                (to_int z0) kx ky kz (to_int N) (nd_data ka)
                (zeros NPY_DOUBLE [to_int N - 1]) (zeros NPY_LONG [to_int N - 1]))
      as [[st wp] wh] eqn:Hk.
    cbn [fst snd] in Hb. destruct Hb as (-> & Hbp & Hbh).
    eapply rfft3_tuple_allocation_failure; eauto.
Qed.

Lemma hessian_computes_sample :
  hessian_computes flat_kernels (array_object NPY_DOUBLE flat_2x2)
    (state_with_memory [true; true; true; false]).
Proof.
  exists flat_2x2, 2.
  repeat split; try reflexivity.
  - vm_compute. discriminate.
  - vm_compute. repeat constructor.
  - vm_compute. repeat constructor.
  - vm_compute. repeat constructor.
Defined.

Lemma unchecked_tuple_is_a_crash_witness :
  _topology_hessian flat_kernels [array_object NPY_DOUBLE flat_2x2]
    (state_with_memory [true; true; true; false]) = Undefined.
Proof.
  exact (proj1 (proj2 (unchecked_tuple_is_a_crash flat_kernels
           (array_object NPY_DOUBLE flat_2x2) None_object None_object
           None_object None_object None_object None_object
           (state_with_memory [true; true; true; false]) eq_refl eq_refl))
           hessian_computes_sample eq_refl eq_refl).
Defined.

(** ** Extents that are not there *)

Lemma peakCount_no_axis K map_obj mask_obj thresholds_obj sigma_obj s ma ta mk :
  ob_as_double sigma_obj <> None ->
  ob_as_array map_obj NPY_DOUBLE = inr ma ->
  ob_as_array thresholds_obj NPY_DOUBLE = inr ta ->
  mask_arg mask_obj mk ->
  nd_dims ma !! 0%nat = None \/ nd_dims ta !! 0%nat = None ->
  _topology_peakCount K [map_obj; mask_obj; thresholds_obj; sigma_obj] s = Undefined.
Proof.
  intros Hs Hma Hta Hmk Hd.
  destruct (ob_as_double sigma_obj) as [sigma|] eqn:Hsigma; [clear Hs|congruence].
  destruct s as [h n e m j c].
  destruct (mask_arg_cases _ _ Hmk) as [[Hn ->]|[Hn (a & Ha & ->)]].
  all: destruct Hd as [Hd|Hd].
  all: run_forward.
  all: reflexivity.
Qed.

Lemma gradient_no_axis K map_obj s ma :
  ob_as_array map_obj NPY_DOUBLE = inr ma ->
  nd_dims ma !! 0%nat = None ->
  _topology_gradient K [map_obj] s = Undefined.
Proof.
  intros Hma Hd. destruct s as [h n e m j c].
  run_forward. reflexivity.
Qed.

Lemma hessian_no_axis K map_obj s ma :
  ob_as_array map_obj NPY_DOUBLE = inr ma ->
  nd_dims ma !! 0%nat = None ->
  _topology_hessian K [map_obj] s = Undefined.
Proof.
  intros Hma Hd. destruct s as [h n e m j c].
  run_forward. reflexivity.
Qed.

Lemma rfft2_no_axis K ft_map1_obj ft_map2_obj angle_obj lvalues_obj s a1 a2 la :
  ob_as_double angle_obj <> None ->
  ob_as_array ft_map1_obj NPY_COMPLEX128 = inr a1 ->
  ob_as_array ft_map2_obj NPY_COMPLEX128 = inr a2 ->
  ob_as_array lvalues_obj NPY_DOUBLE = inr la ->
  nd_dims a1 !! 1%nat = None ->
  _topology_rfft2_azimuthal K [ft_map1_obj; ft_map2_obj; angle_obj; lvalues_obj] s
    = Undefined.
Proof.
  intros Hs H1 H2 Hl Hd.
  destruct (ob_as_double angle_obj) as [angle|] eqn:Hangle; [clear Hs|congruence].
  destruct s as [h n e m j c].
  run_forward. all: reflexivity.
Qed.

Lemma rfft3_no_axis K ft_map1_obj ft_map2_obj kx_obj ky_obj kz_obj kvalues_obj s
    a1 a2 ka :
  ob_as_double kx_obj <> None ->
  ob_as_double ky_obj <> None ->
  ob_as_double kz_obj <> None ->
  ob_as_array ft_map1_obj NPY_COMPLEX128 = inr a1 ->
  ob_as_array ft_map2_obj NPY_COMPLEX128 = inr a2 ->
  ob_as_array kvalues_obj NPY_DOUBLE = inr ka ->
  nd_dims a1 !! 2%nat = None ->
  _topology_rfft3_azimuthal K
    [ft_map1_obj; ft_map2_obj; kx_obj; ky_obj; kz_obj; kvalues_obj] s = Undefined.
Proof.
  intros Hx Hy Hz H1 H2 Hk Hd.
  destruct (ob_as_double kx_obj) as [kx|] eqn:Hkx; [clear Hx|congruence].
  destruct (ob_as_double ky_obj) as [ky|] eqn:Hky; [clear Hy|congruence].
  destruct (ob_as_double kz_obj) as [kz|] eqn:Hkz; [clear Hz|congruence].
  destruct s as [h n e m j c].
  run_forward. all: reflexivity.
Qed.

Lemma minkowski_no_axis K map_obj mask_obj grad_x_obj grad_y_obj hess_xx_obj
    hess_yy_obj hess_xy_obj thresholds_obj sigma_obj s ma ta mk :
  ob_as_double sigma_obj <> None ->
  ob_as_array map_obj NPY_DOUBLE = inr ma ->
  ob_as_array thresholds_obj NPY_DOUBLE = inr ta ->
  conversion_error
    [(grad_x_obj, NPY_DOUBLE); (grad_y_obj, NPY_DOUBLE); (hess_xx_obj, NPY_DOUBLE);
     (hess_yy_obj, NPY_DOUBLE); (hess_xy_obj, NPY_DOUBLE)] = None ->
  mask_arg mask_obj mk ->
  nd_dims ma !! 0%nat = None \/ nd_dims ta !! 0%nat = None ->
  _topology_minkowski K
    [map_obj; mask_obj; grad_x_obj; grad_y_obj; hess_xx_obj; hess_yy_obj;
     hess_xy_obj; thresholds_obj; sigma_obj] s = Undefined.
Proof.
  intros Hs Hma Hta Hc Hmk Hd.
  destruct (ob_as_double sigma_obj) as [sigma|] eqn:Hsigma; [clear Hs|congruence].
  apply conversion_error_None in Hc.
  inversion Hc as [|? ? [b3 H3] Hc1]; subst; clear Hc.
  inversion Hc1 as [|? ? [b4 H4] Hc2]; subst; clear Hc1.
  inversion Hc2 as [|? ? [b5 H5] Hc3]; subst; clear Hc2.
  inversion Hc3 as [|? ? [b6 H6] Hc4]; subst; clear Hc3.
  inversion Hc4 as [|? ? [b7 H7] _]; subst; clear Hc4.
  cbn [fst snd] in H3, H4, H5, H6, H7.
  destruct s as [h n e m j c].
  destruct (mask_arg_cases _ _ Hmk) as [[Hn ->]|[Hn (a & Ha & ->)]].
  all: destruct Hd as [Hd|Hd].
  all: run_forward.
  all: reflexivity.
Qed.

(** X16: the number of axes of an array is never checked before its
    extents are read.  A map or an array of edges without a first axis (a
    bare number converts to an array of no axis), a first transform with
    fewer than two axes for [rfft2_azimuthal], or fewer than three for
    [rfft3_azimuthal], makes the wrapper read past the shape: undefined
    behaviour, not an exception. *)
Theorem missing_axis_is_not_checked
    K map_obj mask_obj gx_obj gy_obj hxx_obj hyy_obj hxy_obj ft1_obj ft2_obj
    edges_obj sigma_obj kx_obj ky_obj kz_obj s ma ta mk a1 a2 :
  (ob_as_double sigma_obj <> None ->
   ob_as_array map_obj NPY_DOUBLE = inr ma ->
   ob_as_array edges_obj NPY_DOUBLE = inr ta ->
   mask_arg mask_obj mk ->
   nd_dims ma !! 0%nat = None \/ nd_dims ta !! 0%nat = None ->
   _topology_peakCount K [map_obj; mask_obj; edges_obj; sigma_obj] s = Undefined) /\
  (ob_as_array map_obj NPY_DOUBLE = inr ma ->
   nd_dims ma !! 0%nat = None ->
   _topology_gradient K [map_obj] s = Undefined) /\
  (ob_as_array map_obj NPY_DOUBLE = inr ma ->
   nd_dims ma !! 0%nat = None ->
   _topology_hessian K [map_obj] s = Undefined) /\
  (ob_as_double sigma_obj <> None ->
   ob_as_array ft1_obj NPY_COMPLEX128 = inr a1 ->
   ob_as_array ft2_obj NPY_COMPLEX128 = inr a2 ->
   ob_as_array edges_obj NPY_DOUBLE = inr ta ->
   nd_dims a1 !! 1%nat = None ->
   _topology_rfft2_azimuthal K [ft1_obj; ft2_obj; sigma_obj; edges_obj] s
     = Undefined) /\
  (ob_as_double kx_obj <> None ->
   ob_as_double ky_obj <> None ->
   ob_as_double kz_obj <> None ->
   ob_as_array ft1_obj NPY_COMPLEX128 = inr a1 ->
   ob_as_array ft2_obj NPY_COMPLEX128 = inr a2 ->
   ob_as_array edges_obj NPY_DOUBLE = inr ta ->
   nd_dims a1 !! 2%nat = None ->
   _topology_rfft3_azimuthal K
     [ft1_obj; ft2_obj; kx_obj; ky_obj; kz_obj; edges_obj] s = Undefined) /\
  (ob_as_double sigma_obj <> None ->
   ob_as_array map_obj NPY_DOUBLE = inr ma ->
   ob_as_array edges_obj NPY_DOUBLE = inr ta ->
   conversion_error
     [(gx_obj, NPY_DOUBLE); (gy_obj, NPY_DOUBLE); (hxx_obj, NPY_DOUBLE);
      (hyy_obj, NPY_DOUBLE); (hxy_obj, NPY_DOUBLE)] = None ->
   mask_arg mask_obj mk ->
   nd_dims ma !! 0%nat = None \/ nd_dims ta !! 0%nat = None ->
   _topology_minkowski K
     [map_obj; mask_obj; gx_obj; gy_obj; hxx_obj; hyy_obj; hxy_obj;
      edges_obj; sigma_obj] s = Undefined).
Proof.
  split; [apply peakCount_no_axis|].
  split; [apply gradient_no_axis|].
  split; [apply hessian_no_axis|].
  split; [apply rfft2_no_axis|].
  split; [apply rfft3_no_axis|].
  apply minkowski_no_axis.
Qed.

Lemma missing_axis_is_not_checked_witness :
  _topology_gradient flat_kernels [array_object NPY_DOUBLE scalar_field] fresh_state
    = Undefined /\
  _topology_rfft2_azimuthal flat_kernels
    [array_object NPY_COMPLEX128 ft_line; array_object NPY_COMPLEX128 ft_line;
     float_object d_one; array_object NPY_DOUBLE edges_1_2] fresh_state = Undefined.
Proof.
  split.
  - exact (proj1 (proj2 (missing_axis_is_not_checked flat_kernels
             (array_object NPY_DOUBLE scalar_field) None_object
             None_object None_object None_object None_object None_object
             None_object None_object
             None_object None_object None_object None_object None_object
             fresh_state scalar_field scalar_field None ft_line ft_line))
             eq_refl eq_refl).
  - apply (proj1 (proj2 (proj2 (proj2 (missing_axis_is_not_checked flat_kernels
             None_object None_object
             None_object None_object None_object None_object None_object
             (array_object NPY_COMPLEX128 ft_line)
             (array_object NPY_COMPLEX128 ft_line)
             (array_object NPY_DOUBLE edges_1_2) (float_object d_one)
             None_object None_object None_object
             fresh_state scalar_field edges_1_2 None ft_line ft_line))))).
    + simpl. discriminate.
    + reflexivity.
    + reflexivity.
    + reflexivity.
    + reflexivity.
Defined.

(** ** The extents handed to the azimuthal kernels *)



(** ** The Hessian *)

(** X18: for a field of shape (n, m), n at most INT_MAX, [hessian]
    returns the triple (xx, yy, xy), in this order, of arrays of shape
    (n, n): item k holds what the kernel stored through its k-th output
    pointer. *)
Theorem hessian_output_shape K map_obj s ma n m :
  ob_as_array map_obj NPY_DOUBLE = inr ma ->
  nd_dims ma = [n; m] ->
  0 <= n <= INT_MAX ->
  forall p s', _topology_hessian K [map_obj] s = Done p s' -> p <> NULL ->
  exists hxx hyy hxy jxx jyy jxy,
    view s' p = Tup [Item NPY_DOUBLE hxx; Item NPY_DOUBLE hyy; Item NPY_DOUBLE hxy] /\
    nd_dims hxx = [n; n] /\ nd_dims hyy = [n; n] /\ nd_dims hxy = [n; n] /\
    Z.of_nat (length (nd_data hxx)) = n * n /\
    Z.of_nat (length (nd_data hyy)) = n * n /\
    Z.of_nat (length (nd_data hxy)) = n * n /\
    invoked s s' (Call_hessian (nd_data ma) jxx jyy jxy n) /\
    let w := hessian K (nd_data ma) jxx jyy jxy n in
    apply_stores (fst (fst w)) jxx = Some (nd_data hxx) /\
    apply_stores (snd (fst w)) jyy = Some (nd_data hyy) /\
    apply_stores (snd w) jxy = Some (nd_data hxy).
Proof.
  intros Hma Hdims Hn p s' Hrun Hp.
  destruct (hessian_returned _ _ _ _ _ Hrun Hp)
    as (ma' & d0 & wxx & wyy & wxy & hxx & hyy & hxy & Hma' & Hd0 & Hpos
        & _ & _ & _ & _ & Hk & Hxx & Hyy & Hxy & Hview & Hcalls).
  rewrite Hma in Hma'. injection Hma' as <-.
  rewrite Hdims in Hd0. injection Hd0 as <-.
  rewrite (to_int_count _ Hn) in *.
  eexists _, _, _, _, _, _. split; [exact Hview|]. cbn [nd_dims nd_data].
  do 3 (split; [reflexivity|]).
  split; [|split; [|split]].
  - etransitivity; [apply f_equal; exact (apply_stores_length _ _ _ Hxx)|].
    rewrite filled_length, nd_size_2. nia.
  - etransitivity; [apply f_equal; exact (apply_stores_length _ _ _ Hyy)|].
    rewrite filled_length, nd_size_2. nia.
  - etransitivity; [apply f_equal; exact (apply_stores_length _ _ _ Hxy)|].
    rewrite filled_length, nd_size_2. nia.
  - split; [exact Hcalls|]. cbv zeta. rewrite Hk. cbn [fst snd].
    repeat split; assumption.
Qed.

Lemma hessian_ready_sample :
  hessian_ready flat_kernels (array_object NPY_DOUBLE flat_2x2) fresh_state.
Proof.
  exists flat_2x2, 2.
  repeat split; try reflexivity.
  - vm_compute. discriminate.
  - vm_compute. repeat constructor.
  - vm_compute. repeat constructor.
  - vm_compute. repeat constructor.
Defined.

Lemma hessian_output_shape_witness :
  exists p s' hxx hyy hxy,
    _topology_hessian flat_kernels [array_object NPY_DOUBLE flat_2x2] fresh_state
      = Done p s' /\
    view s' p = Tup [Item NPY_DOUBLE hxx; Item NPY_DOUBLE hyy; Item NPY_DOUBLE hxy] /\
    nd_dims hxx = [2; 2] /\ nd_dims hyy = [2; 2] /\ nd_dims hxy = [2; 2].
Proof.
  destruct (proj2 (hessian_returns_iff _ _ _) hessian_ready_sample)
    as (p & s' & Hrun & Hp).
  assert (H : 0 <= 2 <= INT_MAX) by (unfold INT_MAX; lia).
  destruct (hessian_output_shape flat_kernels (array_object NPY_DOUBLE flat_2x2)
              fresh_state flat_2x2 2 2 eq_refl eq_refl H p s' Hrun Hp)
    as (hxx & hyy & hxy & jxx & jyy & jxy & Hview & H1 & H2 & H3 & _).
  exists p, s', hxx, hyy, hxy. repeat split; assumption.
Defined.

(** ** Outputs that are not cleared *)

Lemma untouched_stale_filled s l n (w : stores double) out :
  apply_stores w (filled (junk s l NPY_DOUBLE) n) = Some out ->
  untouched_stale s l w out.
Proof.
  intros H i Hi Hw.
  etransitivity; [exact (apply_stores_untouched _ _ _ i H Hw)|].
  rewrite (apply_stores_length _ _ _ H), filled_length in Hi.
  exact (filled_lookup (junk s l NPY_DOUBLE) _ i Hi).
Qed.

(** X19: the arrays [gradient] and [hessian] return come from
    [PyArray_SimpleNew] and are handed to the kernel as the allocator
    left them: a cell the kernel does not assign holds stale memory, not
    zero. *)
Theorem differential_outputs_are_not_cleared K map_obj s :
  (forall p s', _topology_gradient K [map_obj] s = Done p s' -> p <> NULL ->
   exists map jx jy n gx gy,
     invoked s s' (Call_gradient_xy map jx jy n) /\
     jx = filled (junk s (S (next s)) NPY_DOUBLE) (nd_size [n; n]) /\
     jy = filled (junk s (S (S (next s))) NPY_DOUBLE) (nd_size [n; n]) /\
     view s' p = Tup [Item NPY_DOUBLE gx; Item NPY_DOUBLE gy] /\
     let w := gradient_xy K map jx jy n in
     untouched_stale s (S (next s)) (fst w) (nd_data gx) /\
     untouched_stale s (S (S (next s))) (snd w) (nd_data gy)) /\
  (forall p s', _topology_hessian K [map_obj] s = Done p s' -> p <> NULL ->
   exists map jxx jyy jxy n hxx hyy hxy,
     invoked s s' (Call_hessian map jxx jyy jxy n) /\
     jxx = filled (junk s (S (next s)) NPY_DOUBLE) (nd_size [n; n]) /\
     jyy = filled (junk s (S (S (next s))) NPY_DOUBLE) (nd_size [n; n]) /\
     jxy = filled (junk s (S (S (S (next s)))) NPY_DOUBLE) (nd_size [n; n]) /\
     view s' p = Tup [Item NPY_DOUBLE hxx; Item NPY_DOUBLE hyy; Item NPY_DOUBLE hxy] /\
     let w := hessian K map jxx jyy jxy n in
     untouched_stale s (S (next s)) (fst (fst w)) (nd_data hxx) /\
     untouched_stale s (S (S (next s))) (snd (fst w)) (nd_data hyy) /\
     untouched_stale s (S (S (S (next s)))) (snd w) (nd_data hxy)).
Proof.
  split; intros p s' Hrun Hp.
  - destruct (gradient_returned _ _ _ _ _ Hrun Hp)
      as (ma & d0 & wx & wy & gx & gy & _ & _ & _ & _ & _ & _
          & Hk & Hgx & Hgy & Hview & Hcalls).
    eexists _, _, _, _, _, _. split; [exact Hcalls|].
    split; [reflexivity|]. split; [reflexivity|]. split; [exact Hview|].
    cbv zeta. rewrite Hk. cbn [fst snd nd_data].
    split; eapply untouched_stale_filled; eassumption.
  - destruct (hessian_returned _ _ _ _ _ Hrun Hp)
      as (ma & d0 & wxx & wyy & wxy & hxx & hyy & hxy & _ & _ & _ & _ & _ & _ & _
          & Hk & Hxx & Hyy & Hxy & Hview & Hcalls).
    eexists _, _, _, _, _, _, _, _. split; [exact Hcalls|].
    do 3 (split; [reflexivity|]). split; [exact Hview|].
    cbv zeta. rewrite Hk. cbn [fst snd nd_data].
    split; [|split]; eapply untouched_stale_filled; eassumption.
Qed.

Lemma differential_outputs_are_not_cleared_witness :
  exists p s' gx gy,
    _topology_gradient idle_kernels [array_object NPY_DOUBLE flat_2x2] used_state
      = Done p s' /\
    view s' p = Tup [Item NPY_DOUBLE gx; Item NPY_DOUBLE gy] /\
    nd_data gx !! 0%nat = Some d_one.
Proof.
  assert (Hrun : exists p s',
            _topology_gradient idle_kernels [array_object NPY_DOUBLE flat_2x2]
              used_state = Done p s' /\ p <> NULL).
  { eexists _, _. split; [vm_compute; reflexivity | discriminate]. }
  destruct Hrun as (p & s' & Hrun & Hp).
  destruct (proj1 (differential_outputs_are_not_cleared idle_kernels
              (array_object NPY_DOUBLE flat_2x2) used_state) p s' Hrun Hp)
    as (map & jx & jy & n & gx & gy & _ & _ & _ & Hview & Hx & _).
  exists p, s', gx, gy. split; [exact Hrun|]. split; [exact Hview|].
  apply (Hx 0%nat); [|constructor 1].
  assert (Hlen : 4%nat = length (nd_data gx)).
  { apply (f_equal (fun v => match v with
                             | Tup (Item _ a :: _) => length (nd_data a)
                             | _ => 0%nat
                             end)) in Hview.
    vm_compute in Hrun. injection Hrun as <- <-. exact Hview. }
  exact (eq_ind 4%nat (fun k => (0 < k)%nat) (Nat.lt_0_succ 3) _ Hlen).
Defined.

(** ** Arguments reach the kernel in order *)



(** ** The method table *)

(** X21: every entry of the method table is reachable by its name (no
    entry replaces another), and a name is bound to nothing else: the
    module has exactly the six methods, each taking positional arguments
    only. *)
Theorem every_method_is_reachable_by_its_name K name m :
  lookup_method K name = Some m <->
  In m (module_methods K) /\ ml_name m = name.
Proof.
  split.
  - unfold lookup_method, module_methods. cbn [fold_left ml_name].
    repeat match goal with
      | |- context [String.eqb ?a name] =>
          let E := fresh "E" in
          destruct (String.eqb a name) eqn:E;
          [apply String.eqb_eq in E|]
      end.
    all: intros H; try discriminate H; injection H as <-.
    all: split; [cbn [In]; tauto | assumption].
  - intros [Hm <-]. each_method Hm; reflexivity.
Qed.

Lemma every_method_is_reachable_by_its_name_witness :
  lookup_method flat_kernels "gradient"
  = Some (mk_PyMethodDef "gradient" (_topology_gradient flat_kernels)
            METH_VARARGS gradient_docstring).
Proof.
  apply (proj2 (every_method_is_reachable_by_its_name flat_kernels "gradient"
           (mk_PyMethodDef "gradient" (_topology_gradient flat_kernels)
              METH_VARARGS gradient_docstring))).
  split; [right; left; reflexivity | reflexivity].
Defined.
